(** * NoteTake: the client-side state core of js/app.js, js/ui.js and
      js/gemini.js, embedded as pure functions over an explicit state.

    JavaScript strings are modelled by [string]; the built-in
    [toLowerCase] is whatever the engine supplies (class [Engine]), so
    nothing below depends on how text beyond ASCII is lower-cased.  The
    module-level variables of app.js, the part of the
    document the handlers touch, the pending timers, the suspended [await]s
    and the calls issued to Firestore are the fields of one [State]; every
    handler of app.js is a function [State -> State]. *)

From Stdlib Require Import String Ascii List Bool Arith PArith Lia.
From stdpp Require Import base decidable option list gmap strings.
Import ListNotations.

Local Open Scope string_scope.
Local Open Scope list_scope.

(** ** JavaScript strings *)

Module JsString.

(** [s.toLowerCase()] is a built-in of the JavaScript engine.  It
    lower-cases text as the Unicode standard prescribes, which is no map
    over single characters (a capital sigma becomes one of two letters by
    its place in the word, a dotted capital I becomes two characters), and
    it changes with the version of the standard.  The handlers are
    therefore defined over any such function. *)
Class Engine := { toLowerCase : string -> string }.

(** What every engine does on ASCII text: the letters A to Z become a to
    z and nothing else changes. *)
Definition lower_ascii (c : ascii) : ascii :=
  let n := nat_of_ascii c in
  if (65 <=? n)%nat && (n <=? 90)%nat then ascii_of_nat (n + 32) else c.

Fixpoint fold_ascii (s : string) : string :=
  match s with
  | EmptyString => EmptyString
  | String c s' => String (lower_ascii c) (fold_ascii s')
  end.


(** [s.startsWith(p)] *)
Fixpoint startsWith (s p : string) {struct p} : bool :=
  match p, s with
  | EmptyString, _ => true
  | String _ _, EmptyString => false
  | String a p', String b s' => Ascii.eqb a b && startsWith s' p'
  end.

(** [s.includes(term)]: [term] occurs in [s] at some offset. *)
Fixpoint includes (s term : string) : bool :=
  startsWith s term ||
  match s with
  | EmptyString => false
  | String _ s' => includes s' term
  end.

(** [s.slice(0, n)] *)
Fixpoint slice0 (n : nat) (s : string) : string :=
  match n, s with
  | S n', String c s' => String c (slice0 n' s')
  | _, _ => EmptyString
  end.

(** [s.replace(/[...]/g, '')] for a character class given as a predicate. *)
Fixpoint strip (drop : ascii -> bool) (s : string) : string :=
  match s with
  | EmptyString => EmptyString
  | String c s' => if drop c then strip drop s' else String c (strip drop s')
  end.

(** [!s] is false exactly for a non-empty string. *)
Definition truthy (s : string) : bool :=
  match s with EmptyString => false | String _ _ => true end.

(** [o || d] for a string-or-undefined [o]. *)
Definition or_else (o : option string) (d : string) : string :=
  match o with
  | Some s => if truthy s then s else d
  | None => d
  end.

(** Truthiness of a string-or-null variable. *)
Definition truthy_opt (o : option string) : bool :=
  match o with Some s => truthy s | None => false end.

End JsString.
Import JsString.

(** ** Data model *)

(** A Firestore timestamp is opaque to the client; it is only ever passed
    to [UI.formatDate], so it is represented by its display string. *)
Definition Timestamp := string.

(** The fields of a stored document, [doc.data()], as this client writes
    them ([createNewNote], [handleInput]); each may be missing. *)
Record DocData := {
  d_title : option string;
  d_content : option string;
  d_updatedAt : option Timestamp;
  d_userId : option string
}.

(** One entry of [snapshot.docs]. *)
Record Doc := { doc_id : string; doc_data : DocData }.

(** An element of [notesData]: [{ id: doc.id, ...doc.data() }]. *)
Record Note := {
  id : string;
  title : option string;
  content : option string;
  updatedAt : option Timestamp;
  userId : option string
}.

Definition note_of_doc (d : Doc) : Note :=
  {| id := doc_id d;
     title := d_title (doc_data d);
     content := d_content (doc_data d);
     updatedAt := d_updatedAt (doc_data d);
     userId := d_userId (doc_data d) |}.

(** The signed-in identity handed to the auth observer. *)
Record User := { uid : string; email : option string }.

(** A thrown or rejected value: an error object with [code] and [message]. *)
Record JsError := { code : string; message : string }.

#[global] Instance DocData_eq_dec : EqDecision DocData.
Proof. solve_decision. Defined.
#[global] Instance Doc_eq_dec : EqDecision Doc.
Proof. solve_decision. Defined.
#[global] Instance Note_eq_dec : EqDecision Note.
Proof. solve_decision. Defined.
#[global] Instance User_eq_dec : EqDecision User.
Proof. solve_decision. Defined.
#[global] Instance JsError_eq_dec : EqDecision JsError.
Proof. solve_decision. Defined.

(** ** The document *)

(** A child appended to a container by the two render functions; the
    markup of a card is determined by these values. *)
Inductive Child :=
| NoteCard (noteId cardTitle preview date : string)
| SidebarRow (noteId rowTitle : string) (active : bool).

(** The part of a DOM element the handlers read or write. *)
Record Element := {
  classList : gset string;
  value : string;
  innerText : string;
  children : list Child
}.

Definition add_class (c : string) (el : Element) : Element :=
  {| classList := classList el ∪ {[ c ]}; value := value el;
     innerText := innerText el; children := children el |}.

Definition remove_class (c : string) (el : Element) : Element :=
  {| classList := classList el ∖ {[ c ]}; value := value el;
     innerText := innerText el; children := children el |}.

(** [el.classList.replace(a, b)] does nothing unless [a] is present. *)
Definition replace_class (a b : string) (el : Element) : Element :=
  if bool_decide (a ∈ classList el)
  then add_class b (remove_class a el)
  else el.

Definition set_value (v : string) (el : Element) : Element :=
  {| classList := classList el; value := v;
     innerText := innerText el; children := children el |}.

Definition set_innerText (t : string) (el : Element) : Element :=
  {| classList := classList el; value := value el;
     innerText := t; children := children el |}.

Definition set_children (cs : list Child) (el : Element) : Element :=
  {| classList := classList el; value := value el;
     innerText := innerText el; children := cs |}.

(** [document.getElementById(k)] is [d !! k]; [if (el) el.x = ...] is
    [alter]. *)
Abbreviation DOM := (gmap string Element).

Definition is_hidden (k : string) (d : DOM) : bool :=
  match d !! k with
  | Some el => bool_decide ("hidden" ∈ classList el)
  | None => true
  end.

(** [el ? el.value : ''] *)
Definition value_of (k : string) (d : DOM) : string :=
  match d !! k with Some el => value el | None => "" end.

(** ** The state *)

Inductive View := login | register | dashboard | editor.

Definition view_id (v : View) : string :=
  match v with
  | login => "view-login"
  | register => "view-register"
  | dashboard => "view-dashboard"
  | editor => "view-editor"
  end.

Definition view_name (v : View) : string :=
  match v with
  | login => "login"
  | register => "register"
  | dashboard => "dashboard"
  | editor => "editor"
  end.

(** [Object.values(this.views)] *)
Definition all_views : list View := [login; register; dashboard; editor].

(** What a pending [setTimeout] will run. *)
Inductive TimerTask :=
| TAutosave      (* the closure of handleInput *)
| TFadeStatus.   (* the closure of updateSaveStatus('saved') *)

(** A suspended [await]. *)
Inductive Await := AwAddDoc | AwUpdateDoc | AwDeleteDoc.

(** How a promise settles; [Fulfilled v] carries [docRef.id] for addDoc. *)
Inductive Settled := Fulfilled (v : string) | Rejected (e : JsError).

(** A call issued to Firestore; every write also carries
    [updatedAt: serverTimestamp()]. *)
Inductive RemoteCall :=
| AddDoc (owner : string) (newTitle newContent newUserId : string)
| UpdateDoc (owner noteId : string) (newTitle newContent : string)
| DeleteDoc (owner noteId : string).

#[global] Instance TimerTask_eq_dec : EqDecision TimerTask.
Proof. solve_decision. Defined.
#[global] Instance Await_eq_dec : EqDecision Await.
Proof. solve_decision. Defined.
#[global] Instance RemoteCall_eq_dec : EqDecision RemoteCall.
Proof. solve_decision. Defined.

Record State := mkState {
  (* module variables of app.js *)
  currentUser : option User;
  currentNoteId : option string;
  noteToDeleteId : option string;
  notesData : list Note;
  searchTerm : string;
  autosaveTimeout : option positive;
  (* UI.isEditMode *)
  isEditMode : bool;
  (* the browser *)
  document : DOM;
  cursor : string;
  timers : list (positive * TimerTask);
  nextTimer : positive;
  awaiting : list Await;
  console : list (string * option JsError);
  alerts : list string;
  (* Firestore *)
  subscriptions : list string;
  remote : list RemoteCall
}.

(** Assignments to one field. *)
Definition set_currentUser (v : option User) (s : State) : State :=
  mkState v (currentNoteId s) (noteToDeleteId s) (notesData s)
    (searchTerm s) (autosaveTimeout s) (isEditMode s) (document s)
    (cursor s) (timers s) (nextTimer s) (awaiting s) (console s) (alerts s)
    (subscriptions s) (remote s).
Definition set_currentNoteId (v : option string) (s : State) : State :=
  mkState (currentUser s) v (noteToDeleteId s) (notesData s) (searchTerm s)
    (autosaveTimeout s) (isEditMode s) (document s) (cursor s) (timers s)
    (nextTimer s) (awaiting s) (console s) (alerts s) (subscriptions s)
    (remote s).
Definition set_noteToDeleteId (v : option string) (s : State) : State :=
  mkState (currentUser s) (currentNoteId s) v (notesData s) (searchTerm s)
    (autosaveTimeout s) (isEditMode s) (document s) (cursor s) (timers s)
    (nextTimer s) (awaiting s) (console s) (alerts s) (subscriptions s)
    (remote s).
Definition set_notesData (v : list Note) (s : State) : State :=
  mkState (currentUser s) (currentNoteId s) (noteToDeleteId s) v
    (searchTerm s) (autosaveTimeout s) (isEditMode s) (document s)
    (cursor s) (timers s) (nextTimer s) (awaiting s) (console s) (alerts s)
    (subscriptions s) (remote s).
Definition set_searchTerm (v : string) (s : State) : State :=
  mkState (currentUser s) (currentNoteId s) (noteToDeleteId s) (notesData s)
    v (autosaveTimeout s) (isEditMode s) (document s) (cursor s) (timers s)
    (nextTimer s) (awaiting s) (console s) (alerts s) (subscriptions s)
    (remote s).
Definition set_autosaveTimeout (v : option positive) (s : State) : State :=
  mkState (currentUser s) (currentNoteId s) (noteToDeleteId s) (notesData s)
    (searchTerm s) v (isEditMode s) (document s) (cursor s) (timers s)
    (nextTimer s) (awaiting s) (console s) (alerts s) (subscriptions s)
    (remote s).
Definition set_isEditMode (v : bool) (s : State) : State :=
  mkState (currentUser s) (currentNoteId s) (noteToDeleteId s) (notesData s)
    (searchTerm s) (autosaveTimeout s) v (document s) (cursor s) (timers s)
    (nextTimer s) (awaiting s) (console s) (alerts s) (subscriptions s)
    (remote s).
Definition set_document (v : DOM) (s : State) : State :=
  mkState (currentUser s) (currentNoteId s) (noteToDeleteId s) (notesData s)
    (searchTerm s) (autosaveTimeout s) (isEditMode s) v (cursor s)
    (timers s) (nextTimer s) (awaiting s) (console s) (alerts s)
    (subscriptions s) (remote s).
Definition set_cursor (v : string) (s : State) : State :=
  mkState (currentUser s) (currentNoteId s) (noteToDeleteId s) (notesData s)
    (searchTerm s) (autosaveTimeout s) (isEditMode s) (document s) v
    (timers s) (nextTimer s) (awaiting s) (console s) (alerts s)
    (subscriptions s) (remote s).
Definition set_timers (v : list (positive * TimerTask)) (s : State) : State :=
  mkState (currentUser s) (currentNoteId s) (noteToDeleteId s) (notesData s)
    (searchTerm s) (autosaveTimeout s) (isEditMode s) (document s)
    (cursor s) v (nextTimer s) (awaiting s) (console s) (alerts s)
    (subscriptions s) (remote s).
Definition set_nextTimer (v : positive) (s : State) : State :=
  mkState (currentUser s) (currentNoteId s) (noteToDeleteId s) (notesData s)
    (searchTerm s) (autosaveTimeout s) (isEditMode s) (document s)
    (cursor s) (timers s) v (awaiting s) (console s) (alerts s)
    (subscriptions s) (remote s).
Definition set_awaiting (v : list Await) (s : State) : State :=
  mkState (currentUser s) (currentNoteId s) (noteToDeleteId s) (notesData s)
    (searchTerm s) (autosaveTimeout s) (isEditMode s) (document s)
    (cursor s) (timers s) (nextTimer s) v (console s) (alerts s)
    (subscriptions s) (remote s).
Definition set_console (v : list (string * option JsError)) (s : State) : State :=
  mkState (currentUser s) (currentNoteId s) (noteToDeleteId s) (notesData s)
    (searchTerm s) (autosaveTimeout s) (isEditMode s) (document s)
    (cursor s) (timers s) (nextTimer s) (awaiting s) v (alerts s)
    (subscriptions s) (remote s).
Definition set_alerts (v : list string) (s : State) : State :=
  mkState (currentUser s) (currentNoteId s) (noteToDeleteId s) (notesData s)
    (searchTerm s) (autosaveTimeout s) (isEditMode s) (document s)
    (cursor s) (timers s) (nextTimer s) (awaiting s) (console s) v
    (subscriptions s) (remote s).
Definition set_subscriptions (v : list string) (s : State) : State :=
  mkState (currentUser s) (currentNoteId s) (noteToDeleteId s) (notesData s)
    (searchTerm s) (autosaveTimeout s) (isEditMode s) (document s)
    (cursor s) (timers s) (nextTimer s) (awaiting s) (console s) (alerts s)
    v (remote s).
Definition set_remote (v : list RemoteCall) (s : State) : State :=
  mkState (currentUser s) (currentNoteId s) (noteToDeleteId s) (notesData s)
    (searchTerm s) (autosaveTimeout s) (isEditMode s) (document s)
    (cursor s) (timers s) (nextTimer s) (awaiting s) (console s) (alerts s)
    (subscriptions s) v.

(** ** Browser primitives *)

Definition console_error (label : string) (e : option JsError) (s : State)
  : State :=
  set_console (console s ++ [(label, e)]) s.

Definition alert (msg : string) (s : State) : State :=
  set_alerts (alerts s ++ [msg]) s.

(** [setTimeout(task, _)]: the handle is a fresh positive integer. *)
Definition setTimeout (task : TimerTask) (s : State) : positive * State :=
  (nextTimer s,
   set_nextTimer (Pos.succ (nextTimer s))
     (set_timers (timers s ++ [(nextTimer s, task)]) s)).

(** [clearTimeout(t)]: no effect on a handle that already ran. *)
Definition clearTimeout (t : positive) (s : State) : State :=
  set_timers (List.filter (fun p => negb (Pos.eqb (fst p) t)) (timers s)) s.

Definition on_element (k : string) (f : Element -> Element) (s : State)
  : State :=
  set_document (alter f k (document s)) s.

(** The double quote character. *)
Definition dq : string := String "034"%char EmptyString.

(** ** js/ui.js *)

Module UI.

Definition hide_all_views (d : DOM) : DOM :=
  foldl (fun d w => alter (add_class "hidden") (view_id w) d) d all_views.

(** [UI.showView(viewName)] *)
Definition showView (v : View) (s : State) : State :=
  let d := hide_all_views (document s) in
  match d !! view_id v with
  | Some _ => set_document (alter (remove_class "hidden") (view_id v) d) s
  | None =>
      console_error ("View " +:+ dq +:+ view_name v +:+ dq +:+ " not found.")
        None (set_document d s)
  end.

(** [UI.formatDate(timestamp)] *)
Definition formatDate (t : option Timestamp) : string :=
  match t with
  | None => "Just now"
  | Some shown => shown
  end.

Inductive SaveStatus := saving | saved | error.

(** [UI.updateSaveStatus(status)] *)
Definition updateSaveStatus (status : SaveStatus) (s : State) : State :=
  match document s !! "save-status" with
  | None => s
  | Some el0 =>
      let el := remove_class "opacity-0" (remove_class "hidden" el0) in
      let put el' := set_document (<["save-status" := el']> (document s)) s in
      match status with
      | saving =>
          put (remove_class "text-red-500"
                 (replace_class "text-brand-blue" "text-yellow-500"
                    (set_innerText "Saving..." el)))
      | saved =>
          snd (setTimeout TFadeStatus
                 (put (replace_class "text-yellow-500" "text-brand-blue"
                         (set_innerText "All changes saved" el))))
      | error =>
          put (replace_class "text-yellow-500" "text-red-500"
                 (set_innerText "Error saving" el))
      end
  end.

(** The closure scheduled by [updateSaveStatus('saved')]. *)
Definition fadeStatus (s : State) : State :=
  on_element "save-status" (add_class "opacity-0") s.

End UI.

(** ** js/app.js *)

Module app.

(** [app.showDashboard()] *)
Definition showDashboard (s : State) : State :=
  UI.showView dashboard (set_currentNoteId None s).

(** The predicate of [notesData.filter(...)] in [renderDashboard]. *)
Definition matches {js : Engine} (term : string) (note : Note) : bool :=
  let term := toLowerCase term in
  let title := toLowerCase (or_else (title note) "") in
  let content := toLowerCase (or_else (content note) "") in
  includes title term || includes content term.

(** [filteredNotes] of [renderDashboard]. *)
Definition filteredNotes {js : Engine} (notes : list Note) (term : string)
  : list Note :=
  List.filter (matches term) notes.

(** The character class [[#*_`\[\]]]. *)
Definition is_markup (c : ascii) : bool :=
  existsb (Ascii.eqb c) (list_ascii_of_string "#*_`[]").

Definition card (note : Note) : Child :=
  NoteCard (id note)
    (or_else (title note) "Untitled Note")
    (match content note with
     | Some c =>
         if truthy c
         then slice0 120 (strip is_markup c)
              +:+ (if (120 <? String.length c)%nat then "..." else "")
         else "No content"
     | None => "No content"
     end)
    (UI.formatDate (updatedAt note)).

(** [app.renderDashboard()] *)
Definition renderDashboard {js : Engine} (s : State) : State :=
  match document s !! "notes-grid" with
  | None => s
  | Some _ =>
      let s1 := on_element "notes-grid" (set_children []) s in
      let filtered := filteredNotes (notesData s1) (searchTerm s1) in
      if (length filtered =? 0)%nat then
        match document s1 !! "empty-state" with
        | Some _ =>
            on_element "empty-state p"
              (set_innerText (if truthy (searchTerm s1)
                              then "No matching notes found."
                              else "No notes yet."))
              (on_element "empty-state" (remove_class "hidden") s1)
        | None => s1
        end
      else
        on_element "notes-grid" (set_children (map card filtered))
          (on_element "empty-state" (add_class "hidden") s1)
  end.

Definition row (current : option string) (note : Note) : Child :=
  SidebarRow (id note) (or_else (title note) "Untitled")
    (bool_decide (Some (id note) = current)).

(** [app.renderSidebar()] *)
Definition renderSidebar (s : State) : State :=
  on_element "sidebar-notes-list"
    (set_children (map (row (currentNoteId s)) (notesData s))) s.

(** [app.openNote(noteId)] *)
Definition openNote (noteId : string) (s : State) : State :=
  let s := set_currentNoteId (Some noteId) s in
  match List.find (fun n => String.eqb (id n) noteId) (notesData s) with
  | None => showDashboard s
  | Some note =>
      let s := on_element "note-title"
                 (set_value (or_else (title note) "")) s in
      let s := on_element "note-content"
                 (set_value (or_else (content note) "")) s in
      let s := on_element "last-edited"
                 (set_innerText
                    ("Last edited: " +:+ UI.formatDate (updatedAt note))) s in
      let s := set_isEditMode true s in
      let s := on_element "note-content" (remove_class "hidden") s in
      let s := on_element "note-preview" (add_class "hidden") s in
      (* the text of the indicator's markup *)
      let s := on_element "mode-indicator"
                 (set_innerText "EDIT MODE | Ctrl+E") s in
      renderSidebar (UI.showView editor s)
  end.

(** [app.requestDelete(e, id)] *)
Definition requestDelete (noteId : string) (s : State) : State :=
  if truthy noteId
  then on_element "modal-delete" (remove_class "hidden")
         (set_noteToDeleteId (Some noteId) s)
  else s.

(** [app.closeModal()] *)
Definition closeModal (s : State) : State :=
  on_element "modal-delete" (add_class "hidden") (set_noteToDeleteId None s).

(** [app.confirmDelete()] up to its [await]: the guard, then the call
    [deleteDoc(doc(db, 'users', uid, 'notes', noteToDeleteId))]. *)
Definition confirmDelete (s : State) : State :=
  match currentUser s with
  | Some user =>
      if truthy_opt (noteToDeleteId s)
      then set_awaiting (awaiting s ++ [AwDeleteDoc])
             (set_remote
                (remote s ++ [DeleteDoc (uid user)
                                (default "" (noteToDeleteId s))]) s)
      else s
  | None => s
  end.

(** [app.confirmDelete()] after its [await]: the rest of the [try] when
    the promise fulfils, the [catch] when it rejects. *)
Definition confirmDelete_resume (r : Settled) (s : State) : State :=
  match r with
  | Fulfilled _ =>
      let s := if bool_decide (currentNoteId s = noteToDeleteId s)
               then showDashboard s else s in
      closeModal s
  | Rejected e => console_error "Error deleting note:" (Some e) s
  end.

(** The closure [handleInput] hands to [setTimeout], up to its [await]. *)
Definition autosave (s : State) : State :=
  match currentUser s with
  | Some user =>
      if truthy_opt (currentNoteId s)
      then set_awaiting (awaiting s ++ [AwUpdateDoc])
             (set_remote
                (remote s ++ [UpdateDoc (uid user)
                                (default "" (currentNoteId s))
                                (value_of "note-title" (document s))
                                (value_of "note-content" (document s))]) s)
      else s
  | None => s
  end.

(** The same closure after its [await]. *)
Definition autosave_resume (r : Settled) (s : State) : State :=
  match r with
  | Fulfilled _ =>
      on_element "last-edited" (set_innerText "Last edited: Just now")
        (UI.updateSaveStatus UI.saved s)
  | Rejected e =>
      UI.updateSaveStatus UI.error
        (console_error "Error saving:" (Some e) s)
  end.

(** [app.handleInput()] *)
Definition handleInput (s : State) : State :=
  let s := UI.updateSaveStatus UI.saving s in
  let s := match autosaveTimeout s with
           | Some t => clearTimeout t s
           | None => s
           end in
  let '(t, s) := setTimeout TAutosave s in
  set_autosaveTimeout (Some t) s.

(** [app.createNewNote()] up to its [await]. *)
Definition createNewNote (s : State) : State :=
  match currentUser s with
  | None => alert "Please log in to create notes." s
  | Some user =>
      set_awaiting (awaiting s ++ [AwAddDoc])
        (set_remote (remote s ++ [AddDoc (uid user) "" "" (uid user)])
           (set_cursor "wait" s))
  end.

(** [app.createNewNote()] after its [await], with its [finally]. *)
Definition createNewNote_resume (r : Settled) (s : State) : State :=
  set_cursor "default"
    match r with
    | Fulfilled newId => openNote newId s
    | Rejected e =>
        alert ("Could not create note. Please check your network connection or AdBlocker settings."
               +:+ String "010"%char (String "010"%char (message e)))
          (console_error "Error adding document: " (Some e) s)
    end.

End app.

(** ** The listeners registered at the end of app.js *)

(** The success callback of [onSnapshot]. *)
Definition onSnapshot {js : Engine} (docs : list Doc) (s : State) : State :=
  app.renderSidebar (app.renderDashboard
    (set_notesData (map note_of_doc docs) s)).

(** The error callback of [onSnapshot]. *)
Definition onSnapshotError (e : JsError) (s : State) : State :=
  console_error "Firestore Listen Error:" (Some e) s.

(** The observer handed to [onAuthStateChanged]. *)
Definition onAuthStateChanged (user : option User) (s : State) : State :=
  let s := set_currentUser user s in
  match user with
  | Some u =>
      let s := UI.showView dashboard s in
      let s := on_element "user-email-display"
                 (set_innerText (or_else (email u) "User")) s in
      (* onSnapshot(query(...)): the listener's handle is dropped *)
      set_subscriptions (subscriptions s ++ [uid u]) s
  | None => set_notesData [] (UI.showView login s)
  end.

(** The [input] listener of the search box. *)
Definition onSearchInput {js : Engine} (v : string) (s : State) : State :=
  app.renderDashboard (set_searchTerm v s).

(** The two editor fields. *)
Inductive Field := note_title | note_content.

Definition field_id (f : Field) : string :=
  match f with
  | note_title => "note-title"
  | note_content => "note-content"
  end.

(** The user changes a field to [v]; its [input] listener, attached when
    the element exists, calls [app.handleInput]. *)
Definition onInput (f : Field) (v : string) (s : State) : State :=
  match document s !! field_id f with
  | Some _ => app.handleInput (on_element (field_id f) (set_value v) s)
  | None => s
  end.

(** ** The event loop *)

Inductive Event :=
| EAuthStateChanged (user : option User)
| ESnapshot (docs : list Doc)
| ESnapshotError (e : JsError)
| EOpenNote (noteId : string)
| EShowDashboard
| ESearchInput (v : string)
| EInput (f : Field) (v : string)
| ERequestDelete (noteId : string)
| ECloseModal
| EConfirmDelete
| ECreateNewNote
| ETimer (t : positive)
| ESettle (a : Await) (r : Settled).

(** A timer that is still pending runs its task once. *)
Definition fire (t : positive) (s : State) : State :=
  match List.find (fun p => Pos.eqb (fst p) t) (timers s) with
  | Some (_, task) =>
      let s := clearTimeout t s in
      match task with
      | TAutosave => app.autosave s
      | TFadeStatus => UI.fadeStatus s
      end
  | None => s
  end.

Fixpoint remove_first (a : Await) (l : list Await) : list Await :=
  match l with
  | [] => []
  | b :: l' => if bool_decide (a = b) then l' else b :: remove_first a l'
  end.

(** A suspended [await] resumes when its promise settles. *)
Definition settle (a : Await) (r : Settled) (s : State) : State :=
  if bool_decide (a ∈ awaiting s) then
    let s := set_awaiting (remove_first a (awaiting s)) s in
    match a with
    | AwAddDoc => app.createNewNote_resume r s
    | AwUpdateDoc => app.autosave_resume r s
    | AwDeleteDoc => app.confirmDelete_resume r s
    end
  else s.

Definition step {js : Engine} (e : Event) (s : State) : State :=
  match e with
  | EAuthStateChanged user => onAuthStateChanged user s
  | ESnapshot docs => onSnapshot docs s
  | ESnapshotError err => onSnapshotError err s
  | EOpenNote noteId => app.openNote noteId s
  | EShowDashboard => app.showDashboard s
  | ESearchInput v => onSearchInput v s
  | EInput f v => onInput f v s
  | ERequestDelete noteId => app.requestDelete noteId s
  | ECloseModal => app.closeModal s
  | EConfirmDelete => app.confirmDelete s
  | ECreateNewNote => app.createNewNote s
  | ETimer t => fire t s
  | ESettle a r => settle a r s
  end.

(** The handlers run one after another, in the order of the events. *)
Definition run {js : Engine} (es : list Event) (s : State) : State :=
  foldl (fun s e => step e s) s es.

(** The state when the module has been loaded into a document [d]. *)
Definition init (d : DOM) : State :=
  {| currentUser := None; currentNoteId := None; noteToDeleteId := None;
     notesData := []; searchTerm := ""; autosaveTimeout := None;
     isEditMode := true; document := d; cursor := "default";
     timers := []; nextTimer := 1%positive; awaiting := [];
     console := []; alerts := []; subscriptions := []; remote := [] |}.

(** ** js/gemini.js *)

Module GeminiService.

(** What one pass through the body of the [try] in [generateContent]
    does: it yields [response.text()] or throws. *)
Inductive Outcome := Text (t : string) | Throws (e : JsError).

(** The Google SDK, outside the repository: whether
    [new GoogleGenerativeAI(key)] returns normally, and the outcome of
    asking a model for a prompt through a client made with [key]. *)
Record Sdk := {
  construct : string -> bool;
  ask : string -> string -> string -> Outcome
}.

(** The object [GeminiService], the storage item it keeps, and what it
    did: the models it asked, in order, and its console lines. *)
Record Service := {
  apiKey : option string;
  genAI : option string;            (* the client, known by its key *)
  gemini_api_key : option string;   (* localStorage item *)
  asked : list string;
  logged : list string
}.

(** [apiKey: 'Your API Key', genAI: null] *)
Definition fresh (stored : option string) : Service :=
  {| apiKey := Some "Your API Key"; genAI := None;
     gemini_api_key := stored; asked := []; logged := [] |}.

Definition is_space (c : ascii) : bool :=
  let n := nat_of_ascii c in
  (n =? 32)%nat || ((9 <=? n)%nat && (n <=? 13)%nat).

Fixpoint trimStart (s : string) : string :=
  match s with
  | EmptyString => EmptyString
  | String c s' => if is_space c then trimStart s' else s
  end.

(** [s.trimEnd()] *)
Fixpoint trimEnd (s : string) : string :=
  match s with
  | EmptyString => EmptyString
  | String c s' =>
      match trimEnd s' with
      | EmptyString => if is_space c then EmptyString else String c EmptyString
      | rest => String c rest
      end
  end.

(** [s.trim()] *)
Definition trim (s : string) : string := trimEnd (trimStart s).

(** [a || b || c] picks the first truthy operand. *)
Definition first_truthy (os : list (option string)) : option string :=
  match List.find truthy_opt os with
  | Some o => o
  | None => None
  end.

(** [initialize(key)] *)
Definition initialize (sdk : Sdk) (key : option string) (g : Service)
  : Service :=
  match first_truthy [key; apiKey g; gemini_api_key g] with
  | Some finalKey =>
      let k := trim finalKey in
      {| apiKey := Some k;
         genAI := if construct sdk k then Some k else None;
         gemini_api_key := Some k;
         asked := asked g;
         logged := if construct sdk k then logged g
                   else logged g ++ ["Failed to initialize Gemini Client:"] |}
  | None => g
  end.

(** [setApiKey(key)] *)
Definition setApiKey (sdk : Sdk) (key : string) (g : Service) : Service :=
  initialize sdk (Some key) g.

(** [modelsToTry] *)
Definition modelsToTry : list string :=
  ["gemini-2.5-flash"; "gemini-2.5-flash-001"].

(** What an [async] method gives its caller. *)
Inductive Completion := Returned (text : string) | Threw (msg : string).

Definition note_asked (m : string) (g : Service) : Service :=
  {| apiKey := apiKey g; genAI := genAI g;
     gemini_api_key := gemini_api_key g;
     asked := asked g ++ [m]; logged := logged g |}.

Definition note_logged (l : string) (g : Service) : Service :=
  {| apiKey := apiKey g; genAI := genAI g;
     gemini_api_key := gemini_api_key g;
     asked := asked g; logged := logged g ++ [l] |}.

(** The [for ... of] loop of [generateContent] and the [throw] after it. *)
Fixpoint try_models (sdk : Sdk) (client prompt : string)
    (models : list string) (lastError : option JsError) (g : Service)
  : Completion * Service :=
  match models with
  | [] =>
      (Threw ("All models failed. Last error: "
              +:+ match lastError with
                  | Some e => message e
                  | None => "Unknown error"
                  end), g)
  | modelName :: rest =>
      let g := note_asked modelName g in
      match ask sdk client modelName prompt with
      | Text t =>
          (Returned t,
           note_logged (" Gemini Success! Using model: " +:+ modelName) g)
      | Throws e => try_models sdk client prompt rest (Some e) g
      end
  end.

(** [generateContent(prompt)] *)
Definition generateContent (sdk : Sdk) (prompt : string) (g : Service)
  : Completion * Service :=
  let g := initialize sdk None g in
  match genAI g with
  | None =>
      (Threw "Gemini Client not initialized. Please check your API Key.", g)
  | Some client => try_models sdk client prompt modelsToTry None g
  end.

(** The attempt on [modelName] throws. *)
Definition fails (sdk : Sdk) (client prompt modelName : string) : Prop :=
  exists e, ask sdk client modelName prompt = Throws e.

End GeminiService.

(** ** Notions the statements below use *)

#[global] Instance View_eq_dec : EqDecision View.
Proof. solve_decision. Defined.

(** View [v] is the one on screen: of the four view elements exactly
    [v]'s does not carry the class [hidden]. *)
Definition shows (v : View) (d : DOM) : Prop :=
  forall w : View, is_hidden (view_id w) d = bool_decide (w <> v).

Definition has_views (d : DOM) : Prop :=
  forall w : View, is_Some (d !! view_id w).

(** [s'] differs from [s] at most in the cache and in what the two render
    functions draw. *)
Definition same_session (s s' : State) : Prop :=
  currentUser s' = currentUser s
  /\ currentNoteId s' = currentNoteId s
  /\ noteToDeleteId s' = noteToDeleteId s
  /\ awaiting s' = awaiting s
  /\ remote s' = remote s
  /\ (forall w : View, document s' !! view_id w = document s !! view_id w).

Definition is_autosave (p : positive * TimerTask) : bool :=
  match snd p with TAutosave => true | TFadeStatus => false end.

(** What [setTimeout] and [clearTimeout] keep true of the pending timers:
    handles are distinct and below the next handle, and a pending autosave
    timer is the one [autosaveTimeout] names. *)
Definition timers_wf (s : State) : Prop :=
  NoDup (map fst (timers s))
  /\ Forall (fun p => (fst p < nextTimer s)%positive) (timers s)
  /\ Forall (fun p => is_autosave p = true -> autosaveTimeout s = Some (fst p))
       (timers s).

(** The pending timers once [handleInput] has cleared the one it holds. *)
Definition not_timer (t : positive) (p : positive * TimerTask) : bool :=
  negb (Pos.eqb (fst p) t).

Definition without_autosave (s : State) : list (positive * TimerTask) :=
  match autosaveTimeout s with
  | Some t => List.filter (not_timer t) (timers s)
  | None => timers s
  end.

(** [s'] has the timers, the next handle and the held handle of [s]. *)
Definition same_timers (s s' : State) : Prop :=
  timers s' = timers s
  /\ nextTimer s' = nextTimer s
  /\ autosaveTimeout s' = autosaveTimeout s.

(** The states the event loop can reach from a freshly loaded page. *)
Definition reachable {js : Engine} (s : State) : Prop :=
  exists (d : DOM) (es : list Event), s = run es (init d).

(** Exactly one autosave timer is pending, with handle [t]; none is. *)
Definition armed (t : positive) (s : State) : Prop :=
  NoDup (map fst (timers s))
  /\ List.filter is_autosave (timers s) = [(t, TAutosave)].

Definition disarmed (s : State) : Prop :=
  List.filter is_autosave (timers s) = [].

(** The update call the autosave closure issues in state [s] for an
    identity [user] and an open note [noteId]. *)
Definition save_call (user : User) (noteId : string) (s : State) : RemoteCall :=
  UpdateDoc (uid user) noteId
    (value_of "note-title" (document s)) (value_of "note-content" (document s)).

(** [s'] has the identity, the open note and the editor fields of [s]. *)
Definition same_editor (s s' : State) : Prop :=
  currentUser s' = currentUser s
  /\ currentNoteId s' = currentNoteId s
  /\ (forall k, value_of k (document s') = value_of k (document s)).

(** What the field [k] of document [d] reads once [x] has been assigned
    to it under [if (el)]: [x] if the element exists, [''] otherwise. *)
Definition shown_in (k : string) (d : DOM) (x : string) : string :=
  match d !! k with
  | Some _ => x
  | None => ""
  end.

(** The update calls among the calls issued. *)
Definition is_update (c : RemoteCall) : bool :=
  match c with UpdateDoc _ _ _ _ => true | _ => false end.

(** *** Case-insensitive containment, as the specification words it *)










(** [out] is [l] with exactly the elements satisfying [P] kept, in the
    order of [l]. *)
Inductive kept {A} (P : A -> Prop) : list A -> list A -> Prop :=
| kept_nil : kept P [] []
| kept_yes x l out : P x -> kept P l out -> kept P (x :: l) (x :: out)
| kept_no x l out : ~ P x -> kept P l out -> kept P (x :: l) out.

(** ** A concrete page and session, for examples *)

Module Sample.

(** The engine of the examples.  They hold ASCII text only, which every
    engine lower-cases alike; what this one does to other text is of no
    account. *)
#[global] Instance engine : Engine := {| toLowerCase := fold_ascii |}.

Definition blank : Element :=
  {| classList := ∅; value := ""; innerText := ""; children := [] |}.

Definition concealed : Element := add_class "hidden" blank.

(** A document with the elements app.js looks up, the login view showing. *)
Definition page : DOM :=
  list_to_map
    [("view-login", blank); ("view-register", concealed);
     ("view-dashboard", concealed); ("view-editor", concealed);
     ("note-title", blank); ("note-content", blank);
     ("note-preview", concealed); ("last-edited", blank);
     ("mode-indicator", blank); ("save-status", concealed);
     ("notes-grid", blank); ("empty-state", concealed);
     ("empty-state p", blank); ("sidebar-notes-list", blank);
     ("modal-delete", concealed); ("user-email-display", blank)].

Definition alice : User := {| uid := "u1"; email := Some "alice@example.org" |}.

Definition stored (i t c : string) : Doc :=
  {| doc_id := i;
     doc_data := {| d_title := Some t; d_content := Some c;
                    d_updatedAt := Some "Oct 12, 02:30 PM";
                    d_userId := Some "u1" |} |}.

(** The cache of the specification's scenario. *)
Definition snapshot : list Doc :=
  [stored "a" "Groceries" "milk, eggs"; stored "b" "Plan" "roadmap"].

(** Signed in, both notes cached, on the dashboard. *)
Definition on_dashboard : State :=
  run [EAuthStateChanged (Some alice); ESnapshot snapshot] (init page).

(** Note [a] open in the editor. *)
Definition editing_a : State := run [EOpenNote "a"] on_dashboard.

(** The same with a deletion of [a], or of [b], awaiting confirmation. *)
Definition deleting_a : State := run [ERequestDelete "a"] editing_a.
Definition deleting_b : State := run [ERequestDelete "b"] editing_a.

(** What Firestore reports to a listener that lost its permission. *)
Definition denied : JsError :=
  {| code := "permission-denied";
     message := "Missing or insufficient permissions." |}.

(** An SDK whose constructor throws, though its models would answer. *)
Definition broken_sdk : GeminiService.Sdk :=
  {| GeminiService.construct := fun _ => false;
     GeminiService.ask := fun _ _ _ => GeminiService.Text "fine" |}.

(** An SDK whose first model is overloaded and whose second answers. *)
Definition flaky_sdk : GeminiService.Sdk :=
  {| GeminiService.construct := fun _ => true;
     GeminiService.ask := fun _ m _ =>
       if String.eqb m "gemini-2.5-flash"
       then GeminiService.Throws {| code := "503"; message := "overloaded" |}
       else GeminiService.Text "fine" |}.

(** An SDK that rejects every call. *)
Definition dead_sdk : GeminiService.Sdk :=
  {| GeminiService.construct := fun _ => true;
     GeminiService.ask := fun _ m _ =>
       GeminiService.Throws {| code := "400"; message := "bad key for " +:+ m |} |}.

End Sample.

(** ** More of js/app.js and js/ui.js: handlers that read elements
       without a guard *)

(** How a handler ends: normally, or on the TypeError of a property read
    on [null] (a missing element), which leaves the state as the
    statements before it made it. *)
Inductive Ending := Completed | TypeError.

(** A run of [UI.toggleEditorMode]: how it ended, the state it left, and
    the markdown sources it handed to [renderMarkdownToElement] (with the
    id of the target element). *)
Record Run := {
  ending : Ending;
  final : State;
  rendered : list (string * string)
}.

Module More.

(** [UI.toggleEditorMode()]; the indicator holds the text of its markup,
    and [textarea.focus()] changes nothing that is modelled. *)
Definition toggleEditorMode (s : State) : Run :=
  let s := set_isEditMode (negb (isEditMode s)) s in
  if isEditMode s then
    match document s !! "note-content" with
    | None => {| ending := TypeError; final := s; rendered := [] |}
    | Some _ =>
        let s := on_element "note-content" (remove_class "hidden") s in
        match document s !! "note-preview" with
        | None => {| ending := TypeError; final := s; rendered := [] |}
        | Some _ =>
            let s := on_element "note-preview" (add_class "hidden") s in
            match document s !! "mode-indicator" with
            | None => {| ending := TypeError; final := s; rendered := [] |}
            | Some _ =>
                {| ending := Completed;
                   final := on_element "mode-indicator"
                              (set_innerText "EDIT MODE | Ctrl+E") s;
                   rendered := [] |}
            end
        end
    end
  else
    match document s !! "note-content" with
    | None => {| ending := TypeError; final := s; rendered := [] |}
    | Some textarea =>
        let shown := [(value textarea, "note-preview")] in
        let s := on_element "note-content" (add_class "hidden") s in
        match document s !! "note-preview" with
        | None => {| ending := TypeError; final := s; rendered := shown |}
        | Some _ =>
            let s := on_element "note-preview" (remove_class "hidden") s in
            match document s !! "mode-indicator" with
            | None => {| ending := TypeError; final := s; rendered := shown |}
            | Some _ =>
                {| ending := Completed;
                   final := on_element "mode-indicator"
                              (set_innerText "READ MODE | Ctrl+E") s;
                   rendered := shown |}
            end
        end
    end.

(** [app.closeAIModal()] *)
Definition closeAIModal (s : State) : State :=
  on_element "modal-ai" (add_class "hidden") s.

(** [app.setAIPrompt(text)] *)
Definition setAIPrompt (text : string) (s : State) : State :=
  on_element "ai-prompt" (set_value text) s.

(** Two line feeds. *)
Definition blank_line : string :=
  String "010"%char (String "010"%char EmptyString).

(** [app.applyAIResult(mode)] *)
Definition applyAIResult (mode : string) (s : State) : Ending * State :=
  match document s !! "ai-result" with
  | None => (TypeError, s)
  | Some result =>
      let resultText := innerText result in
      match document s !! "note-content" with
      | None => (Completed, s)
      | Some contentEl =>
          let text := if String.eqb mode "replace"
                      then resultText
                      else value contentEl +:+ blank_line +:+ resultText in
          (Completed,
           closeAIModal
             (app.handleInput (on_element "note-content" (set_value text) s)))
      end
  end.

(** [GeminiService.getApiKey()] *)
Definition getApiKey (g : GeminiService.Service)
  : option string * GeminiService.Service :=
  if truthy_opt (GeminiService.apiKey g) then (GeminiService.apiKey g, g)
  else
    (GeminiService.gemini_api_key g,
     {| GeminiService.apiKey := GeminiService.gemini_api_key g;
        GeminiService.genAI := GeminiService.genAI g;
        GeminiService.gemini_api_key := GeminiService.gemini_api_key g;
        GeminiService.asked := GeminiService.asked g;
        GeminiService.logged := GeminiService.logged g |}).

(** [GeminiService.summarize(text)] *)
Definition summarize (sdk : GeminiService.Sdk) (text : string)
    (g : GeminiService.Service)
  : GeminiService.Completion * GeminiService.Service :=
  GeminiService.generateContent sdk
    ("Please summarize the following note concisely in Markdown format:"
     +:+ blank_line +:+ text) g.

End More.

(** Note [a] open on a page that also has the AI modal, its result
    element holding [t]. *)
Definition with_ai_result (t : string) : State :=
  set_document
    (<["ai-result" := set_innerText t Sample.blank]>
       (<["modal-ai" := Sample.blank]> (document Sample.editing_a)))
    Sample.editing_a.

(** *** Notions the further statements use *)

(** The text [updateSaveStatus] writes for a status. *)
Definition status_text (st : UI.SaveStatus) : string :=
  match st with
  | UI.saving => "Saving..."
  | UI.saved => "All changes saved"
  | UI.error => "Error saving"
  end.

(** No character of [s] satisfies [p]. *)
Fixpoint free_of (p : ascii -> bool) (s : string) : Prop :=
  match s with
  | EmptyString => True
  | String c s' => p c = false /\ free_of p s'
  end.

(** [l1] is an initial segment of [l2]. *)
Definition initial_segment {A} (l1 l2 : list A) : Prop :=
  exists rest, l2 = l1 ++ rest.

(** The first and the last character of [s], if any, are not white space. *)
Definition trimmed (s : string) : Prop :=
  match s with
  | EmptyString => True
  | String c _ =>
      GeminiService.is_space c = false
      /\ GeminiService.trimEnd s = s
  end.

(** The document of [s'] is that of [s] except possibly at the ids in
    [ks]. *)
Definition same_document_but (ks : list string) (s s' : State) : Prop :=
  forall k, k ∉ ks -> document s' !! k = document s !! k.

(** The module variables of app.js hold in [s'] what they hold in [s]. *)
Definition same_variables (s s' : State) : Prop :=
  currentUser s' = currentUser s
  /\ currentNoteId s' = currentNoteId s
  /\ noteToDeleteId s' = noteToDeleteId s
  /\ notesData s' = notesData s
  /\ searchTerm s' = searchTerm s
  /\ autosaveTimeout s' = autosaveTimeout s.

(** ** Which fields a handler leaves alone *)

Lemma notesData_on_element k f s :
  notesData (on_element k f s) = notesData s.
Proof. reflexivity. Qed.

Lemma notesData_showView v s : notesData (UI.showView v s) = notesData s.
Proof. unfold UI.showView. destruct (_ !! _); reflexivity. Qed.

Lemma notesData_renderDashboard {js : Engine} s :
  notesData (app.renderDashboard s) = notesData s.
Proof.
  unfold app.renderDashboard.
  destruct (document s !! "notes-grid"); [|reflexivity].
  destruct (_ =? _)%nat; [|reflexivity].
  destruct (_ !! "empty-state"); reflexivity.
Qed.

Lemma notesData_renderSidebar s :
  notesData (app.renderSidebar s) = notesData s.
Proof. reflexivity. Qed.

Lemma run_app {js : Engine} es1 es2 s : run (es1 ++ es2) s = run es2 (run es1 s).
Proof. unfold run. apply foldl_app. Qed.

Lemma run_snoc {js : Engine} es e s : run (es ++ [e]) s = step e (run es s).
Proof. rewrite run_app. reflexivity. Qed.

Lemma note_of_doc_inj d1 d2 : note_of_doc d1 = note_of_doc d2 -> d1 = d2.
Proof.
  destruct d1 as [i1 [t1 c1 u1 o1]], d2 as [i2 [t2 c2 u2 o2]].
  unfold note_of_doc. cbn. intros H. injection H as -> -> -> -> ->. reflexivity.
Qed.

Lemma map_note_of_doc_inj docs1 docs2 :
  map note_of_doc docs1 = map note_of_doc docs2 -> docs1 = docs2.
Proof.
  revert docs2. induction docs1 as [|d docs1 IH]; intros [|d' docs2] H;
    cbn [map] in H; try discriminate; [reflexivity|].
  assert (Hd : note_of_doc d = note_of_doc d') by congruence.
  assert (Hrest : map note_of_doc docs1 = map note_of_doc docs2) by congruence.
  f_equal; [apply note_of_doc_inj, Hd | apply IH, Hrest].
Qed.

(** ** The snapshot handler *)

(** C1. Whatever happened before (any events [es] from any state [s],
    earlier snapshots included), right after the handler has run on a
    snapshot the cache is the image of that snapshot's documents, in
    their order; and that image determines the documents. *)
Theorem snapshot_replaces_cache {js : Engine} (s : State) (es : list Event) (docs : list Doc) :
  notesData (run (es ++ [ESnapshot docs]) s) = map note_of_doc docs
  /\ (forall docs', map note_of_doc docs' = map note_of_doc docs -> docs' = docs).
Proof.
  split.
  - rewrite run_snoc. cbn [step]. unfold onSnapshot.
    rewrite notesData_renderSidebar, notesData_renderDashboard. reflexivity.
  - intros docs'. apply map_note_of_doc_inj.
Qed.

(** ** Strings *)

Lemma append_cons (c : ascii) (s t : string) :
  String c s +:+ t = String c (s +:+ t).
Proof. reflexivity. Qed.

Lemma append_empty (t : string) : "" +:+ t = t.
Proof. reflexivity. Qed.

Ltac unroll :=
  rewrite ?append_cons, ?append_empty; cbn; rewrite ?append_cons, ?append_empty.

Lemma append_assoc (a b c : string) : (a +:+ b) +:+ c = a +:+ (b +:+ c).
Proof. induction a as [|x a IH]; unroll; [reflexivity | congruence]. Qed.















Lemma or_else_empty (o : option string) : or_else o "" = default "" o.
Proof. destruct o as [[|c s]|]; reflexivity. Qed.



(** ** The dashboard filter *)




(** [kept] pins its result down. *)
Lemma kept_unique {A} (P : A -> Prop) (l o1 o2 : list A) :
  kept P l o1 -> kept P l o2 -> o1 = o2.
Proof.
  intros H1. revert o2.
  induction H1 as [|x l o Hx _ IH|x l o Hx _ IH]; intros o2 H2;
    inversion H2; subst; try contradiction; try reflexivity.
  - f_equal. now apply IH.
  - now apply IH.
Qed.

Lemma lookup_on_element_ne k k' f s :
  k <> k' -> document (on_element k f s) !! k' = document s !! k'.
Proof. intros H. cbn. now apply lookup_alter_ne. Qed.

Lemma lookup_on_element_eq k f s :
  document (on_element k f s) !! k = f <$> document s !! k.
Proof. cbn. apply lookup_alter_eq. Qed.




(** ** Views *)

Lemma hide_all_views_view (d : DOM) (w : View) :
  UI.hide_all_views d !! view_id w = add_class "hidden" <$> d !! view_id w.
Proof.
  unfold UI.hide_all_views. cbn [foldl all_views].
  destruct w; cbn [view_id];
    repeat first [ rewrite lookup_alter_eq | rewrite lookup_alter_ne by discriminate ];
    reflexivity.
Qed.

Lemma hidden_after_add (el : Element) :
  bool_decide ("hidden" ∈ classList (add_class "hidden" el)) = true.
Proof.
  apply bool_decide_eq_true. cbn.
  apply elem_of_union. right. now apply elem_of_singleton.
Qed.

Lemma hidden_after_remove (el : Element) :
  bool_decide ("hidden" ∈ classList (remove_class "hidden" el)) = false.
Proof.
  apply bool_decide_eq_false. cbn.
  intros [_ H]%elem_of_difference. apply H. now apply elem_of_singleton.
Qed.

Lemma view_id_inj (v w : View) : view_id v = view_id w -> v = w.
Proof. destruct v, w; cbn; intros E; solve [reflexivity | discriminate E]. Qed.

(** [showView v] leaves exactly [v] on screen when the page has the four
    view elements. *)
Lemma showView_shows (v : View) (s : State) :
  has_views (document s) -> shows v (document (UI.showView v s)).
Proof.
  intros Hviews w. unfold UI.showView, is_hidden.
  destruct (Hviews v) as [elv Hv]. destruct (Hviews w) as [elw Hw].
  rewrite hide_all_views_view, Hv. cbn [fmap option_fmap option_map document set_document].
  destruct (decide (w = v)) as [->|Hne].
  - rewrite lookup_alter_eq, hide_all_views_view, Hv.
    cbn [fmap option_fmap option_map].
    rewrite hidden_after_remove. symmetry. apply bool_decide_eq_false. tauto.
  - rewrite lookup_alter_ne by (intros H; apply view_id_inj in H; congruence).
    rewrite hide_all_views_view, Hw. cbn [fmap option_fmap option_map].
    rewrite hidden_after_add. symmetry. now apply bool_decide_eq_true.
Qed.

Lemma is_hidden_on_element_ne k k' f s :
  k <> k' -> is_hidden k' (document (on_element k f s)) = is_hidden k' (document s).
Proof. intros H. unfold is_hidden. now rewrite lookup_on_element_ne. Qed.

Lemma shows_on_element k f v s :
  (forall w, k <> view_id w) ->
  shows v (document s) -> shows v (document (on_element k f s)).
Proof. intros Hk H w. rewrite is_hidden_on_element_ne by apply Hk. apply H. Qed.

Lemma has_views_on_element k f s :
  has_views (document s) -> has_views (document (on_element k f s)).
Proof.
  intros H w. cbn. apply lookup_alter_is_Some, H.
Qed.

Lemma document_set_isEditMode b s : document (set_isEditMode b s) = document s.
Proof. reflexivity. Qed.

Lemma document_set_currentNoteId o s :
  document (set_currentNoteId o s) = document s.
Proof. reflexivity. Qed.

Lemma currentNoteId_on_element k f s :
  currentNoteId (on_element k f s) = currentNoteId s.
Proof. reflexivity. Qed.

Lemma isEditMode_on_element k f s :
  isEditMode (on_element k f s) = isEditMode s.
Proof. reflexivity. Qed.

Lemma currentNoteId_showView v s :
  currentNoteId (UI.showView v s) = currentNoteId s.
Proof. unfold UI.showView. destruct (_ !! _); reflexivity. Qed.

Lemma isEditMode_showView v s : isEditMode (UI.showView v s) = isEditMode s.
Proof. unfold UI.showView. destruct (_ !! _); reflexivity. Qed.

Lemma find_id_none (notes : list Note) (noteId : string) :
  (forall n, n ∈ notes -> id n <> noteId) ->
  List.find (fun n => String.eqb (id n) noteId) notes = None.
Proof.
  intros H. induction notes as [|n notes IH]; [reflexivity|]. cbn.
  destruct (String.eqb_spec (id n) noteId) as [E|_].
  - exfalso. apply (H n); [left | exact E].
  - apply IH. intros m Hm. apply H. now right.
Qed.

Lemma find_id_some (notes : list Note) (noteId : string) :
  (exists n, n ∈ notes /\ id n = noteId) ->
  exists n, List.find (fun n => String.eqb (id n) noteId) notes = Some n
            /\ n ∈ notes /\ id n = noteId.
Proof.
  intros (m & Hm & Hid). induction notes as [|n notes IH].
  - inversion Hm.
  - cbn. destruct (String.eqb_spec (id n) noteId) as [E|NE].
    + exists n. repeat split; [left | exact E].
    + apply elem_of_cons in Hm as [->|Hm]; [contradiction|].
      destruct (IH Hm) as (n' & Hf & Hin & Hid').
      exists n'. repeat split; [exact Hf | now right | exact Hid'].
Qed.

(** ** Opening a note *)

(** C6. On a page with the four views, opening an id that no cached
    note carries ends on the dashboard with no note open; opening an id
    that a cached note carries ends in the editor on that id, in edit
    mode. *)
Theorem open_note_by_cache (s : State) (noteId : string) :
  has_views (document s) ->
  ((forall n, n ∈ notesData s -> id n <> noteId) ->
     currentNoteId (app.openNote noteId s) = None
     /\ shows dashboard (document (app.openNote noteId s)))
  /\ ((exists n, n ∈ notesData s /\ id n = noteId) ->
     currentNoteId (app.openNote noteId s) = Some noteId
     /\ isEditMode (app.openNote noteId s) = true
     /\ shows editor (document (app.openNote noteId s))).
Proof.
  intros Hviews. unfold app.openNote.
  change (notesData (set_currentNoteId _ s)) with (notesData s). split.
  - intros Hnone. rewrite (find_id_none _ _ Hnone). unfold app.showDashboard.
    split; [now rewrite currentNoteId_showView|].
    now apply showView_shows.
  - intros Hsome. destruct (find_id_some _ _ Hsome) as (n & -> & _ & _).
    unfold app.renderSidebar. split; [|split].
    + rewrite currentNoteId_on_element, currentNoteId_showView.
      rewrite !currentNoteId_on_element. reflexivity.
    + rewrite isEditMode_on_element, isEditMode_showView.
      rewrite !isEditMode_on_element. reflexivity.
    + apply shows_on_element; [intros []; discriminate|].
      apply showView_shows.
      do 3 apply has_views_on_element. rewrite document_set_isEditMode.
      do 3 apply has_views_on_element. rewrite document_set_currentNoteId.
      exact Hviews.
Qed.

Lemma open_note_by_cache_witness :
  currentNoteId (app.openNote "zz" Sample.editing_a) = None
  /\ currentNoteId (app.openNote "b" Sample.editing_a) = Some "b".
Proof.
  assert (Hviews : has_views (document Sample.editing_a))
    by (intros []; vm_compute; eauto).
  split.
  - apply (open_note_by_cache Sample.editing_a "zz" Hviews).
    intros n Hn. vm_compute in Hn.
    repeat (apply elem_of_cons in Hn as [->|Hn]; [discriminate|]).
    inversion Hn.
  - apply (open_note_by_cache Sample.editing_a "b" Hviews).
    eexists. split; [right; left | reflexivity].
Defined.

(** ** Snapshots between a call and its settling *)

Ltac frame :=
  repeat match goal with
         | |- context [match ?x with _ => _ end] => destruct x
         end;
  try reflexivity.

Lemma lookup_renderDashboard {js : Engine} (k : string) (s : State) :
  k <> "notes-grid" -> k <> "empty-state" -> k <> "empty-state p" ->
  document (app.renderDashboard s) !! k = document s !! k.
Proof.
  intros H1 H2 H3. unfold app.renderDashboard. frame;
    repeat rewrite lookup_on_element_ne by congruence; reflexivity.
Qed.

Lemma same_session_refl s : same_session s s.
Proof. repeat split. Qed.

Lemma same_session_trans s1 s2 s3 :
  same_session s1 s2 -> same_session s2 s3 -> same_session s1 s3.
Proof.
  unfold same_session. intros (A1&B1&C1&D1&E1&F1) (A2&B2&C2&D2&E2&F2).
  repeat split; try congruence; intros w; now rewrite F2, F1.
Qed.

Lemma same_session_renderDashboard {js : Engine} s : same_session s (app.renderDashboard s).
Proof.
  repeat split; try solve [unfold app.renderDashboard; frame].
  intros w. apply lookup_renderDashboard; destruct w; discriminate.
Qed.

Lemma same_session_onSnapshot {js : Engine} docs s : same_session s (onSnapshot docs s).
Proof.
  unfold onSnapshot.
  apply same_session_trans with (set_notesData (map note_of_doc docs) s);
    [repeat split|].
  eapply same_session_trans; [apply same_session_renderDashboard|].
  repeat split. intros w. unfold app.renderSidebar.
  apply lookup_on_element_ne. destruct w; discriminate.
Qed.

Lemma same_session_snapshots {js : Engine} snaps s :
  same_session s (run (map ESnapshot snaps) s).
Proof.
  revert s. induction snaps as [|docs snaps IH]; intros s.
  - apply same_session_refl.
  - eapply same_session_trans; [apply (same_session_onSnapshot docs)|apply IH].
Qed.

Lemma same_session_shows v s s' :
  same_session s s' -> shows v (document s) -> shows v (document s').
Proof.
  intros (_&_&_&_&_&H) Hs w. unfold is_hidden. rewrite H. apply Hs.
Qed.

Lemma same_session_has_views s s' :
  same_session s s' -> has_views (document s) -> has_views (document s').
Proof. intros (_&_&_&_&_&H) Hs w. rewrite H. apply Hs. Qed.

Lemma is_hidden_showView_other k v s :
  (forall w, k <> view_id w) ->
  is_hidden k (document (UI.showView v s)) = is_hidden k (document s).
Proof.
  intros Hk. unfold is_hidden, UI.showView.
  assert (Hhide : UI.hide_all_views (document s) !! k = document s !! k).
  { unfold UI.hide_all_views. cbn [foldl all_views].
    repeat rewrite lookup_alter_ne by (apply not_eq_sym, Hk). reflexivity. }
  destruct (_ !! view_id v); cbn [document set_document console_error set_console].
  - rewrite lookup_alter_ne by (apply not_eq_sym, Hk). now rewrite Hhide.
  - now rewrite Hhide.
Qed.

Lemma modal_hidden_after_close s :
  is_hidden "modal-delete" (document (app.closeModal s)) = true.
Proof.
  unfold app.closeModal, is_hidden. rewrite lookup_on_element_eq.
  destruct (_ !! _); cbn [fmap option_fmap option_map]; [|reflexivity].
  apply hidden_after_add.
Qed.

Lemma remote_showView v s : remote (UI.showView v s) = remote s.
Proof. unfold UI.showView. destruct (_ !! _); reflexivity. Qed.

Lemma currentNoteId_closeModal s :
  currentNoteId (app.closeModal s) = currentNoteId s.
Proof. reflexivity. Qed.

Lemma remote_closeModal s : remote (app.closeModal s) = remote s.
Proof. reflexivity. Qed.

Lemma currentNoteId_showDashboard s :
  currentNoteId (app.showDashboard s) = None.
Proof. unfold app.showDashboard. now rewrite currentNoteId_showView. Qed.

Lemma remote_showDashboard s : remote (app.showDashboard s) = remote s.
Proof. unfold app.showDashboard. now rewrite remote_showView. Qed.

Lemma shows_closeModal v s :
  shows v (document s) -> shows v (document (app.closeModal s)).
Proof.
  intros H. unfold app.closeModal.
  apply shows_on_element; [intros []; discriminate | exact H].
Qed.

Lemma in_awaiting_snoc (a : Await) (l : list Await) :
  bool_decide (a ∈ l ++ [a]) = true.
Proof. apply bool_decide_eq_true, elem_of_app. right. left. Qed.

(** ** Confirming a deletion *)

(** X18. With an identity signed in and a deletion pending on [pending],
    confirming issues exactly the delete call for [pending].  When that
    call succeeds and nothing but snapshots has arrived in between: the
    pending id is cleared and the modal closed; if [pending] is the open
    note, no note is open any more and the dashboard shows; otherwise the
    open note and the view on screen stay as they were. *)
Theorem confirm_delete_succeeds {js : Engine} (s : State) (user : User) (pending v : string)
    (snaps : list (list Doc)) :
  currentUser s = Some user ->
  noteToDeleteId s = Some pending ->
  truthy pending = true ->
  has_views (document s) ->
  remote (app.confirmDelete s) = remote s ++ [DeleteDoc (uid user) pending]
  /\ noteToDeleteId
       (settle AwDeleteDoc (Fulfilled v)
          (run (map ESnapshot snaps) (app.confirmDelete s))) = None
  /\ is_hidden "modal-delete"
       (document (settle AwDeleteDoc (Fulfilled v)
          (run (map ESnapshot snaps) (app.confirmDelete s)))) = true
  /\ remote (settle AwDeleteDoc (Fulfilled v)
          (run (map ESnapshot snaps) (app.confirmDelete s)))
     = remote s ++ [DeleteDoc (uid user) pending]
  /\ (currentNoteId s = Some pending ->
        currentNoteId (settle AwDeleteDoc (Fulfilled v)
          (run (map ESnapshot snaps) (app.confirmDelete s))) = None
        /\ shows dashboard
             (document (settle AwDeleteDoc (Fulfilled v)
                (run (map ESnapshot snaps) (app.confirmDelete s)))))
  /\ (currentNoteId s <> Some pending ->
        currentNoteId (settle AwDeleteDoc (Fulfilled v)
          (run (map ESnapshot snaps) (app.confirmDelete s))) = currentNoteId s
        /\ forall w : View,
             is_hidden (view_id w)
               (document (settle AwDeleteDoc (Fulfilled v)
                  (run (map ESnapshot snaps) (app.confirmDelete s))))
             = is_hidden (view_id w) (document s)).
Proof.
  intros Huser Hpending Htruthy Hviews.
  assert (Hcall : app.confirmDelete s
                  = set_awaiting (awaiting s ++ [AwDeleteDoc])
                      (set_remote (remote s ++ [DeleteDoc (uid user) pending]) s)).
  { unfold app.confirmDelete. now rewrite Huser, Hpending; cbn; rewrite Htruthy. }
  split; [now rewrite Hcall|].
  pose proof (same_session_snapshots snaps (app.confirmDelete s)) as Hsame.
  set (s1 := run (map ESnapshot snaps) (app.confirmDelete s)) in *.
  pose proof Hsame as (Hu & Hc & Hd & Ha & Hr & Hv).
  rewrite Hcall in Hu, Hc, Hd, Ha, Hr, Hv. cbn in Hu, Hc, Hd, Ha, Hr, Hv.
  unfold settle. rewrite Ha, in_awaiting_snoc.
  set (s2 := set_awaiting _ s1).
  assert (Hviews2 : has_views (document s2)).
  { intros w. change (document s2) with (document s1). rewrite Hv. apply Hviews. }
  unfold app.confirmDelete_resume.
  change (currentNoteId s2) with (currentNoteId s1).
  change (noteToDeleteId s2) with (noteToDeleteId s1).
  rewrite Hc, Hd, Hpending.
  destruct (decide (currentNoteId s = Some pending)) as [Heq|Hne].
  - rewrite bool_decide_eq_true_2 by exact Heq.
    split; [reflexivity|]. split; [apply modal_hidden_after_close|].
    split; [now rewrite remote_closeModal, remote_showDashboard|].
    split; [|intros Hne; contradiction].
    intros _. split.
    + rewrite currentNoteId_closeModal. apply currentNoteId_showDashboard.
    + apply shows_closeModal. unfold app.showDashboard.
      apply showView_shows. exact Hviews2.
  - rewrite bool_decide_eq_false_2 by exact Hne.
    split; [reflexivity|]. split; [apply modal_hidden_after_close|].
    split; [now rewrite remote_closeModal|]. split; [intros Heq; contradiction|].
    intros _. split; [now rewrite currentNoteId_closeModal|].
    intros w. unfold app.closeModal.
    rewrite is_hidden_on_element_ne by (destruct w; discriminate).
    unfold is_hidden. rewrite <- (Hv w). reflexivity.
Qed.

Lemma confirm_delete_succeeds_witness :
  remote (app.confirmDelete Sample.deleting_a)
  = remote Sample.deleting_a ++ [DeleteDoc "u1" "a"]
  /\ remote (app.confirmDelete Sample.deleting_b)
     = remote Sample.deleting_b ++ [DeleteDoc "u1" "b"].
Proof.
  assert (Ha : has_views (document Sample.deleting_a))
    by (intros []; vm_compute; eauto).
  assert (Hb : has_views (document Sample.deleting_b))
    by (intros []; vm_compute; eauto).
  split.
  - exact (proj1 (confirm_delete_succeeds Sample.deleting_a Sample.alice "a" ""
                    [[Sample.stored "b" "Plan" "roadmap"]]
                    eq_refl eq_refl eq_refl Ha)).
  - exact (proj1 (confirm_delete_succeeds Sample.deleting_b Sample.alice "b" ""
                    [] eq_refl eq_refl eq_refl Hb)).
Defined.

(** ** A confirmation overtaken by the dialog *)

Lemma confirmDelete_pending (s : State) (user : User) (pending : string) :
  currentUser s = Some user ->
  noteToDeleteId s = Some pending ->
  truthy pending = true ->
  app.confirmDelete s
  = set_awaiting (awaiting s ++ [AwDeleteDoc])
      (set_remote (remote s ++ [DeleteDoc (uid user) pending]) s).
Proof.
  intros Hu Hp Ht. unfold app.confirmDelete.
  now rewrite Hu, Hp; cbn; rewrite Ht.
Qed.

(** [confirmDelete] after a fulfilled [await]. *)
Lemma delete_fulfilled_eq (v : string) (s : State) :
  AwDeleteDoc ∈ awaiting s ->
  settle AwDeleteDoc (Fulfilled v) s
  = app.closeModal
      (if bool_decide (currentNoteId s = noteToDeleteId s)
       then app.showDashboard
              (set_awaiting (remove_first AwDeleteDoc (awaiting s)) s)
       else set_awaiting (remove_first AwDeleteDoc (awaiting s)) s).
Proof.
  intros Ha. unfold settle. rewrite bool_decide_eq_true_2 by exact Ha.
  reflexivity.
Qed.

(** C7. [confirmDelete] compares the open note with [noteToDeleteId]
    after its [await], on the variable as it is by then, while the dialog
    is still open.  A deletion of the open note that is cancelled while
    the delete call is in flight therefore issues the call and, when the
    call succeeds, leaves the deleted note open with the views as they
    were; and a request to delete the open note made while the call for
    another note is in flight closes the open note, which was not
    deleted. *)
Theorem confirm_delete_overtaken (s : State) (user : User) (pending v : string) :
  currentUser s = Some user ->
  noteToDeleteId s = Some pending ->
  truthy pending = true ->
  (currentNoteId s = Some pending ->
     remote (settle AwDeleteDoc (Fulfilled v)
               (app.closeModal (app.confirmDelete s)))
     = remote s ++ [DeleteDoc (uid user) pending]
     /\ currentNoteId (settle AwDeleteDoc (Fulfilled v)
                         (app.closeModal (app.confirmDelete s)))
        = Some pending
     /\ forall w : View,
          is_hidden (view_id w)
            (document (settle AwDeleteDoc (Fulfilled v)
                         (app.closeModal (app.confirmDelete s))))
          = is_hidden (view_id w) (document s))
  /\ (forall open : string,
        currentNoteId s = Some open -> open <> pending -> truthy open = true ->
        remote (settle AwDeleteDoc (Fulfilled v)
                  (app.requestDelete open (app.confirmDelete s)))
        = remote s ++ [DeleteDoc (uid user) pending]
        /\ currentNoteId (settle AwDeleteDoc (Fulfilled v)
                            (app.requestDelete open (app.confirmDelete s)))
           = None).
Proof.
  intros Hu Hp Ht. rewrite (confirmDelete_pending s user pending Hu Hp Ht).
  set (s0 := set_awaiting (awaiting s ++ [AwDeleteDoc])
               (set_remote (remote s ++ [DeleteDoc (uid user) pending]) s)).
  split.
  - intros Hopen.
    assert (Ha : AwDeleteDoc ∈ awaiting (app.closeModal s0))
      by (apply elem_of_app; right; left).
    rewrite (delete_fulfilled_eq v _ Ha).
    change (currentNoteId (app.closeModal s0)) with (currentNoteId s).
    change (noteToDeleteId (app.closeModal s0)) with (@None string).
    rewrite Hopen, bool_decide_eq_false_2 by discriminate.
    split; [reflexivity|]. split; [exact Hopen|].
    intros w. unfold app.closeModal.
    rewrite is_hidden_on_element_ne by (destruct w; discriminate).
    change (document (set_noteToDeleteId None (set_awaiting _ ?x)))
      with (document x).
    now rewrite is_hidden_on_element_ne by (destruct w; discriminate).
  - intros open Hopen Hne Hto.
    assert (Hreq : app.requestDelete open s0
                   = on_element "modal-delete" (remove_class "hidden")
                       (set_noteToDeleteId (Some open) s0))
      by (unfold app.requestDelete; now rewrite Hto).
    rewrite Hreq.
    assert (Ha : AwDeleteDoc
                 ∈ awaiting (on_element "modal-delete" (remove_class "hidden")
                               (set_noteToDeleteId (Some open) s0)))
      by (apply elem_of_app; right; left).
    rewrite (delete_fulfilled_eq v _ Ha).
    change (currentNoteId (on_element _ _ (set_noteToDeleteId _ s0)))
      with (currentNoteId s).
    change (noteToDeleteId (on_element _ _ (set_noteToDeleteId (Some open) s0)))
      with (Some open).
    rewrite Hopen, bool_decide_eq_true_2 by reflexivity.
    split.
    + now rewrite remote_closeModal, remote_showDashboard.
    + rewrite currentNoteId_closeModal. apply currentNoteId_showDashboard.
Qed.

Lemma confirm_delete_overtaken_witness :
  (remote (settle AwDeleteDoc (Fulfilled "")
             (app.closeModal (app.confirmDelete Sample.deleting_a)))
   = remote Sample.deleting_a ++ [DeleteDoc "u1" "a"]
   /\ currentNoteId (settle AwDeleteDoc (Fulfilled "")
                       (app.closeModal (app.confirmDelete Sample.deleting_a)))
      = Some "a")
  /\ (remote (settle AwDeleteDoc (Fulfilled "")
                (app.requestDelete "a" (app.confirmDelete Sample.deleting_b)))
      = remote Sample.deleting_b ++ [DeleteDoc "u1" "b"]
      /\ currentNoteId (settle AwDeleteDoc (Fulfilled "")
                          (app.requestDelete "a"
                             (app.confirmDelete Sample.deleting_b)))
         = None).
Proof.
  destruct (confirm_delete_overtaken Sample.deleting_a Sample.alice "a" ""
              eq_refl eq_refl eq_refl) as [Hcancel _].
  destruct (confirm_delete_overtaken Sample.deleting_b Sample.alice "b" ""
              eq_refl eq_refl eq_refl) as [_ Hagain].
  destruct (Hcancel eq_refl) as (Hr & Hc & _).
  assert (Hab : "a" <> "b") by discriminate.
  destruct (Hagain "a" eq_refl Hab eq_refl) as (Hr' & Hc').
  split; split; assumption.
Defined.

(** C10. Without a signed-in identity, or without a pending id,
    confirming changes nothing at all, so no call is issued.  When the
    delete call that was issued is rejected, the error is logged and
    nothing else moves: the pending id and the open note stay, the
    document (the modal with it) is untouched, and no further call is
    made. *)
Theorem confirm_delete_guard_and_failure (s : State) :
  ((currentUser s = None \/ truthy_opt (noteToDeleteId s) = false) ->
     app.confirmDelete s = s)
  /\ (forall (user : User) (pending : string) (e : JsError),
        currentUser s = Some user ->
        noteToDeleteId s = Some pending ->
        truthy pending = true ->
        remote (settle AwDeleteDoc (Rejected e) (app.confirmDelete s))
        = remote s ++ [DeleteDoc (uid user) pending]
        /\ noteToDeleteId (settle AwDeleteDoc (Rejected e) (app.confirmDelete s))
           = Some pending
        /\ currentNoteId (settle AwDeleteDoc (Rejected e) (app.confirmDelete s))
           = currentNoteId s
        /\ document (settle AwDeleteDoc (Rejected e) (app.confirmDelete s))
           = document s
        /\ notesData (settle AwDeleteDoc (Rejected e) (app.confirmDelete s))
           = notesData s
        /\ currentUser (settle AwDeleteDoc (Rejected e) (app.confirmDelete s))
           = Some user
        /\ console (settle AwDeleteDoc (Rejected e) (app.confirmDelete s))
           = console s ++ [("Error deleting note:", Some e)]).
Proof.
  split.
  - unfold app.confirmDelete. intros [H|H]; rewrite H; [reflexivity|].
    now destruct (currentUser s).
  - intros user pending e Huser Hpending Htruthy.
    unfold app.confirmDelete. rewrite Huser, Hpending. cbn [truthy_opt].
    rewrite Htruthy. unfold settle.
    cbn [awaiting set_awaiting set_remote]. rewrite in_awaiting_snoc.
    cbn. rewrite Huser, Hpending. repeat split.
Qed.

Lemma confirm_delete_guard_and_failure_witness :
  app.confirmDelete Sample.editing_a = Sample.editing_a
  /\ noteToDeleteId
       (settle AwDeleteDoc (Rejected Sample.denied)
          (app.confirmDelete Sample.deleting_a)) = Some "a".
Proof.
  split.
  - apply (proj1 (confirm_delete_guard_and_failure Sample.editing_a)).
    right. reflexivity.
  - apply (proj2 (confirm_delete_guard_and_failure Sample.deleting_a)
             Sample.alice "a" Sample.denied eq_refl eq_refl eq_refl).
Defined.

(** ** Signing out *)

(** What the observer does to the session on a sign-out event: the open
    note id it was given is still there afterwards. *)
Lemma sign_out_keeps_open_note_id :
  currentNoteId Sample.editing_a = Some "a"
  /\ currentNoteId (step (EAuthStateChanged None) Sample.editing_a) = Some "a"
  /\ notesData (step (EAuthStateChanged None) Sample.editing_a) = [].
Proof. vm_compute. repeat split. Qed.

Lemma notesData_nil_frame v s :
  currentNoteId (UI.showView v s) = currentNoteId s
  /\ noteToDeleteId (UI.showView v s) = noteToDeleteId s
  /\ autosaveTimeout (UI.showView v s) = autosaveTimeout s
  /\ timers (UI.showView v s) = timers s
  /\ isEditMode (UI.showView v s) = isEditMode s
  /\ currentUser (UI.showView v s) = currentUser s.
Proof. unfold UI.showView. destruct (_ !! _); repeat split. Qed.

(** C5, as the observer has it. On a sign-out event the cache becomes
    empty, the identity is cleared and, on a page with the four views, the
    login view shows, so no cached note remains; the open note id, the
    pending-delete id, the edit mode and the pending timers are left as
    they were. *)
Theorem sign_out_clears_cache (s : State) :
  notesData (onAuthStateChanged None s) = []
  /\ currentUser (onAuthStateChanged None s) = None
  /\ (has_views (document s) -> shows login (document (onAuthStateChanged None s)))
  /\ currentNoteId (onAuthStateChanged None s) = currentNoteId s
  /\ noteToDeleteId (onAuthStateChanged None s) = noteToDeleteId s
  /\ isEditMode (onAuthStateChanged None s) = isEditMode s
  /\ autosaveTimeout (onAuthStateChanged None s) = autosaveTimeout s
  /\ timers (onAuthStateChanged None s) = timers s.
Proof.
  unfold onAuthStateChanged.
  destruct (notesData_nil_frame login (set_currentUser None s))
    as (Hc & Hd & Ha & Ht & He & Hu).
  cbn [notesData currentUser currentNoteId noteToDeleteId isEditMode
       autosaveTimeout timers document set_notesData].
  rewrite Hc, Hd, Ha, Ht, He, Hu. repeat split.
  intros Hviews. apply (showView_shows login (set_currentUser None s)), Hviews.
Qed.

Lemma sign_out_clears_cache_witness :
  shows login (document (onAuthStateChanged None Sample.editing_a)).
Proof.
  apply (sign_out_clears_cache Sample.editing_a).
  intros []; vm_compute; eauto.
Defined.

(** ** Subscription errors *)

(** A listener that lost its permission: the cache still holds the two
    notes afterwards. *)
Lemma denied_listener_keeps_cache :
  code Sample.denied = "permission-denied"
  /\ notesData (step (ESnapshotError Sample.denied) Sample.on_dashboard)
     = map note_of_doc Sample.snapshot
  /\ length (notesData (step (ESnapshotError Sample.denied) Sample.on_dashboard)) = 2.
Proof. vm_compute. repeat split. Qed.

(** C8, as the error callback has it. Whatever the error, the callback
    returns normally after logging it, and the cache and every other part
    of the state are as before. *)
Theorem subscription_error_logged {js : Engine} (s : State) (e : JsError) :
  step (ESnapshotError e) s
  = set_console (console s ++ [("Firestore Listen Error:", Some e)]) s
  /\ notesData (step (ESnapshotError e) s) = notesData s
  /\ console (step (ESnapshotError e) s)
     = console s ++ [("Firestore Listen Error:", Some e)].
Proof. repeat split. Qed.

(** ** Timers *)

Lemma updateSaveStatus_saving_frame (s : State) :
  timers (UI.updateSaveStatus UI.saving s) = timers s
  /\ nextTimer (UI.updateSaveStatus UI.saving s) = nextTimer s
  /\ autosaveTimeout (UI.updateSaveStatus UI.saving s) = autosaveTimeout s
  /\ currentUser (UI.updateSaveStatus UI.saving s) = currentUser s
  /\ currentNoteId (UI.updateSaveStatus UI.saving s) = currentNoteId s
  /\ notesData (UI.updateSaveStatus UI.saving s) = notesData s
  /\ remote (UI.updateSaveStatus UI.saving s) = remote s.
Proof. unfold UI.updateSaveStatus. destruct (_ !! _); repeat split. Qed.

Lemma handleInput_timers (s : State) :
  timers (app.handleInput s) = without_autosave s ++ [(nextTimer s, TAutosave)]
  /\ nextTimer (app.handleInput s) = Pos.succ (nextTimer s)
  /\ autosaveTimeout (app.handleInput s) = Some (nextTimer s).
Proof.
  unfold app.handleInput, without_autosave.
  destruct (updateSaveStatus_saving_frame s) as (Ht & Hn & Ha & _).
  rewrite Ha. destruct (autosaveTimeout s) as [t|]; cbn; rewrite ?Ht, ?Hn;
    repeat split.
Qed.

Lemma handleInput_frame (s : State) :
  currentUser (app.handleInput s) = currentUser s
  /\ currentNoteId (app.handleInput s) = currentNoteId s
  /\ notesData (app.handleInput s) = notesData s
  /\ remote (app.handleInput s) = remote s.
Proof.
  unfold app.handleInput.
  destruct (updateSaveStatus_saving_frame s) as (_ & _ & Ha & Hu & Hc & Hd & Hr).
  rewrite Ha. destruct (autosaveTimeout s); cbn; rewrite Hu, Hc, Hd, Hr;
    repeat split.
Qed.

Lemma wf_no_stale_autosave (s : State) :
  timers_wf s -> List.filter is_autosave (without_autosave s) = [].
Proof.
  intros (_ & _ & Hauto). unfold without_autosave.
  induction (timers s) as [|p l IH].
  - now destruct (autosaveTimeout s).
  - apply Forall_cons in Hauto as [Hp Hl]. specialize (IH Hl).
    destruct p as [h task].
    destruct (autosaveTimeout s) as [t|] eqn:E.
    + cbn [List.filter]. unfold not_timer at 1. cbn [fst].
      destruct (Pos.eqb_spec h t) as [->|Hne]; cbn [negb].
      * exact IH.
      * cbn [List.filter]. destruct (is_autosave (h, task)) eqn:Ep; [|exact IH].
        specialize (Hp eq_refl). cbn in Hp. congruence.
    + cbn [List.filter]. destruct (is_autosave (h, task)) eqn:Ep; [|exact IH].
      specialize (Hp eq_refl). discriminate.
Qed.

Lemma filter_app_list {A} (f : A -> bool) (l1 l2 : list A) :
  List.filter f (l1 ++ l2) = List.filter f l1 ++ List.filter f l2.
Proof. apply List.filter_app. Qed.

Lemma find_fresh_timer (l : list (positive * TimerTask)) (n : positive)
    (task : TimerTask) :
  Forall (fun p => (fst p < n)%positive) l ->
  List.find (fun p => Pos.eqb (fst p) n) (l ++ [(n, task)]) = Some (n, task).
Proof.
  induction 1 as [|p l Hp _ IH]; cbn.
  - now rewrite Pos.eqb_refl.
  - destruct (Pos.eqb_spec (fst p) n) as [E|_]; [lia | exact IH].
Qed.

Lemma Forall_filter_list {A} (P : A -> Prop) (f : A -> bool) (l : list A) :
  Forall P l -> Forall P (List.filter f l).
Proof.
  induction 1 as [|x l Hx _ IH]; cbn; [constructor|].
  destruct (f x); [constructor; assumption | assumption].
Qed.

Lemma without_autosave_below (s : State) :
  timers_wf s ->
  Forall (fun p => (fst p < nextTimer s)%positive) (without_autosave s).
Proof.
  intros (_ & Hlt & _). unfold without_autosave.
  destruct (autosaveTimeout s); [now apply Forall_filter_list | exact Hlt].
Qed.

Lemma NoDup_fst_filter (f : positive * TimerTask -> bool)
    (l : list (positive * TimerTask)) :
  NoDup (map fst l) -> NoDup (map fst (List.filter f l)).
Proof.
  induction l as [|p l IH]; cbn; [trivial|].
  intros [Hp Hl]%NoDup_cons. destruct (f p); cbn; [|auto].
  apply NoDup_cons. split; [|auto].
  intros Hin. apply Hp. apply list_elem_of_In in Hin. apply list_elem_of_In.
  apply in_map_iff in Hin as (q & Hq & Hin). apply in_map_iff.
  exists q. split; [exact Hq|]. now apply List.filter_In in Hin as [Hin _].
Qed.

Lemma NoDup_fst_snoc (l : list (positive * TimerTask)) (n : positive)
    (task : TimerTask) :
  NoDup (map fst l) -> Forall (fun p => (fst p < n)%positive) l ->
  NoDup (map fst (l ++ [(n, task)])).
Proof.
  intros Hnd Hlt. rewrite map_app. apply NoDup_app. split; [exact Hnd|]. split.
  - intros x Hx Hn. apply list_elem_of_singleton in Hn as ->.
    apply list_elem_of_In, in_map_iff in Hx as (q & Hq & Hin).
    rewrite Forall_forall in Hlt. apply list_elem_of_In in Hin.
    specialize (Hlt q Hin). cbn in Hq. lia.
  - cbn. apply NoDup_singleton.
Qed.

(** [handleInput] keeps the timers well formed. *)
Lemma timers_wf_handleInput (s : State) :
  timers_wf s -> timers_wf (app.handleInput s).
Proof.
  intros Hwf. pose proof (without_autosave_below s Hwf) as Hbelow.
  pose proof (wf_no_stale_autosave s Hwf) as Hstale.
  destruct (handleInput_timers s) as (Ht & Hn & Ha).
  unfold timers_wf. rewrite Ht, Hn, Ha. split; [|split].
  - apply NoDup_fst_snoc; [|exact Hbelow].
    destruct Hwf as (Hnd & _). unfold without_autosave.
    destruct (autosaveTimeout s); [now apply NoDup_fst_filter | exact Hnd].
  - apply Forall_app. split.
    + eapply Forall_impl; [exact Hbelow|]. cbn. intros p Hp. lia.
    + repeat constructor. cbn. lia.
  - apply Forall_app. split.
    + apply Forall_forall. intros p Hin Hauto. exfalso.
      assert (Hf : p ∈ List.filter is_autosave (without_autosave s)).
      { apply list_elem_of_In, List.filter_In. split; [now apply list_elem_of_In | exact Hauto]. }
      rewrite Hstale in Hf. inversion Hf.
    + repeat constructor.
Qed.

Ltac unfold_handlers :=
  unfold onAuthStateChanged, onSnapshot, onSnapshotError, onSearchInput,
    app.openNote, app.showDashboard, app.renderSidebar, app.renderDashboard,
    app.requestDelete, app.closeModal, app.confirmDelete, app.createNewNote,
    app.confirmDelete_resume, app.createNewNote_resume, app.autosave,
    UI.fadeStatus, UI.showView, alert, console_error.

Lemma same_timers_wf (s s' : State) :
  same_timers s s' -> timers_wf s -> timers_wf s'.
Proof. unfold same_timers, timers_wf. intros (-> & -> & ->). trivial. Qed.

Lemma same_timers_showView v s : same_timers s (UI.showView v s).
Proof. unfold_handlers. frame. repeat split. repeat split. Qed.

Lemma same_timers_showDashboard s : same_timers s (app.showDashboard s).
Proof.
  unfold app.showDashboard.
  destruct (same_timers_showView dashboard (set_currentNoteId None s))
    as (H1 & H2 & H3).
  repeat split; assumption.
Qed.

Lemma same_timers_renderDashboard {js : Engine} s : same_timers s (app.renderDashboard s).
Proof. unfold_handlers. frame; repeat split. Qed.

Lemma same_timers_openNote noteId s : same_timers s (app.openNote noteId s).
Proof. unfold_handlers. cbn [notesData set_currentNoteId]. frame; repeat split. Qed.

Lemma timers_wf_filter (s : State) (f : positive * TimerTask -> bool) :
  timers_wf s -> timers_wf (set_timers (List.filter f (timers s)) s).
Proof.
  intros (Hnd & Hlt & Hauto). unfold timers_wf. cbn. split; [|split].
  - now apply NoDup_fst_filter.
  - now apply Forall_filter_list.
  - now apply Forall_filter_list.
Qed.

Lemma timers_wf_saved (s : State) :
  timers_wf s -> timers_wf (UI.updateSaveStatus UI.saved s).
Proof.
  intros Hwf. unfold UI.updateSaveStatus. destruct (_ !! _); [|exact Hwf].
  destruct Hwf as (Hnd & Hlt & Hauto). unfold timers_wf. cbn. split; [|split].
  - now apply NoDup_fst_snoc.
  - apply Forall_app. split.
    + eapply Forall_impl; [exact Hlt|]. cbn. intros p Hp. lia.
    + repeat constructor. cbn. lia.
  - apply Forall_app. split; [exact Hauto|].
    repeat constructor. cbn. discriminate.
Qed.

Lemma same_timers_error s : same_timers s (UI.updateSaveStatus UI.error s).
Proof. unfold UI.updateSaveStatus. destruct (_ !! _); repeat split. Qed.

(** Every handler keeps the timers well formed. *)
Lemma timers_wf_step {js : Engine} (e : Event) (s : State) :
  timers_wf s -> timers_wf (step e s).
Proof.
  intros Hwf. destruct e; cbn [step].
  - apply (same_timers_wf s); [|exact Hwf]. unfold_handlers. frame; repeat split.
  - apply (same_timers_wf s); [|exact Hwf].
    unfold onSnapshot, app.renderSidebar.
    destruct (same_timers_renderDashboard (set_notesData (map note_of_doc docs) s))
      as (H1 & H2 & H3).
    repeat split; cbn; assumption.
  - apply (same_timers_wf s); [|exact Hwf]. repeat split.
  - apply (same_timers_wf s); [apply same_timers_openNote | exact Hwf].
  - apply (same_timers_wf s); [apply same_timers_showDashboard | exact Hwf].
  - apply (same_timers_wf s); [|exact Hwf]. unfold onSearchInput.
    apply (same_timers_renderDashboard (set_searchTerm v s)).
  - unfold onInput. destruct (_ !! _); [|exact Hwf].
    apply timers_wf_handleInput. exact Hwf.
  - apply (same_timers_wf s); [|exact Hwf]. unfold_handlers. frame; repeat split.
  - apply (same_timers_wf s); [|exact Hwf]. repeat split.
  - apply (same_timers_wf s); [|exact Hwf]. unfold_handlers. frame; repeat split.
  - apply (same_timers_wf s); [|exact Hwf]. unfold_handlers. frame; repeat split.
  - unfold fire. destruct (List.find _ _) as [[t' task]|]; [|exact Hwf].
    apply (same_timers_wf (clearTimeout t s)).
    + destruct task; unfold_handlers; frame; repeat split.
    + apply timers_wf_filter, Hwf.
  - unfold settle. destruct (bool_decide _); [|exact Hwf].
    assert (Hwf' : timers_wf (set_awaiting (remove_first a (awaiting s)) s))
      by exact Hwf.
    revert Hwf'. generalize (set_awaiting (remove_first a (awaiting s)) s).
    intros s' Hwf'. destruct a.
    + apply (same_timers_wf s'); [|exact Hwf'].
      unfold app.createNewNote_resume. destruct r as [newId|err].
      * destruct (same_timers_openNote newId s') as (H1 & H2 & H3).
        repeat split; cbn; assumption.
      * repeat split.
    + unfold app.autosave_resume. destruct r as [?|err].
      * apply (timers_wf_saved s') in Hwf'. exact Hwf'.
      * apply (same_timers_wf (console_error "Error saving:" (Some err) s'));
          [apply same_timers_error | exact Hwf'].
    + apply (same_timers_wf s'); [|exact Hwf'].
      unfold app.confirmDelete_resume. destruct r as [?|err]; [|repeat split].
      unfold app.closeModal.
      destruct (bool_decide _).
      * destruct (same_timers_showView dashboard (set_currentNoteId None s'))
          as (H1 & H2 & H3).
        repeat split; cbn; assumption.
      * repeat split.
Qed.

Lemma timers_wf_run {js : Engine} (es : list Event) (s : State) :
  timers_wf s -> timers_wf (run es s).
Proof.
  revert s. induction es as [|e es IH]; intros s Hwf; [exact Hwf|].
  apply (IH (step e s)), timers_wf_step, Hwf.
Qed.

(** The timers are well formed in every reachable state. *)
Lemma reachable_timers_wf {js : Engine} (s : State) : reachable s -> timers_wf s.
Proof.
  intros (d & es & ->). apply timers_wf_run.
  repeat split; cbn; constructor.
Qed.

(** ** Field values *)

Lemma value_of_alter_keep (f : Element -> Element) (k k' : string) (d : DOM) :
  (forall el, value (f el) = value el) ->
  value_of k (alter f k' d) = value_of k d.
Proof.
  intros Hf. unfold value_of. destruct (decide (k' = k)) as [->|Hne].
  - rewrite lookup_alter_eq. destruct (d !! k); cbn; [apply Hf | reflexivity].
  - now rewrite lookup_alter_ne.
Qed.

Lemma value_of_alter_set (v : string) (k : string) (d : DOM) :
  is_Some (d !! k) -> value_of k (alter (set_value v) k d) = v.
Proof.
  intros [el Hel]. unfold value_of. now rewrite lookup_alter_eq, Hel.
Qed.

Lemma value_of_alter_ne (f : Element -> Element) (k k' : string) (d : DOM) :
  k' <> k -> value_of k (alter f k' d) = value_of k d.
Proof. intros Hne. unfold value_of. now rewrite lookup_alter_ne. Qed.

Lemma value_of_insert_keep (k k' : string) (el0 el : Element) (d : DOM) :
  d !! k' = Some el0 -> value el = value el0 ->
  value_of k (<[k' := el]> d) = value_of k d.
Proof.
  intros H0 Hv. unfold value_of. destruct (decide (k' = k)) as [->|Hne].
  - now rewrite lookup_insert_eq, H0.
  - now rewrite lookup_insert_ne.
Qed.

Lemma replace_class_value a b el : value (replace_class a b el) = value el.
Proof. unfold replace_class. now destruct (bool_decide _). Qed.

Lemma value_of_updateSaveStatus (st : UI.SaveStatus) (k : string) (s : State) :
  value_of k (document (UI.updateSaveStatus st s)) = value_of k (document s).
Proof.
  unfold UI.updateSaveStatus. destruct (document s !! "save-status") eqn:E;
    [|reflexivity].
  destruct st; cbn [document set_document setTimeout snd set_nextTimer set_timers];
    (eapply value_of_insert_keep; [exact E|]);
    cbn; rewrite ?replace_class_value; reflexivity.
Qed.

Lemma present_updateSaveStatus (st : UI.SaveStatus) (k : string) (s : State) :
  is_Some (document s !! k) ->
  is_Some (document (UI.updateSaveStatus st s) !! k).
Proof.
  intros Hk. unfold UI.updateSaveStatus. destruct (document s !! "save-status") eqn:E;
    [|exact Hk].
  destruct st; cbn [document set_document setTimeout snd set_nextTimer set_timers];
    apply lookup_insert_is_Some'; now right.
Qed.

Lemma document_handleInput (s : State) :
  document (app.handleInput s) = document (UI.updateSaveStatus UI.saving s).
Proof.
  unfold app.handleInput. now destruct (autosaveTimeout _).
Qed.

Lemma onInput_present (f : Field) (v : string) (s : State) :
  is_Some (document s !! field_id f) ->
  onInput f v s = app.handleInput (on_element (field_id f) (set_value v) s).
Proof. intros [el Hel]. unfold onInput. now rewrite Hel. Qed.

Lemma value_of_onInput_same (f : Field) (v : string) (s : State) :
  is_Some (document s !! field_id f) ->
  value_of (field_id f) (document (onInput f v s)) = v.
Proof.
  intros Hf. rewrite onInput_present by exact Hf.
  rewrite document_handleInput, value_of_updateSaveStatus.
  now apply value_of_alter_set.
Qed.

Lemma value_of_onInput_other (f : Field) (v k : string) (s : State) :
  k <> field_id f ->
  value_of k (document (onInput f v s)) = value_of k (document s).
Proof.
  intros Hne. unfold onInput. destruct (document s !! field_id f); [|reflexivity].
  rewrite document_handleInput, value_of_updateSaveStatus.
  now apply value_of_alter_ne.
Qed.

Lemma present_onInput (f : Field) (v k : string) (s : State) :
  is_Some (document s !! k) -> is_Some (document (onInput f v s) !! k).
Proof.
  intros Hk. unfold onInput. destruct (document s !! field_id f); [|exact Hk].
  rewrite document_handleInput. apply present_updateSaveStatus.
  cbn. now apply lookup_alter_is_Some.
Qed.

Lemma field_id_inj (f g : Field) : field_id f = field_id g -> f = g.
Proof. destruct f, g; cbn; intros E; solve [reflexivity | discriminate E]. Qed.

(** ** The autosave timer *)

Lemma filter_filter_comm {A} (f g : A -> bool) (l : list A) :
  List.filter f (List.filter g l) = List.filter g (List.filter f l).
Proof.
  induction l as [|x l IH]; cbn; [reflexivity|].
  destruct (f x) eqn:Ef, (g x) eqn:Eg; cbn; rewrite ?Ef, ?Eg, IH; reflexivity.
Qed.

Lemma find_by_handle (l : list (positive * TimerTask)) (t : positive)
    (task : TimerTask) :
  NoDup (map fst l) -> (t, task) ∈ l ->
  List.find (fun p => Pos.eqb (fst p) t) l = Some (t, task).
Proof.
  induction l as [|p l IH]; intros Hnd Hin; [inversion Hin|].
  cbn in Hnd. apply NoDup_cons in Hnd as [Hp Hnd].
  apply elem_of_cons in Hin as [<-|Hin]; cbn.
  - now rewrite Pos.eqb_refl.
  - destruct (Pos.eqb_spec (fst p) t) as [E|_]; [|now apply IH].
    exfalso. apply Hp. rewrite E.
    apply list_elem_of_In, in_map_iff. exists (t, task).
    split; [reflexivity | now apply list_elem_of_In].
Qed.

Lemma found_by_handle (l : list (positive * TimerTask)) (t t' : positive)
    (task : TimerTask) :
  List.find (fun p => Pos.eqb (fst p) t) l = Some (t', task) ->
  t' = t /\ (t, task) ∈ l.
Proof.
  intros H. apply List.find_some in H as [Hin Heq]. cbn in Heq.
  apply Pos.eqb_eq in Heq as ->. split; [reflexivity | now apply list_elem_of_In].
Qed.

Lemma in_filter_autosave (l : list (positive * TimerTask)) (t : positive) :
  (t, TAutosave) ∈ l -> (t, TAutosave) ∈ List.filter is_autosave l.
Proof.
  intros H. apply list_elem_of_In, List.filter_In.
  split; [now apply list_elem_of_In | reflexivity].
Qed.

Lemma same_editor_refl s : same_editor s s.
Proof. repeat split. Qed.

(** With no autosave timer pending, an expiring timer writes nothing. *)
Lemma fire_disarmed (t : positive) (s : State) :
  disarmed s -> disarmed (fire t s) /\ remote (fire t s) = remote s.
Proof.
  unfold disarmed, fire. intros Hd.
  destruct (List.find _ _) as [[t' task]|] eqn:E; [|now split].
  apply found_by_handle in E as [-> Hin]. destruct task.
  - apply in_filter_autosave in Hin. rewrite Hd in Hin. inversion Hin.
  - split; [|reflexivity]. cbn.
    change (fun p : positive * TimerTask => negb (Pos.eqb (fst p) t))
      with (not_timer t).
    now rewrite filter_filter_comm, Hd.
Qed.

(** While the autosave timer [t2] is pending, any other timer that
    expires writes nothing and leaves [t2] pending and the editor as is. *)
Lemma fire_armed_other (t t2 : positive) (s : State) :
  armed t2 s -> t <> t2 ->
  armed t2 (fire t s) /\ remote (fire t s) = remote s /\ same_editor s (fire t s).
Proof.
  unfold armed, fire. intros [Hnd Ha] Hne.
  destruct (List.find _ _) as [[t' task]|] eqn:E;
    [|split; [now split | split; [reflexivity | apply same_editor_refl]]].
  apply found_by_handle in E as [-> Hin]. destruct task.
  - apply in_filter_autosave in Hin. rewrite Ha in Hin.
    apply list_elem_of_singleton in Hin. congruence.
  - split; [split|split].
    + now apply NoDup_fst_filter.
    + cbn. change (fun p : positive * TimerTask => negb (Pos.eqb (fst p) t))
        with (not_timer t).
      rewrite filter_filter_comm, Ha. cbn. unfold not_timer. cbn.
      destruct (Pos.eqb_spec t2 t); [congruence | reflexivity].
    + reflexivity.
    + repeat split. intros k. cbn. now apply value_of_alter_keep.
Qed.

(** When the pending autosave timer expires with an identity signed in
    and a note open, it issues one update call and no autosave timer
    remains. *)
Lemma fire_armed_hit (t2 : positive) (user : User) (noteId : string) (s : State) :
  armed t2 s -> currentUser s = Some user -> currentNoteId s = Some noteId ->
  truthy noteId = true ->
  disarmed (fire t2 s) /\ remote (fire t2 s) = remote s ++ [save_call user noteId s].
Proof.
  unfold armed, disarmed, fire. intros [Hnd Ha] Hu Hc Ht.
  assert (Hin : (t2, TAutosave) ∈ timers s).
  { apply list_elem_of_In. apply (List.filter_In is_autosave). rewrite Ha. now left. }
  rewrite (find_by_handle _ _ _ Hnd Hin).
  unfold app.autosave. cbn [currentUser currentNoteId clearTimeout set_timers].
  rewrite Hu, Hc. cbn [truthy_opt]. rewrite Ht. cbn. split; [|reflexivity].
  change (fun p : positive * TimerTask => negb (Pos.eqb (fst p) t2))
    with (not_timer t2).
  rewrite filter_filter_comm, Ha. cbn. unfold not_timer. cbn.
  now rewrite Pos.eqb_refl.
Qed.

Lemma run_timers_disarmed {js : Engine} (ts : list positive) (s : State) :
  disarmed s -> remote (run (map ETimer ts) s) = remote s.
Proof.
  revert s. induction ts as [|t ts IH]; intros s Hd; [reflexivity|].
  destruct (fire_disarmed t s Hd) as [Hd' Hr].
  change (run (map ETimer (t :: ts)) s) with (run (map ETimer ts) (fire t s)).
  now rewrite IH.
Qed.

(** However the timers expire after that, in any order and any number of
    times, one update call is issued if the pending autosave timer is
    among them, and none otherwise. *)
Lemma run_timers_armed {js : Engine} (ts : list positive) (t2 : positive) (user : User)
    (noteId : string) (s : State) :
  armed t2 s -> currentUser s = Some user -> currentNoteId s = Some noteId ->
  truthy noteId = true ->
  remote (run (map ETimer ts) s)
  = remote s ++ (if bool_decide (t2 ∈ ts) then [save_call user noteId s] else []).
Proof.
  revert s. induction ts as [|t ts IH]; intros s Ha Hu Hc Ht.
  - cbn. now rewrite app_nil_r.
  - change (run (map ETimer (t :: ts)) s) with (run (map ETimer ts) (fire t s)).
    destruct (decide (t = t2)) as [->|Hne].
    + destruct (fire_armed_hit t2 user noteId s Ha Hu Hc Ht) as [Hd Hr].
      rewrite run_timers_disarmed by exact Hd.
      rewrite bool_decide_eq_true_2 by (left). exact Hr.
    + destruct (fire_armed_other t t2 s Ha Hne) as (Ha' & Hr & Hu' & Hc' & Hv).
      rewrite IH; [|exact Ha'|congruence|congruence|exact Ht].
      rewrite Hr. f_equal.
      assert (Hsame : save_call user noteId (fire t s) = save_call user noteId s)
        by (unfold save_call; now rewrite !Hv).
      rewrite Hsame.
      destruct (bool_decide (t2 ∈ ts)) eqn:E.
      * apply bool_decide_eq_true in E.
        rewrite bool_decide_eq_true_2 by (now right). reflexivity.
      * apply bool_decide_eq_false in E.
        rewrite bool_decide_eq_false_2; [reflexivity|].
        intros [?|?]%elem_of_cons; congruence.
Qed.

(** No identity or no open note: an expiring timer writes nothing. *)
Lemma fire_without_session (t : positive) (s : State) :
  currentUser s = None \/ truthy_opt (currentNoteId s) = false ->
  remote (fire t s) = remote s.
Proof.
  intros H. unfold fire. destruct (List.find _ _) as [[t' [|]]|]; try reflexivity.
  unfold app.autosave. cbn [currentUser currentNoteId clearTimeout set_timers].
  destruct H as [-> | ->]; [reflexivity | now destruct (currentUser s)].
Qed.

Lemma armed_after_handleInput (s : State) :
  timers_wf s -> armed (nextTimer s) (app.handleInput s).
Proof.
  intros Hwf. destruct (timers_wf_handleInput s Hwf) as (Hnd & _ & _).
  split; [exact Hnd|].
  destruct (handleInput_timers s) as (Ht & _ & _). rewrite Ht.
  rewrite List.filter_app, (wf_no_stale_autosave s Hwf). reflexivity.
Qed.

(** ** Two edits in one debounce window *)

(** C3. In a state with well-formed timers, an identity signed in and a
    note open, two edits in a row (to fields that exist) leave exactly one
    autosave timer pending, the one of the second edit, and the edited
    field holds the second value (the first value stays where the edits
    went to different fields).  Whatever timers then expire, the calls
    issued are one update call for the open note, carrying the title and
    content as they stand after the second edit, if that timer is among
    them, and no call otherwise.  And in any state without an identity or
    without an open note, an expiring timer issues nothing. *)
Theorem two_edits_one_write {js : Engine} (s : State) (user : User) (noteId : string)
    (f1 f2 : Field) (v1 v2 : string) (ts : list positive) :
  timers_wf s ->
  currentUser s = Some user ->
  currentNoteId s = Some noteId ->
  truthy noteId = true ->
  is_Some (document s !! field_id f1) ->
  is_Some (document s !! field_id f2) ->
  List.filter is_autosave (timers (run [EInput f1 v1; EInput f2 v2] s))
  = [(Pos.succ (nextTimer s), TAutosave)]
  /\ value_of (field_id f2) (document (run [EInput f1 v1; EInput f2 v2] s)) = v2
  /\ (f1 <> f2 ->
      value_of (field_id f1) (document (run [EInput f1 v1; EInput f2 v2] s)) = v1)
  /\ remote (run (map ETimer ts) (run [EInput f1 v1; EInput f2 v2] s))
     = remote s
       ++ (if bool_decide (Pos.succ (nextTimer s) ∈ ts)
           then [save_call user noteId (run [EInput f1 v1; EInput f2 v2] s)]
           else [])
  /\ (forall (x : State) (t : positive),
        currentUser x = None \/ truthy_opt (currentNoteId x) = false ->
        remote (fire t x) = remote x).
Proof.
  intros Hwf Hu Hc Ht Hf1 Hf2.
  change (run [EInput f1 v1; EInput f2 v2] s)
    with (onInput f2 v2 (onInput f1 v1 s)).
  set (s1 := onInput f1 v1 s).
  assert (Hf2' : is_Some (document s1 !! field_id f2)) by now apply present_onInput.
  assert (Hwf1 : timers_wf s1) by apply (timers_wf_step (EInput f1 v1) s Hwf).
  assert (Hn1 : nextTimer s1 = Pos.succ (nextTimer s)).
  { unfold s1. rewrite onInput_present by exact Hf1.
    now destruct (handleInput_timers (on_element (field_id f1) (set_value v1) s))
      as (_ & -> & _). }
  assert (Hses1 : currentUser s1 = Some user /\ currentNoteId s1 = Some noteId
                  /\ remote s1 = remote s).
  { unfold s1. rewrite onInput_present by exact Hf1.
    destruct (handleInput_frame (on_element (field_id f1) (set_value v1) s))
      as (-> & -> & _ & ->). now repeat split. }
  destruct Hses1 as (Hu1 & Hc1 & Hr1).
  set (s2 := onInput f2 v2 s1).
  assert (Hs2 : s2 = app.handleInput (on_element (field_id f2) (set_value v2) s1))
    by (apply onInput_present, Hf2').
  assert (Harmed : armed (Pos.succ (nextTimer s)) s2).
  { rewrite Hs2, <- Hn1.
    apply (armed_after_handleInput (on_element (field_id f2) (set_value v2) s1)).
    exact Hwf1. }
  assert (Hses2 : currentUser s2 = Some user /\ currentNoteId s2 = Some noteId
                  /\ remote s2 = remote s).
  { rewrite Hs2.
    destruct (handleInput_frame (on_element (field_id f2) (set_value v2) s1))
      as (-> & -> & _ & ->). repeat split; assumption. }
  destruct Hses2 as (Hu2 & Hc2 & Hr2).
  split; [exact (proj2 Harmed)|].
  split; [now apply value_of_onInput_same|].
  split.
  { intros Hne. unfold s2. rewrite value_of_onInput_other
      by (intros E; apply field_id_inj in E; congruence).
    now apply value_of_onInput_same. }
  split; [|intros x t; apply fire_without_session].
  rewrite (run_timers_armed ts _ user noteId s2 Harmed Hu2 Hc2 Ht).
  now rewrite Hr2.
Qed.

Lemma editing_a_timers_wf : timers_wf Sample.editing_a.
Proof.
  apply reachable_timers_wf.
  exists Sample.page,
    ([EAuthStateChanged (Some Sample.alice); ESnapshot Sample.snapshot]
     ++ [EOpenNote "a"]).
  unfold Sample.editing_a, Sample.on_dashboard. symmetry. apply run_app.
Qed.

Lemma two_edits_one_write_witness :
  remote (run (map ETimer [1; 2; 1; 2]%positive)
            (run [EInput note_title "Groceries!"; EInput note_content "milk, eggs, tea"]
               Sample.editing_a))
  = [UpdateDoc "u1" "a" "Groceries!" "milk, eggs, tea"].
Proof.
  pose proof editing_a_timers_wf as Hwf.
  assert (H1 : is_Some (document Sample.editing_a !! field_id note_title))
    by (vm_compute; eauto).
  assert (H2 : is_Some (document Sample.editing_a !! field_id note_content))
    by (vm_compute; eauto).
  exact (proj1 (proj2 (proj2 (proj2
           (two_edits_one_write Sample.editing_a Sample.alice "a"
              note_title note_content "Groceries!" "milk, eggs, tea"
              [1; 2; 1; 2]%positive Hwf eq_refl eq_refl eq_refl H1 H2))))).
Defined.

(** ** An edit followed by a switch to another note *)

Lemma shown_in_iff (k : string) (d d' : DOM) (x : string) :
  (is_Some (d' !! k) <-> is_Some (d !! k)) -> shown_in k d' x = shown_in k d x.
Proof.
  unfold shown_in. intros H.
  destruct (d' !! k) eqn:E', (d !! k) eqn:E; try reflexivity.
  - destruct (proj1 H (mk_is_Some _ _ eq_refl)) as [? ?]. discriminate.
  - destruct (proj2 H (mk_is_Some _ _ eq_refl)) as [? ?]. discriminate.
Qed.

Lemma present_iff_updateSaveStatus (st : UI.SaveStatus) (k : string) (s : State) :
  is_Some (document (UI.updateSaveStatus st s) !! k) <-> is_Some (document s !! k).
Proof.
  split; [|apply present_updateSaveStatus].
  unfold UI.updateSaveStatus. destruct (document s !! "save-status") eqn:E;
    [|trivial].
  destruct st; cbn [document set_document setTimeout snd set_nextTimer set_timers];
    intros H; apply lookup_insert_is_Some in H as [<-|[_ H]];
    solve [exact H | rewrite E; eauto].
Qed.

Lemma present_iff_onInput (f : Field) (v k : string) (s : State) :
  is_Some (document (onInput f v s) !! k) <-> is_Some (document s !! k).
Proof.
  unfold onInput. destruct (document s !! field_id f); [|reflexivity].
  rewrite document_handleInput, present_iff_updateSaveStatus. cbn.
  apply lookup_alter_is_Some.
Qed.

Lemma value_of_alter_shown (k x : string) (d : DOM) :
  value_of k (alter (set_value x) k d) = shown_in k d x.
Proof.
  unfold value_of, shown_in. rewrite lookup_alter_eq. now destruct (d !! k).
Qed.

Lemma value_of_showView (k : string) (v : View) (s : State) :
  value_of k (document (UI.showView v s)) = value_of k (document s).
Proof.
  assert (Hhide : value_of k (UI.hide_all_views (document s))
                  = value_of k (document s)).
  { unfold UI.hide_all_views. cbn [foldl all_views].
    now rewrite !value_of_alter_keep by reflexivity. }
  unfold UI.showView. destruct (_ !! view_id v);
    cbn [document set_document console_error set_console].
  - now rewrite value_of_alter_keep by reflexivity.
  - exact Hhide.
Qed.

Lemma openNote_frame (noteId : string) (s : State) :
  currentUser (app.openNote noteId s) = currentUser s
  /\ remote (app.openNote noteId s) = remote s.
Proof.
  unfold_handlers. cbn [notesData set_currentNoteId]. frame; repeat split.
Qed.

Lemma document_on_element k f s :
  document (on_element k f s) = alter f k (document s).
Proof. reflexivity. Qed.

(** [openNote] on an id the cache has. *)
Lemma openNote_found_eq (noteId : string) (note : Note) (s : State) :
  List.find (fun n => String.eqb (id n) noteId) (notesData s) = Some note ->
  app.openNote noteId s
  = app.renderSidebar
      (UI.showView editor
         (on_element "mode-indicator" (set_innerText "EDIT MODE | Ctrl+E")
            (on_element "note-preview" (add_class "hidden")
               (on_element "note-content" (remove_class "hidden")
                  (set_isEditMode true
                     (on_element "last-edited"
                        (set_innerText
                           ("Last edited: " +:+ UI.formatDate (updatedAt note)))
                        (on_element "note-content"
                           (set_value (or_else (content note) ""))
                           (on_element "note-title"
                              (set_value (or_else (title note) ""))
                              (set_currentNoteId (Some noteId) s))))))))).
Proof.
  intros Hfind. unfold app.openNote.
  change (notesData (set_currentNoteId (Some noteId) s)) with (notesData s).
  rewrite Hfind. reflexivity.
Qed.

(** Opening a cached note puts its title and content into the editor. *)
Lemma openNote_found (noteId : string) (note : Note) (s : State) :
  List.find (fun n => String.eqb (id n) noteId) (notesData s) = Some note ->
  currentNoteId (app.openNote noteId s) = Some noteId
  /\ value_of "note-title" (document (app.openNote noteId s))
     = shown_in "note-title" (document s) (or_else (title note) "")
  /\ value_of "note-content" (document (app.openNote noteId s))
     = shown_in "note-content" (document s) (or_else (content note) "").
Proof.
  intros Hfind. rewrite (openNote_found_eq noteId note s Hfind).
  unfold app.renderSidebar. split; [|split].
  - rewrite currentNoteId_on_element, currentNoteId_showView.
    rewrite !currentNoteId_on_element. reflexivity.
  - rewrite document_on_element, value_of_alter_keep by reflexivity.
    rewrite value_of_showView.
    rewrite document_on_element, value_of_alter_ne by discriminate.
    rewrite document_on_element, value_of_alter_ne by discriminate.
    rewrite document_on_element, value_of_alter_ne by discriminate.
    rewrite document_set_isEditMode.
    rewrite document_on_element, value_of_alter_ne by discriminate.
    rewrite document_on_element, value_of_alter_ne by discriminate.
    rewrite document_on_element, value_of_alter_shown.
    rewrite document_set_currentNoteId. reflexivity.
  - rewrite document_on_element, value_of_alter_keep by reflexivity.
    rewrite value_of_showView.
    rewrite document_on_element, value_of_alter_ne by discriminate.
    rewrite document_on_element, value_of_alter_ne by discriminate.
    rewrite document_on_element, value_of_alter_keep by reflexivity.
    rewrite document_set_isEditMode.
    rewrite document_on_element, value_of_alter_ne by discriminate.
    rewrite document_on_element, value_of_alter_shown.
    rewrite document_on_element, document_set_currentNoteId.
    apply shown_in_iff, lookup_alter_is_Some.
Qed.

(** Opening an id that is not cached leaves no note open. *)
Lemma openNote_missing (noteId : string) (s : State) :
  List.find (fun n => String.eqb (id n) noteId) (notesData s) = None ->
  currentNoteId (app.openNote noteId s) = None.
Proof.
  intros Hfind. unfold app.openNote.
  change (notesData (set_currentNoteId _ s)) with (notesData s). rewrite Hfind.
  unfold app.showDashboard. now rewrite currentNoteId_showView.
Qed.

Lemma fire_session (t : positive) (s : State) :
  currentUser (fire t s) = currentUser s
  /\ currentNoteId (fire t s) = currentNoteId s.
Proof. unfold fire. unfold_handlers. frame; repeat split. Qed.

Lemma run_timers_without_session {js : Engine} (ts : list positive) (s : State) :
  currentUser s = None \/ truthy_opt (currentNoteId s) = false ->
  remote (run (map ETimer ts) s) = remote s.
Proof.
  revert s. induction ts as [|t ts IH]; intros s H; [reflexivity|].
  change (run (map ETimer (t :: ts)) s) with (run (map ETimer ts) (fire t s)).
  destruct (fire_session t s) as [Hu Hc].
  rewrite IH by (now rewrite Hu, Hc). now apply fire_without_session.
Qed.

Lemma armed_same_timers (t : positive) (s s' : State) :
  same_timers s s' -> armed t s -> armed t s'.
Proof. unfold armed. now intros (-> & _ & _). Qed.

(** The calls a run issues after an edit, a switch to [b] and any timer
    expiries. *)
Lemma edit_switch_calls {js : Engine} (s : State) (user : User) (b : string) (f : Field)
    (v : string) (ts : list positive) :
  timers_wf s -> currentUser s = Some user ->
  is_Some (document s !! field_id f) ->
  remote (run (EInput f v :: EOpenNote b :: map ETimer ts) s)
  = remote s
    ++ match List.find (fun n => String.eqb (id n) b) (notesData s) with
       | Some cached =>
           if truthy b && bool_decide (nextTimer s ∈ ts)
           then [UpdateDoc (uid user) b
                   (shown_in "note-title" (document s) (or_else (title cached) ""))
                   (shown_in "note-content" (document s) (or_else (content cached) ""))]
           else []
       | None => []
       end.
Proof.
  intros Hwf Hu Hf.
  change (run (EInput f v :: EOpenNote b :: map ETimer ts) s)
    with (run (map ETimer ts) (app.openNote b (onInput f v s))).
  set (s1 := onInput f v s).
  assert (H1 : currentUser s1 = Some user /\ remote s1 = remote s
               /\ notesData s1 = notesData s /\ armed (nextTimer s) s1).
  { unfold s1. rewrite onInput_present by exact Hf.
    destruct (handleInput_frame (on_element (field_id f) (set_value v) s))
      as (-> & _ & -> & ->).
    split; [exact Hu|]. split; [reflexivity|]. split; [reflexivity|].
    apply (armed_after_handleInput (on_element (field_id f) (set_value v) s) Hwf). }
  destruct H1 as (Hu1 & Hr1 & Hd1 & Ha1).
  destruct (openNote_frame b s1) as [Hu2 Hr2].
  rewrite <- Hd1.
  destruct (List.find _ (notesData s1)) as [cached|] eqn:Hfind.
  - destruct (openNote_found b cached s1 Hfind) as (Hc2 & Ht2 & Hb2).
    destruct (truthy b) eqn:Htruthy; cbn [andb].
    + rewrite (run_timers_armed ts (nextTimer s) user b);
        [ | apply (armed_same_timers _ s1), Ha1; apply same_timers_openNote
          | congruence | exact Hc2 | exact Htruthy ].
      rewrite Hr2, Hr1. f_equal. unfold save_call. rewrite Ht2, Hb2.
      unfold s1.
      now rewrite !(shown_in_iff _ (document s) (document (onInput f v s)))
        by apply present_iff_onInput.
    + rewrite app_nil_r, run_timers_without_session; [congruence|].
      right. rewrite Hc2. exact Htruthy.
  - rewrite app_nil_r, run_timers_without_session; [congruence|].
    right. now rewrite openNote_missing.
Qed.

(** The stale timer at work: an edit to note [a], a switch to note [b]
    within the debounce window, and the timer of the edit issues an update
    call directed at [b]. *)
Lemma stale_timer_writes_other_note :
  currentNoteId Sample.editing_a = Some "a"
  /\ nextTimer Sample.editing_a = 1%positive
  /\ remote (run [EInput note_content "milk, eggs, tea"; EOpenNote "b"; ETimer 1]
               Sample.editing_a)
     = [UpdateDoc "u1" "b" "Plan" "roadmap"].
Proof. vm_compute. repeat split. Qed.

(** C2, as the code has it. An edit is scheduled while [a] is open and a
    different note [b] is opened before the timer of the edit expires.
    The target id is read when the timer expires: whatever timers expire,
    the calls issued are at most one update call, directed at [b], and it
    carries the title and content of [b]'s cached record as [openNote]
    wrote them into the editor (the empty string for a field whose element
    is missing); nothing is issued when [b] is not cached.  The text that
    was typed into [a] has no influence on the calls issued. *)
Theorem edit_then_switch_writes_cached {js : Engine} (s : State) (user : User) (a b : string)
    (f : Field) (v : string) (ts : list positive) :
  timers_wf s ->
  currentUser s = Some user ->
  currentNoteId s = Some a ->
  a <> b ->
  is_Some (document s !! field_id f) ->
  remote (run (EInput f v :: EOpenNote b :: map ETimer ts) s)
  = remote s
    ++ match List.find (fun n => String.eqb (id n) b) (notesData s) with
       | Some cached =>
           if truthy b && bool_decide (nextTimer s ∈ ts)
           then [UpdateDoc (uid user) b
                   (shown_in "note-title" (document s) (or_else (title cached) ""))
                   (shown_in "note-content" (document s) (or_else (content cached) ""))]
           else []
       | None => []
       end
  /\ (forall v' : string,
        remote (run (EInput f v' :: EOpenNote b :: map ETimer ts) s)
        = remote (run (EInput f v :: EOpenNote b :: map ETimer ts) s)).
Proof.
  intros Hwf Hu _ _ Hf. split.
  - now apply edit_switch_calls.
  - intros v'. now rewrite !(edit_switch_calls s user b f _ ts Hwf Hu Hf).
Qed.

Lemma edit_then_switch_writes_cached_witness :
  remote (run (EInput note_content "milk, eggs, tea" :: EOpenNote "b"
               :: map ETimer [1%positive]) Sample.editing_a)
  = [UpdateDoc "u1" "b" "Plan" "roadmap"].
Proof.
  pose proof editing_a_timers_wf as Hwf.
  assert (Hf : is_Some (document Sample.editing_a !! field_id note_content))
    by (vm_compute; eauto).
  assert (Hab : "a" <> "b") by discriminate.
  exact (proj1 (edit_then_switch_writes_cached Sample.editing_a Sample.alice
                  "a" "b" note_content "milk, eggs, tea" [1%positive]
                  Hwf eq_refl eq_refl Hab Hf)).
Defined.

(** ** The generation call *)

Module GeminiFacts.
Import GeminiService.

Lemma asked_initialize sdk key g : asked (initialize sdk key g) = asked g.
Proof. unfold initialize. now destruct (first_truthy _). Qed.

(** The loop stops at the first model that answers. *)
Lemma try_models_success sdk client prompt before m after t last g :
  Forall (fails sdk client prompt) before ->
  ask sdk client m prompt = Text t ->
  fst (try_models sdk client prompt (before ++ m :: after) last g) = Returned t
  /\ asked (snd (try_models sdk client prompt (before ++ m :: after) last g))
     = asked g ++ before ++ [m].
Proof.
  intros Hbefore Hm. revert last g.
  induction Hbefore as [|x before [e Hx] _ IH]; intros last g; cbn.
  - rewrite Hm. cbn. now split.
  - rewrite Hx. destruct (IH (Some e) (note_asked x g)) as [-> ->].
    cbn. now rewrite <- app_assoc.
Qed.

(** When every model throws, all were asked, in order, and the message
    ends in the message of the last error thrown. *)
Lemma try_models_all_fail sdk client prompt init m e last g :
  Forall (fails sdk client prompt) init ->
  ask sdk client m prompt = Throws e ->
  fst (try_models sdk client prompt (init ++ [m]) last g)
  = Threw ("All models failed. Last error: " +:+ message e)
  /\ asked (snd (try_models sdk client prompt (init ++ [m]) last g))
     = asked g ++ init ++ [m].
Proof.
  intros Hinit Hm. revert last g.
  induction Hinit as [|x init [e' Hx] _ IH]; intros last g; cbn.
  - rewrite Hm. cbn. now split.
  - rewrite Hx. destruct (IH (Some e') (note_asked x g)) as [-> ->].
    cbn. now rewrite <- app_assoc.
Qed.

(** The loop only gives up when every model has thrown. *)
Lemma try_models_threw sdk client prompt models last g msg :
  fst (try_models sdk client prompt models last g) = Threw msg ->
  Forall (fails sdk client prompt) models.
Proof.
  revert last g. induction models as [|x models IH]; intros last g H;
    [constructor|].
  cbn in H. destruct (ask sdk client x prompt) as [t|e] eqn:Hx; [discriminate|].
  constructor; [now exists e | now apply (IH _ _ H)].
Qed.

Lemma try_models_answered sdk client prompt models last g t :
  fst (try_models sdk client prompt models last g) = Returned t ->
  ~ Forall (fails sdk client prompt) models.
Proof.
  revert last g. induction models as [|x models IH]; intros last g H HF;
    [discriminate|].
  apply Forall_cons in HF as [[e Hx] HF]. cbn in H. rewrite Hx in H.
  now apply (IH _ _ H).
Qed.

End GeminiFacts.

(** An SDK whose constructor throws: the call fails without having asked
    any model, though the first model would have answered. *)
Lemma generate_fails_before_any_model :
  GeminiService.generateContent Sample.broken_sdk "Summarize"
    (GeminiService.fresh None)
  = (GeminiService.Threw
       "Gemini Client not initialized. Please check your API Key.",
     GeminiService.initialize Sample.broken_sdk None (GeminiService.fresh None))
  /\ GeminiService.asked
       (snd (GeminiService.generateContent Sample.broken_sdk "Summarize"
               (GeminiService.fresh None))) = []
  /\ GeminiService.ask Sample.broken_sdk "Your API Key" "gemini-2.5-flash"
       "Summarize" = GeminiService.Text "fine".
Proof. vm_compute. repeat split. Qed.

(** C9, as the code has it. Once [initialize] has produced a client, the
    call asks the configured models in their order and stops at the first
    that answers, returning its text; it throws exactly when every model
    threw, and then the message is the fixed prefix followed by the
    message of the last model's error.  When [initialize] has produced no
    client, the call throws the not-initialised error and asks no model. *)
Theorem generate_content_fallback (sdk : GeminiService.Sdk) (prompt : string)
    (g : GeminiService.Service) :
  (forall client,
     GeminiService.genAI (GeminiService.initialize sdk None g) = Some client ->
     (forall before m after t,
        GeminiService.modelsToTry = before ++ m :: after ->
        Forall (GeminiService.fails sdk client prompt) before ->
        GeminiService.ask sdk client m prompt = GeminiService.Text t ->
        fst (GeminiService.generateContent sdk prompt g) = GeminiService.Returned t
        /\ GeminiService.asked (snd (GeminiService.generateContent sdk prompt g))
           = GeminiService.asked g ++ before ++ [m])
     /\ ((exists msg, fst (GeminiService.generateContent sdk prompt g)
                      = GeminiService.Threw msg)
         <-> Forall (GeminiService.fails sdk client prompt) GeminiService.modelsToTry)
     /\ (forall e1 e2,
           GeminiService.ask sdk client "gemini-2.5-flash" prompt
           = GeminiService.Throws e1 ->
           GeminiService.ask sdk client "gemini-2.5-flash-001" prompt
           = GeminiService.Throws e2 ->
           fst (GeminiService.generateContent sdk prompt g)
           = GeminiService.Threw ("All models failed. Last error: " +:+ message e2)
           /\ GeminiService.asked (snd (GeminiService.generateContent sdk prompt g))
              = GeminiService.asked g ++ GeminiService.modelsToTry))
  /\ (GeminiService.genAI (GeminiService.initialize sdk None g) = None ->
      fst (GeminiService.generateContent sdk prompt g)
      = GeminiService.Threw
          "Gemini Client not initialized. Please check your API Key."
      /\ GeminiService.asked (snd (GeminiService.generateContent sdk prompt g))
         = GeminiService.asked g).
Proof.
  split.
  - intros client Hclient. unfold GeminiService.generateContent. rewrite Hclient.
    split; [|split].
    + intros before m after t -> Hbefore Hm.
      rewrite <- (GeminiFacts.asked_initialize sdk None g).
      now apply GeminiFacts.try_models_success.
    + split.
      * intros [msg H]. now apply GeminiFacts.try_models_threw in H.
      * intros H. apply Forall_cons in H as [[e1 H1] H].
        apply Forall_cons in H as [[e2 H2] _].
        eexists. cbn. rewrite H1, H2. reflexivity.
    + intros e1 e2 H1 H2. cbn. rewrite H1, H2. cbn.
      now rewrite GeminiFacts.asked_initialize, <- app_assoc.
  - intros Hnone. unfold GeminiService.generateContent. rewrite Hnone. cbn.
    split; [reflexivity | apply GeminiFacts.asked_initialize].
Qed.

Lemma generate_content_fallback_witness :
  fst (GeminiService.generateContent Sample.flaky_sdk "Summarize"
         (GeminiService.fresh None))
  = GeminiService.Returned "fine"
  /\ fst (GeminiService.generateContent Sample.dead_sdk "Summarize"
            (GeminiService.fresh None))
     = GeminiService.Threw
         "All models failed. Last error: bad key for gemini-2.5-flash-001".
Proof.
  split.
  - refine (proj1 (proj1 (proj1 (generate_content_fallback Sample.flaky_sdk
              "Summarize" (GeminiService.fresh None)) "Your API Key" eq_refl)
              ["gemini-2.5-flash"] "gemini-2.5-flash-001" [] "fine" eq_refl _ eq_refl)).
    repeat constructor. eexists. reflexivity.
  - exact (proj1 (proj2 (proj2 (proj1 (generate_content_fallback Sample.dead_sdk
              "Summarize" (GeminiService.fresh None)) "Your API Key" eq_refl))
              _ _ eq_refl eq_refl)).
Defined.

(** * Further properties of the handlers *)

(** ** The pending autosave timer *)

Lemma at_most_one_autosave (l : list (positive * TimerTask)) (o : option positive) :
  NoDup (map fst l) ->
  Forall (fun p => is_autosave p = true -> o = Some (fst p)) l ->
  length (List.filter is_autosave l) <= 1.
Proof.
  induction l as [|p l IH]; cbn [map List.filter length]; [lia|].
  intros [Hp Hnd]%NoDup_cons [Ho Hl]%Forall_cons.
  destruct (is_autosave p) eqn:Ep; [|now apply IH].
  assert (Hnone : List.filter is_autosave l = []).
  { destruct (List.filter is_autosave l) as [|q rest] eqn:E; [reflexivity|].
    exfalso. apply Hp.
    assert (Hq : In q (List.filter is_autosave l)) by (rewrite E; now left).
    apply List.filter_In in Hq as [Hin Hq].
    rewrite Forall_forall in Hl. apply list_elem_of_In in Hin.
    specialize (Hl q Hin Hq). specialize (Ho eq_refl).
    assert (Hfst : fst p = fst q) by congruence.
    rewrite Hfst. apply list_elem_of_In, in_map, list_elem_of_In, Hin. }
  rewrite Hnone. cbn. lia.
Qed.

Lemma editing_a_reachable : reachable Sample.editing_a.
Proof.
  exists Sample.page,
    ([EAuthStateChanged (Some Sample.alice); ESnapshot Sample.snapshot]
     ++ [EOpenNote "a"]).
  unfold Sample.editing_a, Sample.on_dashboard. symmetry. apply run_app.
Qed.

Lemma reachable_run {js : Engine} (es : list Event) (s : State) :
  reachable s -> reachable (run es s).
Proof.
  intros (d & es0 & ->). exists d, (es0 ++ es). symmetry. apply run_app.
Qed.

(** X1. In every state the event loop can reach, at most one autosave
    timer is pending, a pending autosave timer is the one whose handle
    [autosaveTimeout] holds, and no two pending timers share a handle. *)
Theorem reachable_one_autosave_timer {js : Engine} (s : State) :
  reachable s ->
  length (List.filter is_autosave (timers s)) <= 1
  /\ (forall t, (t, TAutosave) ∈ timers s -> autosaveTimeout s = Some t)
  /\ NoDup (map fst (timers s)).
Proof.
  intros Hreach. destruct (reachable_timers_wf s Hreach) as (Hnd & _ & Hauto).
  split; [|split].
  - now apply (at_most_one_autosave _ (autosaveTimeout s)).
  - intros t Hin. rewrite Forall_forall in Hauto.
    exact (Hauto (t, TAutosave) Hin eq_refl).
  - exact Hnd.
Qed.

Lemma reachable_one_autosave_timer_witness :
  length (List.filter is_autosave
            (timers (run [EInput note_title "x"; EInput note_content "y";
                          EInput note_title "z"] Sample.editing_a))) <= 1.
Proof.
  apply reachable_one_autosave_timer, reachable_run, editing_a_reachable.
Defined.

(** ** Leaving the editor, or the session, inside the debounce window *)

Lemma remote_onInput (f : Field) (v : string) (s : State) :
  remote (onInput f v s) = remote s.
Proof.
  unfold onInput. destruct (_ !! _); [|reflexivity].
  now destruct (handleInput_frame (on_element (field_id f) (set_value v) s))
    as (_ & _ & _ & ->).
Qed.

Lemma currentUser_showView v s : currentUser (UI.showView v s) = currentUser s.
Proof. unfold UI.showView. destruct (_ !! _); reflexivity. Qed.

Lemma remote_onAuthStateChanged (user : option User) (s : State) :
  remote (onAuthStateChanged user s) = remote s.
Proof.
  unfold onAuthStateChanged. destruct user as [u|].
  - change (remote (UI.showView dashboard (set_currentUser (Some u) s)) = remote s).
    now rewrite remote_showView.
  - change (remote (UI.showView login (set_currentUser None s)) = remote s).
    now rewrite remote_showView.
Qed.

Lemma currentUser_signed_out (s : State) :
  currentUser (onAuthStateChanged None s) = None.
Proof.
  unfold onAuthStateChanged.
  change (currentUser (UI.showView login (set_currentUser None s)) = None).
  now rewrite currentUser_showView.
Qed.

(** ** The handlers, unfolded *)

Lemma openNote_missing_eq (noteId : string) (s : State) :
  List.find (fun n => String.eqb (id n) noteId) (notesData s) = None ->
  app.openNote noteId s = app.showDashboard (set_currentNoteId (Some noteId) s).
Proof.
  intros Hfind. unfold app.openNote.
  change (notesData (set_currentNoteId (Some noteId) s)) with (notesData s).
  now rewrite Hfind.
Qed.

Lemma signed_in_eq (u : User) (s : State) :
  onAuthStateChanged (Some u) s
  = set_subscriptions
      (subscriptions
         (on_element "user-email-display" (set_innerText (or_else (email u) "User"))
            (UI.showView dashboard (set_currentUser (Some u) s))) ++ [uid u])
      (on_element "user-email-display" (set_innerText (or_else (email u) "User"))
         (UI.showView dashboard (set_currentUser (Some u) s))).
Proof. reflexivity. Qed.

Lemma signed_out_eq (s : State) :
  onAuthStateChanged None s
  = set_notesData [] (UI.showView login (set_currentUser None s)).
Proof. reflexivity. Qed.

Lemma onSnapshot_eq {js : Engine} (docs : list Doc) (s : State) :
  onSnapshot docs s
  = on_element "sidebar-notes-list"
      (set_children
         (map (app.row (currentNoteId
                 (app.renderDashboard (set_notesData (map note_of_doc docs) s))))
            (notesData
               (app.renderDashboard (set_notesData (map note_of_doc docs) s)))))
      (app.renderDashboard (set_notesData (map note_of_doc docs) s)).
Proof. reflexivity. Qed.

Lemma settle_eq (a : Await) (r : Settled) (s : State) :
  a ∈ awaiting s ->
  settle a r s
  = match a with
    | AwAddDoc => app.createNewNote_resume r
    | AwUpdateDoc => app.autosave_resume r
    | AwDeleteDoc => app.confirmDelete_resume r
    end (set_awaiting (remove_first a (awaiting s)) s).
Proof.
  intros Hin. unfold settle. rewrite bool_decide_eq_true_2 by exact Hin.
  now destruct a.
Qed.

Lemma settle_not_awaited (a : Await) (r : Settled) (s : State) :
  a ∉ awaiting s -> settle a r s = s.
Proof. intros Hin. unfold settle. now rewrite bool_decide_eq_false_2. Qed.

(** ** Listeners *)

Lemma subscriptions_on_element k f s :
  subscriptions (on_element k f s) = subscriptions s.
Proof. reflexivity. Qed.

Lemma subscriptions_showView v s :
  subscriptions (UI.showView v s) = subscriptions s.
Proof. unfold UI.showView. destruct (_ !! _); reflexivity. Qed.

Lemma subscriptions_showDashboard s :
  subscriptions (app.showDashboard s) = subscriptions s.
Proof. unfold app.showDashboard. now rewrite subscriptions_showView. Qed.

Lemma subscriptions_renderDashboard {js : Engine} s :
  subscriptions (app.renderDashboard s) = subscriptions s.
Proof. unfold app.renderDashboard. frame. Qed.

Lemma subscriptions_openNote noteId s :
  subscriptions (app.openNote noteId s) = subscriptions s.
Proof.
  destruct (List.find (fun n => String.eqb (id n) noteId) (notesData s))
    as [n|] eqn:E.
  - rewrite (openNote_found_eq noteId n s E). unfold app.renderSidebar.
    rewrite subscriptions_on_element, subscriptions_showView.
    rewrite !subscriptions_on_element. reflexivity.
  - rewrite (openNote_missing_eq noteId s E).
    now rewrite subscriptions_showDashboard.
Qed.

Lemma subscriptions_updateSaveStatus st s :
  subscriptions (UI.updateSaveStatus st s) = subscriptions s.
Proof.
  unfold UI.updateSaveStatus. destruct (_ !! _); [destruct st|]; reflexivity.
Qed.

Lemma subscriptions_handleInput s :
  subscriptions (app.handleInput s) = subscriptions s.
Proof.
  unfold app.handleInput. destruct (autosaveTimeout _); cbn;
    apply subscriptions_updateSaveStatus.
Qed.

Lemma subscriptions_fire t s : subscriptions (fire t s) = subscriptions s.
Proof.
  unfold fire. destruct (List.find _ _) as [[t' [|]]|]; [|reflexivity|reflexivity].
  unfold app.autosave. cbn [currentUser currentNoteId clearTimeout set_timers].
  destruct (currentUser s); [|reflexivity].
  now destruct (truthy_opt (currentNoteId s)).
Qed.

Lemma subscriptions_resume (a : Await) (r : Settled) (s : State) :
  subscriptions
    (match a with
     | AwAddDoc => app.createNewNote_resume r
     | AwUpdateDoc => app.autosave_resume r
     | AwDeleteDoc => app.confirmDelete_resume r
     end s) = subscriptions s.
Proof.
  destruct a, r as [v|e].
  - unfold app.createNewNote_resume.
    transitivity (subscriptions (app.openNote v s)); [reflexivity|].
    apply subscriptions_openNote.
  - reflexivity.
  - unfold app.autosave_resume. rewrite subscriptions_on_element.
    apply subscriptions_updateSaveStatus.
  - unfold app.autosave_resume. now rewrite subscriptions_updateSaveStatus.
  - unfold app.confirmDelete_resume, app.closeModal.
    rewrite subscriptions_on_element.
    destruct (bool_decide _); [|reflexivity].
    transitivity (subscriptions (app.showDashboard s)); [reflexivity|].
    apply subscriptions_showDashboard.
  - reflexivity.
Qed.

Lemma subscriptions_settle a r s : subscriptions (settle a r s) = subscriptions s.
Proof.
  destruct (decide (a ∈ awaiting s)) as [Hin|Hnot].
  - rewrite (settle_eq a r s Hin). now rewrite subscriptions_resume.
  - now rewrite (settle_not_awaited a r s Hnot).
Qed.

Lemma subscriptions_step {js : Engine} (e : Event) (s : State) :
  subscriptions (step e s)
  = match e with
    | EAuthStateChanged (Some u) => subscriptions s ++ [uid u]
    | _ => subscriptions s
    end.
Proof.
  destruct e; cbn [step].
  - destruct user as [u|].
    + rewrite signed_in_eq.
      transitivity (subscriptions
         (on_element "user-email-display" (set_innerText (or_else (email u) "User"))
            (UI.showView dashboard (set_currentUser (Some u) s))) ++ [uid u]);
        [reflexivity|].
      now rewrite subscriptions_on_element, subscriptions_showView.
    + rewrite signed_out_eq.
      transitivity (subscriptions (UI.showView login (set_currentUser None s)));
        [reflexivity|].
      now rewrite subscriptions_showView.
  - rewrite onSnapshot_eq, subscriptions_on_element.
    now rewrite subscriptions_renderDashboard.
  - reflexivity.
  - apply subscriptions_openNote.
  - apply subscriptions_showDashboard.
  - unfold onSearchInput. now rewrite subscriptions_renderDashboard.
  - unfold onInput. destruct (_ !! _); [|reflexivity].
    now rewrite subscriptions_handleInput.
  - unfold app.requestDelete. now destruct (truthy _).
  - reflexivity.
  - unfold app.confirmDelete. destruct (currentUser s); [|reflexivity].
    now destruct (truthy_opt _).
  - unfold app.createNewNote. now destruct (currentUser s).
  - apply subscriptions_fire.
  - apply subscriptions_settle.
Qed.

(** X3. No handler ever detaches a listener: a sign-in event adds one
    for the identity, every other event leaves the listeners as they are,
    so the listeners of a state are an initial segment of those of any
    later state, and an identity that signs in again has two. *)
Theorem listeners_only_grow {js : Engine} (s : State) (es : list Event) (e : Event) (u : User) :
  subscriptions (step e s)
  = match e with
    | EAuthStateChanged (Some who) => subscriptions s ++ [uid who]
    | _ => subscriptions s
    end
  /\ initial_segment (subscriptions s) (subscriptions (run es s))
  /\ subscriptions
       (run [EAuthStateChanged (Some u); EAuthStateChanged None;
             EAuthStateChanged (Some u)] s)
     = subscriptions s ++ [uid u; uid u].
Proof.
  split; [apply subscriptions_step|]. split.
  - revert s. induction es as [|e' es IH]; intros s.
    + exists []. now rewrite app_nil_r.
    + destruct (IH (step e' s)) as [rest Hrest].
      change (run (e' :: es) s) with (run es (step e' s)). rewrite Hrest.
      rewrite subscriptions_step. destruct e' as [[who|]| | | | | | | | | | | |];
        try (now exists rest).
      exists (uid who :: rest). now rewrite <- app_assoc.
  - change (run [EAuthStateChanged (Some u); EAuthStateChanged None;
                 EAuthStateChanged (Some u)] s)
      with (step (EAuthStateChanged (Some u))
              (step (EAuthStateChanged None) (step (EAuthStateChanged (Some u)) s))).
    rewrite !subscriptions_step. now rewrite <- app_assoc.
Qed.

(** ** Snapshots and the open note *)

Lemma same_timers_onSnapshot {js : Engine} docs s : same_timers s (onSnapshot docs s).
Proof.
  rewrite onSnapshot_eq.
  destruct (same_timers_renderDashboard (set_notesData (map note_of_doc docs) s))
    as (H1 & H2 & H3).
  repeat split; assumption.
Qed.

Lemma isEditMode_renderDashboard {js : Engine} s :
  isEditMode (app.renderDashboard s) = isEditMode s.
Proof. unfold app.renderDashboard. frame. Qed.

Lemma lookup_onSnapshot {js : Engine} (k : string) docs s :
  k ∉ ["notes-grid"; "empty-state"; "empty-state p"; "sidebar-notes-list"] ->
  document (onSnapshot docs s) !! k = document s !! k.
Proof.
  intros Hk. rewrite onSnapshot_eq.
  rewrite lookup_on_element_ne
    by (intros <-; apply Hk; repeat constructor).
  rewrite lookup_renderDashboard;
    [reflexivity | | | ]; intros ->; apply Hk; repeat constructor.
Qed.

Lemma notesData_onSnapshot {js : Engine} docs s :
  notesData (onSnapshot docs s) = map note_of_doc docs.
Proof.
  rewrite onSnapshot_eq.
  transitivity (notesData (app.renderDashboard (set_notesData (map note_of_doc docs) s)));
    [reflexivity|].
  now rewrite notesData_renderDashboard.
Qed.

Lemma field_not_rendered (f : Field) :
  field_id f ∉ ["notes-grid"; "empty-state"; "empty-state p"; "sidebar-notes-list"].
Proof.
  destruct f; cbn; intros H;
    repeat (apply elem_of_cons in H as [H|H]; [discriminate H|]);
    inversion H.
Qed.

(** X4. A snapshot replaces the cache and redraws the two lists, and
    nothing else: the open note id, the edit mode, the timers and every
    element other than the grid, the empty-state box and the sidebar are
    as before.  So a note that has vanished from the snapshot stays open,
    and an edit made to it afterwards is still sent as an update to its
    id when the timer of the edit expires. *)
Theorem snapshot_keeps_open_note {js : Engine} (s : State) (docs : list Doc) :
  currentNoteId (onSnapshot docs s) = currentNoteId s
  /\ isEditMode (onSnapshot docs s) = isEditMode s
  /\ same_timers s (onSnapshot docs s)
  /\ same_document_but
       ["notes-grid"; "empty-state"; "empty-state p"; "sidebar-notes-list"]
       s (onSnapshot docs s)
  /\ (forall (a : string) (user : User) (f : Field) (v : string)
             (ts : list positive),
        timers_wf s ->
        currentUser s = Some user ->
        currentNoteId s = Some a ->
        truthy a = true ->
        is_Some (document s !! field_id f) ->
        (forall d, d ∈ docs -> doc_id d <> a) ->
        (forall n, n ∈ notesData (onSnapshot docs s) -> id n <> a)
        /\ value_of (field_id f)
             (document (run [ESnapshot docs; EInput f v] s)) = v
        /\ remote (run (ESnapshot docs :: EInput f v :: map ETimer ts) s)
           = remote s
             ++ (if bool_decide (nextTimer s ∈ ts)
                 then [save_call user a (run [ESnapshot docs; EInput f v] s)]
                 else [])).
Proof.
  destruct (same_session_onSnapshot docs s) as (Hu & Hc & _ & _ & Hr & _).
  destruct (same_timers_onSnapshot docs s) as (Ht & Hn & Ha).
  split; [exact Hc|]. split.
  { rewrite onSnapshot_eq.
    transitivity (isEditMode (app.renderDashboard
                                (set_notesData (map note_of_doc docs) s)));
      [reflexivity|]. now rewrite isEditMode_renderDashboard. }
  split; [now repeat split|].
  split; [intros k Hk; now apply lookup_onSnapshot|].
  intros a user f v ts Hwf Huser Hopen Htruthy Hf Hgone.
  set (s1 := onSnapshot docs s) in *.
  assert (Hwf1 : timers_wf s1) by apply (timers_wf_step (ESnapshot docs) s Hwf).
  assert (Hf1 : is_Some (document s1 !! field_id f)).
  { unfold s1. rewrite lookup_onSnapshot; [exact Hf | apply field_not_rendered]. }
  change (run [ESnapshot docs; EInput f v] s) with (onInput f v s1).
  change (run (ESnapshot docs :: EInput f v :: map ETimer ts) s)
    with (run (map ETimer ts) (onInput f v s1)).
  split; [|split].
  - intros n Hin Hid. unfold s1 in Hin. rewrite notesData_onSnapshot in Hin.
    apply list_elem_of_In, in_map_iff in Hin as (d & <- & Hd).
    apply (Hgone d); [now apply list_elem_of_In | exact Hid].
  - now apply value_of_onInput_same.
  - assert (Hs2 : onInput f v s1
                  = app.handleInput (on_element (field_id f) (set_value v) s1))
      by (apply onInput_present, Hf1).
    assert (Harmed : armed (nextTimer s) (onInput f v s1)).
    { rewrite Hs2, <- Hn.
      apply (armed_after_handleInput (on_element (field_id f) (set_value v) s1)).
      exact Hwf1. }
    assert (Hses : currentUser (onInput f v s1) = Some user
                   /\ currentNoteId (onInput f v s1) = Some a
                   /\ remote (onInput f v s1) = remote s).
    { rewrite Hs2.
      destruct (handleInput_frame (on_element (field_id f) (set_value v) s1))
        as (-> & -> & _ & ->).
      repeat split; [now rewrite <- Huser | now rewrite <- Hopen | exact Hr]. }
    destruct Hses as (Hu2 & Hc2 & Hr2).
    rewrite (run_timers_armed ts _ user a _ Harmed Hu2 Hc2 Htruthy).
    now rewrite Hr2.
Qed.

Lemma snapshot_keeps_open_note_witness :
  remote (run (ESnapshot [Sample.stored "b" "Plan" "roadmap"]
               :: EInput note_content "milk" :: map ETimer [1%positive])
            Sample.editing_a)
  = remote Sample.editing_a
    ++ (if bool_decide (nextTimer Sample.editing_a ∈ [1%positive])
        then [save_call Sample.alice "a"
                (run [ESnapshot [Sample.stored "b" "Plan" "roadmap"];
                      EInput note_content "milk"] Sample.editing_a)]
        else []).
Proof.
  assert (Hf : is_Some (document Sample.editing_a !! field_id note_content))
    by (vm_compute; eauto).
  refine (proj2 (proj2 (proj2 (proj2 (proj2 (proj2
            (snapshot_keeps_open_note Sample.editing_a
               [Sample.stored "b" "Plan" "roadmap"])))) "a" Sample.alice
            note_content "milk" [1%positive]
            editing_a_timers_wf eq_refl eq_refl eq_refl Hf _))).
  intros d Hd. apply list_elem_of_singleton in Hd as ->. discriminate.
Defined.

(** ** Requesting and cancelling a deletion *)

Lemma modal_shown_after_request s :
  is_Some (document s !! "modal-delete") ->
  is_hidden "modal-delete"
    (document (on_element "modal-delete" (remove_class "hidden") s)) = false.
Proof.
  intros [el Hel]. unfold is_hidden. rewrite lookup_on_element_eq, Hel.
  cbn [fmap option_fmap option_map]. apply hidden_after_remove.
Qed.

Lemma confirmDelete_guard (s : State) :
  currentUser s = None \/ truthy_opt (noteToDeleteId s) = false ->
  app.confirmDelete s = s.
Proof.
  unfold app.confirmDelete. intros [H|H]; rewrite H; [reflexivity|].
  now destruct (currentUser s).
Qed.

(** X5. Requesting a deletion with an empty id does nothing.  Otherwise
    the id becomes the pending one and the modal opens; cancelling then
    clears the pending id and hides the modal without issuing any call or
    touching the open note, and a confirmation after the cancel is a
    no-op. *)
Theorem request_then_cancel (s : State) (noteId : string) :
  app.requestDelete "" s = s
  /\ (truthy noteId = true ->
        noteToDeleteId (app.requestDelete noteId s) = Some noteId
        /\ (is_Some (document s !! "modal-delete") ->
              is_hidden "modal-delete"
                (document (app.requestDelete noteId s)) = false))
  /\ noteToDeleteId (app.closeModal (app.requestDelete noteId s)) = None
  /\ is_hidden "modal-delete"
       (document (app.closeModal (app.requestDelete noteId s))) = true
  /\ remote (app.closeModal (app.requestDelete noteId s)) = remote s
  /\ currentNoteId (app.closeModal (app.requestDelete noteId s))
     = currentNoteId s
  /\ app.confirmDelete (app.closeModal (app.requestDelete noteId s))
     = app.closeModal (app.requestDelete noteId s).
Proof.
  split; [reflexivity|]. split.
  { intros Htruthy. unfold app.requestDelete. rewrite Htruthy.
    split; [reflexivity|]. intros Hmodal.
    apply (modal_shown_after_request (set_noteToDeleteId (Some noteId) s) Hmodal). }
  split; [reflexivity|]. split; [apply modal_hidden_after_close|].
  split; [|split].
  - rewrite remote_closeModal. unfold app.requestDelete.
    now destruct (truthy noteId).
  - rewrite currentNoteId_closeModal. unfold app.requestDelete.
    now destruct (truthy noteId).
  - apply confirmDelete_guard. now right.
Qed.

Lemma request_then_cancel_witness :
  noteToDeleteId (app.requestDelete "b" Sample.editing_a) = Some "b"
  /\ is_hidden "modal-delete"
       (document (app.requestDelete "b" Sample.editing_a)) = false.
Proof.
  destruct (proj1 (proj2 (request_then_cancel Sample.editing_a "b")) eq_refl)
    as [Hid Hmodal].
  split; [exact Hid|]. apply Hmodal. vm_compute. eauto.
Defined.

(** ** Switching views *)

Lemma console_showView_present v s :
  is_Some (document s !! view_id v) -> console (UI.showView v s) = console s.
Proof.
  intros [el Hel]. unfold UI.showView.
  rewrite hide_all_views_view, Hel. reflexivity.
Qed.

Lemma showView_missing v s :
  document s !! view_id v = None ->
  UI.showView v s
  = console_error ("View " +:+ dq +:+ view_name v +:+ dq +:+ " not found.") None
      (set_document (UI.hide_all_views (document s)) s).
Proof.
  intros Hmiss. unfold UI.showView. now rewrite hide_all_views_view, Hmiss.
Qed.

Lemma hide_all_views_hidden (d : DOM) (w : View) :
  is_hidden (view_id w) (UI.hide_all_views d) = true.
Proof.
  unfold is_hidden. rewrite hide_all_views_view.
  destruct (d !! view_id w); cbn [fmap option_fmap option_map]; [|reflexivity].
  apply hidden_after_add.
Qed.

Lemma same_variables_showView v s : same_variables s (UI.showView v s).
Proof. unfold UI.showView. destruct (_ !! _); repeat split. Qed.

(** X6. [showView] on a page that has the four view elements leaves
    exactly the requested view visible and logs nothing.  If the element
    of the requested view is missing, every view ends hidden and one
    error line naming the view is logged.  In both cases the module
    variables and the values of all fields are untouched. *)
Theorem show_view_exclusive (v : View) (s : State) :
  (has_views (document s) ->
     shows v (document (UI.showView v s))
     /\ console (UI.showView v s) = console s)
  /\ (document s !! view_id v = None ->
        (forall w, is_hidden (view_id w) (document (UI.showView v s)) = true)
        /\ console (UI.showView v s)
           = console s
             ++ [("View " +:+ dq +:+ view_name v +:+ dq +:+ " not found.", None)])
  /\ same_variables s (UI.showView v s)
  /\ (forall k, value_of k (document (UI.showView v s))
                = value_of k (document s)).
Proof.
  split; [|split; [|split]].
  - intros Hviews. split; [now apply showView_shows|].
    apply console_showView_present, Hviews.
  - intros Hmiss. rewrite (showView_missing v s Hmiss). split; [|reflexivity].
    intros w. apply hide_all_views_hidden.
  - apply same_variables_showView.
  - intros k. apply value_of_showView.
Qed.

Lemma show_view_exclusive_witness :
  shows editor (document (UI.showView editor Sample.on_dashboard))
  /\ console (UI.showView register (init ∅))
     = [("View " +:+ dq +:+ "register" +:+ dq +:+ " not found.", None)].
Proof.
  split.
  - apply (proj1 (show_view_exclusive editor Sample.on_dashboard)).
    intros []; vm_compute; eauto.
  - apply (proj1 (proj2 (show_view_exclusive register (init ∅)))).
    reflexivity.
Defined.

(** ** The save indicator *)

Lemma updateSaveStatus_missing st s :
  document s !! "save-status" = None -> UI.updateSaveStatus st s = s.
Proof. intros H. unfold UI.updateSaveStatus. now rewrite H. Qed.

Lemma replace_class_innerText a b el :
  innerText (replace_class a b el) = innerText el.
Proof. unfold replace_class. now destruct (bool_decide _). Qed.

Lemma replace_class_keeps (c a b : string) (el : Element) :
  c <> a -> c <> b -> (c ∈ classList (replace_class a b el) <-> c ∈ classList el).
Proof.
  intros Ha Hb. unfold replace_class. destruct (bool_decide _); [|reflexivity].
  cbn. rewrite elem_of_union, elem_of_difference, !elem_of_singleton.
  split; [intros [[H _]|H]; [exact H | congruence] | intros H; left; split; [exact H | congruence]].
Qed.

Lemma replace_class_children a b el :
  children (replace_class a b el) = children el.
Proof. unfold replace_class. now destruct (bool_decide _). Qed.

(** The indicator once [updateSaveStatus] has set its text and colour. *)
Lemma indicator_facts (a b t : string) (el : Element) :
  "hidden" <> a -> "hidden" <> b -> "opacity-0" <> a -> "opacity-0" <> b ->
  innerText (replace_class a b
     (set_innerText t (remove_class "opacity-0" (remove_class "hidden" el)))) = t
  /\ ("hidden" ∉ classList (replace_class a b
        (set_innerText t (remove_class "opacity-0" (remove_class "hidden" el)))))
  /\ ("opacity-0" ∉ classList (replace_class a b
        (set_innerText t (remove_class "opacity-0" (remove_class "hidden" el)))))
  /\ value (replace_class a b
        (set_innerText t (remove_class "opacity-0" (remove_class "hidden" el))))
     = value el
  /\ children (replace_class a b
        (set_innerText t (remove_class "opacity-0" (remove_class "hidden" el))))
     = children el.
Proof.
  intros H1 H2 H3 H4.
  rewrite replace_class_innerText, replace_class_value, replace_class_children.
  split; [reflexivity|]. split; [|split; [|now split]].
  - intros H. apply replace_class_keeps in H; [|assumption|assumption].
    cbn in H. rewrite !elem_of_difference, !elem_of_singleton in H. tauto.
  - intros H. apply replace_class_keeps in H; [|assumption|assumption].
    cbn in H. rewrite !elem_of_difference, !elem_of_singleton in H. tauto.
Qed.

Lemma updateSaveStatus_element st s el :
  document s !! "save-status" = Some el ->
  exists el',
    document (UI.updateSaveStatus st s) !! "save-status" = Some el'
    /\ innerText el' = status_text st
    /\ ("hidden" ∉ classList el') /\ ("opacity-0" ∉ classList el')
    /\ value el' = value el /\ children el' = children el.
Proof.
  intros Hel. unfold UI.updateSaveStatus. rewrite Hel.
  destruct st; cbn [document set_document setTimeout snd set_nextTimer set_timers];
    rewrite lookup_insert_eq; eexists; (split; [reflexivity|]).
  - destruct (indicator_facts "text-brand-blue" "text-yellow-500" "Saving..." el)
      as (Ht & Hh & Ho & Hv & Hc); try discriminate.
    split; [exact Ht|]. split; [|split; [|split]].
    + intros H. apply Hh. cbn in H. apply elem_of_difference in H as [H _]. exact H.
    + intros H. apply Ho. cbn in H. apply elem_of_difference in H as [H _]. exact H.
    + exact Hv.
    + exact Hc.
  - exact (indicator_facts "text-yellow-500" "text-brand-blue" "All changes saved" el
             ltac:(discriminate) ltac:(discriminate) ltac:(discriminate)
             ltac:(discriminate)).
  - exact (indicator_facts "text-yellow-500" "text-red-500" "Error saving" el
             ltac:(discriminate) ltac:(discriminate) ltac:(discriminate)
             ltac:(discriminate)).
Qed.

Lemma updateSaveStatus_timers st s :
  timers (UI.updateSaveStatus st s)
  = match st, document s !! "save-status" with
    | UI.saved, Some _ => timers s ++ [(nextTimer s, TFadeStatus)]
    | _, _ => timers s
    end.
Proof.
  unfold UI.updateSaveStatus. destruct (_ !! _); destruct st; reflexivity.
Qed.

Lemma updateSaveStatus_frame st s :
  same_variables s (UI.updateSaveStatus st s)
  /\ remote (UI.updateSaveStatus st s) = remote s
  /\ console (UI.updateSaveStatus st s) = console s
  /\ awaiting (UI.updateSaveStatus st s) = awaiting s
  /\ isEditMode (UI.updateSaveStatus st s) = isEditMode s.
Proof.
  unfold UI.updateSaveStatus. destruct (_ !! _); [destruct st|]; repeat split.
Qed.

Lemma lookup_updateSaveStatus_ne st k s :
  k <> "save-status" ->
  document (UI.updateSaveStatus st s) !! k = document s !! k.
Proof.
  intros Hk. unfold UI.updateSaveStatus.
  destruct (document s !! "save-status"); [|reflexivity].
  destruct st; cbn [document set_document setTimeout snd set_nextTimer set_timers];
    now rewrite lookup_insert_ne.
Qed.

(** X7. [updateSaveStatus] does nothing on a page without the indicator.
    Otherwise it makes the indicator visible with the text of the status
    and changes no other element; only the status [saved] schedules a
    timer, the one that fades the indicator; the module variables, the
    calls issued, the console and the suspended awaits are untouched. *)
Theorem save_status_only (st : UI.SaveStatus) (s : State) :
  (document s !! "save-status" = None -> UI.updateSaveStatus st s = s)
  /\ (forall el, document s !! "save-status" = Some el ->
        exists el',
          document (UI.updateSaveStatus st s) !! "save-status" = Some el'
          /\ innerText el' = status_text st
          /\ ("hidden" ∉ classList el') /\ ("opacity-0" ∉ classList el')
          /\ value el' = value el /\ children el' = children el)
  /\ same_document_but ["save-status"] s (UI.updateSaveStatus st s)
  /\ timers (UI.updateSaveStatus st s)
     = match st, document s !! "save-status" with
       | UI.saved, Some _ => timers s ++ [(nextTimer s, TFadeStatus)]
       | _, _ => timers s
       end
  /\ same_variables s (UI.updateSaveStatus st s)
  /\ remote (UI.updateSaveStatus st s) = remote s
  /\ console (UI.updateSaveStatus st s) = console s
  /\ awaiting (UI.updateSaveStatus st s) = awaiting s.
Proof.
  destruct (updateSaveStatus_frame st s) as (Hv & Hr & Hc & Ha & _).
  split; [apply updateSaveStatus_missing|].
  split; [intros el; apply updateSaveStatus_element|].
  split.
  { intros k Hk. apply lookup_updateSaveStatus_ne. intros ->. apply Hk. now left. }
  split; [apply updateSaveStatus_timers|].
  split; [exact Hv|]. split; [exact Hr|]. split; [exact Hc | exact Ha].
Qed.

Lemma save_status_only_witness :
  timers (UI.updateSaveStatus UI.saved Sample.editing_a)
  = timers Sample.editing_a ++ [(nextTimer Sample.editing_a, TFadeStatus)].
Proof.
  rewrite (proj1 (proj2 (proj2 (proj2
             (save_status_only UI.saved Sample.editing_a))))).
  vm_compute. reflexivity.
Defined.

(** ** When the update call settles *)

Lemma autosave_rejected (e : JsError) (s : State) :
  timers (app.autosave_resume (Rejected e) s) = timers s
  /\ nextTimer (app.autosave_resume (Rejected e) s) = nextTimer s
  /\ remote (app.autosave_resume (Rejected e) s) = remote s
  /\ console (app.autosave_resume (Rejected e) s)
     = console s ++ [("Error saving:", Some e)]
  /\ same_variables s (app.autosave_resume (Rejected e) s)
  /\ (forall k, value_of k (document (app.autosave_resume (Rejected e) s))
                = value_of k (document s))
  /\ (forall el, document s !! "save-status" = Some el ->
        exists el',
          document (app.autosave_resume (Rejected e) s) !! "save-status" = Some el'
          /\ innerText el' = "Error saving").
Proof.
  unfold app.autosave_resume.
  set (s1 := console_error "Error saving:" (Some e) s).
  destruct (updateSaveStatus_frame UI.error s1) as (Hv & Hr & Hc & _ & _).
  split; [rewrite updateSaveStatus_timers; reflexivity|].
  split; [unfold UI.updateSaveStatus; now destruct (document s1 !! "save-status")|].
  split; [exact Hr|]. split; [exact Hc|]. split; [exact Hv|].
  split; [intros k; now rewrite value_of_updateSaveStatus|].
  intros el Hel.
  destruct (updateSaveStatus_element UI.error s1 el Hel) as (el' & H1 & H2 & _).
  exists el'. now split.
Qed.

Lemma filter_autosave_snoc_fade (l : list (positive * TimerTask)) (n : positive) :
  List.filter is_autosave (l ++ [(n, TFadeStatus)]) = List.filter is_autosave l.
Proof. rewrite List.filter_app. cbn. apply app_nil_r. Qed.

Lemma autosave_fulfilled (v : string) (s : State) :
  List.filter is_autosave (timers (app.autosave_resume (Fulfilled v) s))
  = List.filter is_autosave (timers s)
  /\ remote (app.autosave_resume (Fulfilled v) s) = remote s
  /\ console (app.autosave_resume (Fulfilled v) s) = console s
  /\ same_variables s (app.autosave_resume (Fulfilled v) s)
  /\ (forall k, value_of k (document (app.autosave_resume (Fulfilled v) s))
                = value_of k (document s))
  /\ (forall el, document s !! "save-status" = Some el ->
        timers (app.autosave_resume (Fulfilled v) s)
        = timers s ++ [(nextTimer s, TFadeStatus)]
        /\ exists el',
             document (app.autosave_resume (Fulfilled v) s) !! "save-status"
             = Some el'
             /\ innerText el' = "All changes saved")
  /\ (forall el, document s !! "last-edited" = Some el ->
        exists el',
          document (app.autosave_resume (Fulfilled v) s) !! "last-edited"
          = Some el'
          /\ innerText el' = "Last edited: Just now").
Proof.
  unfold app.autosave_resume.
  destruct (updateSaveStatus_frame UI.saved s) as (Hv & Hr & Hc & _ & _).
  pose proof (updateSaveStatus_timers UI.saved s) as Ht.
  split.
  { transitivity (List.filter is_autosave (timers (UI.updateSaveStatus UI.saved s)));
      [reflexivity|].
    rewrite Ht. destruct (document s !! "save-status"); [|reflexivity].
    apply filter_autosave_snoc_fade. }
  split; [exact Hr|]. split; [exact Hc|]. split; [exact Hv|].
  split.
  { intros k. rewrite document_on_element, value_of_alter_keep by reflexivity.
    apply value_of_updateSaveStatus. }
  split.
  - intros el Hel. split.
    + transitivity (timers (UI.updateSaveStatus UI.saved s)); [reflexivity|].
      now rewrite Ht, Hel.
    + destruct (updateSaveStatus_element UI.saved s el Hel) as (el' & H1 & H2 & _).
      exists el'. split; [|exact H2].
      now rewrite lookup_on_element_ne by discriminate.
  - intros el Hel. rewrite lookup_on_element_eq.
    rewrite lookup_updateSaveStatus_ne by discriminate. rewrite Hel.
    eexists. split; reflexivity.
Qed.

(** X8. When the update call of an autosave is rejected, the error is
    logged and the indicator reads "Error saving"; no timer is scheduled
    (nothing retries), no call is issued, and the editor fields keep the
    unsaved text.  When it is fulfilled, the indicator reads "All changes
    saved" and its fade timer is the only timer added, the last-edited
    line reads "Last edited: Just now", and again no call is issued and
    the fields are untouched. *)
Theorem autosave_settles (s : State) (e : JsError) (v : string) :
  AwUpdateDoc ∈ awaiting s ->
  (timers (settle AwUpdateDoc (Rejected e) s) = timers s
   /\ remote (settle AwUpdateDoc (Rejected e) s) = remote s
   /\ console (settle AwUpdateDoc (Rejected e) s)
      = console s ++ [("Error saving:", Some e)]
   /\ same_variables s (settle AwUpdateDoc (Rejected e) s)
   /\ (forall k, value_of k (document (settle AwUpdateDoc (Rejected e) s))
                 = value_of k (document s))
   /\ (forall el, document s !! "save-status" = Some el ->
         exists el',
           document (settle AwUpdateDoc (Rejected e) s) !! "save-status" = Some el'
           /\ innerText el' = "Error saving"))
  /\ (List.filter is_autosave (timers (settle AwUpdateDoc (Fulfilled v) s))
      = List.filter is_autosave (timers s)
      /\ remote (settle AwUpdateDoc (Fulfilled v) s) = remote s
      /\ console (settle AwUpdateDoc (Fulfilled v) s) = console s
      /\ same_variables s (settle AwUpdateDoc (Fulfilled v) s)
      /\ (forall k, value_of k (document (settle AwUpdateDoc (Fulfilled v) s))
                    = value_of k (document s))
      /\ (forall el, document s !! "save-status" = Some el ->
            timers (settle AwUpdateDoc (Fulfilled v) s)
            = timers s ++ [(nextTimer s, TFadeStatus)]
            /\ exists el',
                 document (settle AwUpdateDoc (Fulfilled v) s) !! "save-status"
                 = Some el'
                 /\ innerText el' = "All changes saved")
      /\ (forall el, document s !! "last-edited" = Some el ->
            exists el',
              document (settle AwUpdateDoc (Fulfilled v) s) !! "last-edited"
              = Some el'
              /\ innerText el' = "Last edited: Just now")).
Proof.
  intros Hin. rewrite !(settle_eq AwUpdateDoc _ s Hin).
  set (s0 := set_awaiting (remove_first AwUpdateDoc (awaiting s)) s).
  split.
  - destruct (autosave_rejected e s0) as (H1 & _ & H3 & H4 & H5 & H6 & H7).
    split; [exact H1|]. split; [exact H3|]. split; [exact H4|].
    split; [exact H5|]. split; [exact H6 | exact H7].
  - destruct (autosave_fulfilled v s0) as (H1 & H2 & H3 & H4 & H5 & H6 & H7).
    split; [exact H1|]. split; [exact H2|]. split; [exact H3|].
    split; [exact H4|]. split; [exact H5|]. split; [exact H6 | exact H7].
Qed.

Lemma autosave_settles_witness :
  timers (settle AwUpdateDoc (Rejected Sample.denied)
            (run [EInput note_title "x"; ETimer 1] Sample.editing_a))
  = timers (run [EInput note_title "x"; ETimer 1] Sample.editing_a).
Proof.
  destruct (autosave_settles
              (run [EInput note_title "x"; ETimer 1] Sample.editing_a)
              Sample.denied "") as [[Ht _] _].
  - vm_compute. left.
  - exact Ht.
Defined.

(** ** Creating a note *)

Lemma openNote_shows_editor (noteId : string) (note : Note) (s : State) :
  has_views (document s) ->
  List.find (fun n => String.eqb (id n) noteId) (notesData s) = Some note ->
  shows editor (document (app.openNote noteId s))
  /\ isEditMode (app.openNote noteId s) = true.
Proof.
  intros Hviews Hfind. rewrite (openNote_found_eq noteId note s Hfind).
  unfold app.renderSidebar. split.
  - apply shows_on_element; [intros []; discriminate|].
    apply showView_shows.
    do 3 apply has_views_on_element. rewrite document_set_isEditMode.
    do 3 apply has_views_on_element. rewrite document_set_currentNoteId.
    exact Hviews.
  - rewrite isEditMode_on_element, isEditMode_showView.
    rewrite !isEditMode_on_element. reflexivity.
Qed.

Lemma openNote_shows_dashboard (noteId : string) (s : State) :
  has_views (document s) ->
  List.find (fun n => String.eqb (id n) noteId) (notesData s) = None ->
  shows dashboard (document (app.openNote noteId s)).
Proof.
  intros Hviews Hfind. rewrite (openNote_missing_eq noteId s Hfind).
  unfold app.showDashboard. now apply showView_shows.
Qed.

Lemma cursor_set_cursor c s : cursor (set_cursor c s) = c.
Proof. reflexivity. Qed.

Lemma remote_set_cursor c s : remote (set_cursor c s) = remote s.
Proof. reflexivity. Qed.

Lemma currentNoteId_set_cursor c s :
  currentNoteId (set_cursor c s) = currentNoteId s.
Proof. reflexivity. Qed.

Lemma isEditMode_set_cursor c s : isEditMode (set_cursor c s) = isEditMode s.
Proof. reflexivity. Qed.

Lemma document_set_cursor c s : document (set_cursor c s) = document s.
Proof. reflexivity. Qed.

Lemma alerts_set_cursor c s : alerts (set_cursor c s) = alerts s.
Proof. reflexivity. Qed.

Lemma createNewNote_signed_in (u : User) (s : State) :
  currentUser s = Some u ->
  app.createNewNote s
  = set_awaiting (awaiting s ++ [AwAddDoc])
      (set_remote (remote s ++ [AddDoc (uid u) "" "" (uid u)])
         (set_cursor "wait" s)).
Proof. intros H. unfold app.createNewNote. now rewrite H. Qed.

(** X9. Creating a note without a signed-in identity only raises an
    alert.  With an identity it issues one create call with an empty title
    and content owned by that identity and shows the wait cursor.  When
    the call fulfils (snapshots may have arrived first) the cursor is
    reset and the new id is opened against the cache of that moment: the
    editor shows it in edit mode if a cached note carries the id, while
    with no such note yet the dashboard shows and no note is open.  When
    the call is rejected the cursor is reset, the error message is shown
    in an alert, and the open note is as before. *)
Theorem create_new_note {js : Engine} (s : State) (u : User) (newId : string) (e : JsError)
    (snaps : list (list Doc)) :
  (currentUser s = None ->
     app.createNewNote s = alert "Please log in to create notes." s)
  /\ (currentUser s = Some u ->
      has_views (document s) ->
      remote (app.createNewNote s)
      = remote s ++ [AddDoc (uid u) "" "" (uid u)]
      /\ cursor (app.createNewNote s) = "wait"
      /\ cursor (settle AwAddDoc (Fulfilled newId)
                   (run (map ESnapshot snaps) (app.createNewNote s))) = "default"
      /\ remote (settle AwAddDoc (Fulfilled newId)
                   (run (map ESnapshot snaps) (app.createNewNote s)))
         = remote s ++ [AddDoc (uid u) "" "" (uid u)]
      /\ ((exists n, n ∈ notesData (run (map ESnapshot snaps) (app.createNewNote s))
                     /\ id n = newId) ->
            currentNoteId (settle AwAddDoc (Fulfilled newId)
                   (run (map ESnapshot snaps) (app.createNewNote s))) = Some newId
            /\ isEditMode (settle AwAddDoc (Fulfilled newId)
                   (run (map ESnapshot snaps) (app.createNewNote s))) = true
            /\ shows editor (document (settle AwAddDoc (Fulfilled newId)
                   (run (map ESnapshot snaps) (app.createNewNote s)))))
      /\ ((forall n, n ∈ notesData (run (map ESnapshot snaps) (app.createNewNote s))
                     -> id n <> newId) ->
            currentNoteId (settle AwAddDoc (Fulfilled newId)
                   (run (map ESnapshot snaps) (app.createNewNote s))) = None
            /\ shows dashboard (document (settle AwAddDoc (Fulfilled newId)
                   (run (map ESnapshot snaps) (app.createNewNote s)))))
      /\ cursor (settle AwAddDoc (Rejected e) (app.createNewNote s)) = "default"
      /\ alerts (settle AwAddDoc (Rejected e) (app.createNewNote s))
         = alerts s
           ++ ["Could not create note. Please check your network connection or AdBlocker settings."
               +:+ More.blank_line +:+ message e]
      /\ currentNoteId (settle AwAddDoc (Rejected e) (app.createNewNote s))
         = currentNoteId s
      /\ remote (settle AwAddDoc (Rejected e) (app.createNewNote s))
         = remote s ++ [AddDoc (uid u) "" "" (uid u)]).
Proof.
  split.
  { intros H. unfold app.createNewNote. now rewrite H. }
  intros Hu Hviews. rewrite (createNewNote_signed_in u s Hu).
  set (c := set_awaiting (awaiting s ++ [AwAddDoc])
              (set_remote (remote s ++ [AddDoc (uid u) "" "" (uid u)])
                 (set_cursor "wait" s))).
  split; [reflexivity|]. split; [reflexivity|].
  pose proof (same_session_snapshots snaps c) as Hsame.
  set (s1 := run (map ESnapshot snaps) c) in *.
  destruct Hsame as (_ & _ & _ & Ha & Hr & Hv).
  assert (Hin : AwAddDoc ∈ awaiting s1).
  { rewrite Ha. apply elem_of_app. right. left. }
  rewrite (settle_eq AwAddDoc (Fulfilled newId) s1 Hin).
  set (s0 := set_awaiting (remove_first AwAddDoc (awaiting s1)) s1).
  assert (Hviews0 : has_views (document s0)).
  { intros w. change (document s0) with (document s1). rewrite Hv. apply Hviews. }
  unfold app.createNewNote_resume at 1 2 3 4 5 6 7.
  rewrite cursor_set_cursor, remote_set_cursor, !currentNoteId_set_cursor,
    isEditMode_set_cursor, !document_set_cursor.
  split; [reflexivity|].
  split; [now rewrite (proj2 (openNote_frame newId s0))|].
  split; [|split].
  - intros Hsome. destruct (find_id_some _ _ Hsome) as (n & Hfind & _ & _).
    destruct (openNote_found newId n s0 Hfind) as (Hc & _ & _).
    destruct (openNote_shows_editor newId n s0 Hviews0 Hfind) as (Hs & He).
    split; [exact Hc|]. split; [exact He | exact Hs].
  - intros Hnone. pose proof (find_id_none _ _ Hnone) as Hfind.
    split; [now apply (openNote_missing newId s0)|].
    now apply (openNote_shows_dashboard newId s0).
  - assert (Hin' : AwAddDoc ∈ awaiting c).
    { apply elem_of_app. right. left. }
    rewrite (settle_eq AwAddDoc (Rejected e) c Hin').
    unfold app.createNewNote_resume.
    rewrite cursor_set_cursor, remote_set_cursor, currentNoteId_set_cursor,
      alerts_set_cursor.
    repeat split.
Qed.

Lemma create_new_note_witness :
  currentNoteId
    (settle AwAddDoc (Fulfilled "n1")
       (run (map ESnapshot []) (app.createNewNote Sample.on_dashboard))) = None
  /\ currentNoteId
       (settle AwAddDoc (Fulfilled "n1")
          (run (map ESnapshot [[Sample.stored "n1" "" ""]])
             (app.createNewNote Sample.on_dashboard))) = Some "n1".
Proof.
  assert (Hviews : has_views (document Sample.on_dashboard))
    by (intros []; vm_compute; eauto).
  split.
  - destruct (proj2 (create_new_note Sample.on_dashboard Sample.alice "n1"
                    Sample.denied []) eq_refl Hviews)
      as (_ & _ & _ & _ & _ & Hnone & _).
    apply Hnone. intros n Hn. vm_compute in Hn.
    repeat (apply elem_of_cons in Hn as [->|Hn]; [discriminate|]).
    inversion Hn.
  - destruct (proj2 (create_new_note Sample.on_dashboard Sample.alice "n1"
                    Sample.denied [[Sample.stored "n1" "" ""]]) eq_refl Hviews)
      as (_ & _ & _ & _ & Hsome & _).
    apply Hsome. eexists. split; [left | reflexivity].
Defined.

(** ** What opening a note puts on the page *)

Lemma lookup_showView_other (k : string) (v : View) (s : State) :
  (forall w, k <> view_id w) ->
  document (UI.showView v s) !! k = document s !! k.
Proof.
  intros Hk.
  assert (Hhide : UI.hide_all_views (document s) !! k = document s !! k).
  { unfold UI.hide_all_views. cbn [foldl all_views].
    repeat rewrite lookup_alter_ne by (apply not_eq_sym, Hk). reflexivity. }
  unfold UI.showView.
  destruct (UI.hide_all_views (document s) !! view_id v);
    cbn [document set_document console_error set_console].
  - rewrite lookup_alter_ne by (apply not_eq_sym, Hk). exact Hhide.
  - exact Hhide.
Qed.

Lemma lookup_set_isEditMode b k s :
  document (set_isEditMode b s) !! k = document s !! k.
Proof. reflexivity. Qed.

Lemma lookup_set_currentNoteId o k s :
  document (set_currentNoteId o s) !! k = document s !! k.
Proof. reflexivity. Qed.

Lemma notesData_openNote_chain (noteId : string) (note : Note) (s : State) :
  notesData
    (UI.showView editor
       (on_element "mode-indicator" (set_innerText "EDIT MODE | Ctrl+E")
          (on_element "note-preview" (add_class "hidden")
             (on_element "note-content" (remove_class "hidden")
                (set_isEditMode true
                   (on_element "last-edited"
                      (set_innerText
                         ("Last edited: " +:+ UI.formatDate (updatedAt note)))
                      (on_element "note-content"
                         (set_value (or_else (content note) ""))
                         (on_element "note-title"
                            (set_value (or_else (title note) ""))
                            (set_currentNoteId (Some noteId) s)))))))))
  = notesData s
  /\ currentNoteId
    (UI.showView editor
       (on_element "mode-indicator" (set_innerText "EDIT MODE | Ctrl+E")
          (on_element "note-preview" (add_class "hidden")
             (on_element "note-content" (remove_class "hidden")
                (set_isEditMode true
                   (on_element "last-edited"
                      (set_innerText
                         ("Last edited: " +:+ UI.formatDate (updatedAt note)))
                      (on_element "note-content"
                         (set_value (or_else (content note) ""))
                         (on_element "note-title"
                            (set_value (or_else (title note) ""))
                            (set_currentNoteId (Some noteId) s)))))))))
  = Some noteId.
Proof.
  rewrite notesData_showView, currentNoteId_showView.
  rewrite !notesData_on_element, !currentNoteId_on_element. split; reflexivity.
Qed.

(** X10. Opening an id that a cached note carries fills the editor from
    the first such note: the title and content fields hold its title and
    content (empty when missing), the last-edited line shows its formatted
    timestamp, the text area is visible and the preview hidden, and the
    sidebar lists every cached note in cache order, marking as active
    exactly the notes with the opened id. *)
Theorem open_note_populates (s : State) (noteId : string) (note : Note) :
  List.find (fun n => String.eqb (id n) noteId) (notesData s) = Some note ->
  value_of "note-title" (document (app.openNote noteId s))
  = shown_in "note-title" (document s) (default "" (title note))
  /\ value_of "note-content" (document (app.openNote noteId s))
     = shown_in "note-content" (document s) (default "" (content note))
  /\ (forall el, document s !! "last-edited" = Some el ->
        innerText <$> document (app.openNote noteId s) !! "last-edited"
        = Some ("Last edited: " +:+ UI.formatDate (updatedAt note)))
  /\ (is_Some (document s !! "note-content") ->
        is_hidden "note-content" (document (app.openNote noteId s)) = false)
  /\ is_hidden "note-preview" (document (app.openNote noteId s)) = true
  /\ (forall el, document s !! "sidebar-notes-list" = Some el ->
        children <$> document (app.openNote noteId s) !! "sidebar-notes-list"
        = Some (map (fun n => SidebarRow (id n) (or_else (title n) "Untitled")
                                (bool_decide (id n = noteId)))
                  (notesData s))).
Proof.
  intros Hfind.
  destruct (openNote_found noteId note s Hfind) as (_ & Ht & Hc).
  split; [now rewrite Ht, or_else_empty|].
  split; [now rewrite Hc, or_else_empty|].
  rewrite (openNote_found_eq noteId note s Hfind). unfold app.renderSidebar.
  destruct (notesData_openNote_chain noteId note s) as (Hd & Hn).
  rewrite Hd, Hn. clear Hd Hn.
  split; [|split; [|split]].
  - intros el Hel.
    rewrite lookup_on_element_ne by discriminate.
    rewrite lookup_showView_other by (intros []; discriminate).
    rewrite !lookup_on_element_ne by discriminate.
    rewrite lookup_set_isEditMode, lookup_on_element_eq.
    rewrite !lookup_on_element_ne by discriminate.
    rewrite lookup_set_currentNoteId, Hel. reflexivity.
  - intros [el Hel].
    rewrite is_hidden_on_element_ne by discriminate.
    rewrite is_hidden_showView_other by (intros []; discriminate).
    rewrite !is_hidden_on_element_ne by discriminate.
    unfold is_hidden. rewrite lookup_on_element_eq, lookup_set_isEditMode.
    rewrite lookup_on_element_ne by discriminate.
    rewrite lookup_on_element_eq, lookup_on_element_ne by discriminate.
    rewrite lookup_set_currentNoteId, Hel.
    cbn [fmap option_fmap option_map]. apply hidden_after_remove.
  - rewrite is_hidden_on_element_ne by discriminate.
    rewrite is_hidden_showView_other by (intros []; discriminate).
    rewrite is_hidden_on_element_ne by discriminate.
    unfold is_hidden. rewrite lookup_on_element_eq.
    destruct (_ !! "note-preview"); cbn [fmap option_fmap option_map];
      [apply hidden_after_add | reflexivity].
  - intros el Hel. rewrite lookup_on_element_eq.
    rewrite lookup_showView_other by (intros []; discriminate).
    rewrite !lookup_on_element_ne by discriminate.
    rewrite lookup_set_isEditMode.
    rewrite !lookup_on_element_ne by discriminate.
    rewrite lookup_set_currentNoteId, Hel.
    cbn [fmap option_fmap option_map children set_children]. f_equal.
    apply map_ext. intros n. unfold app.row. f_equal.
    apply bool_decide_ext. split; [now intros [=] | now intros ->].
Qed.

Lemma open_note_populates_witness :
  value_of "note-title" (document (app.openNote "b" Sample.editing_a))
  = shown_in "note-title" (document Sample.editing_a) "Plan".
Proof.
  exact (proj1 (open_note_populates Sample.editing_a "b"
                  (note_of_doc (Sample.stored "b" "Plan" "roadmap")) eq_refl)).
Defined.

(** ** Cards *)

Lemma length_append (a b : string) :
  String.length (a +:+ b) = String.length a + String.length b.
Proof. induction a as [|c a IH]; unroll; [reflexivity | now rewrite IH]. Qed.

Lemma length_slice0 (n : nat) (s : string) : String.length (slice0 n s) <= n.
Proof.
  revert s. induction n as [|n IH]; intros [|c s]; cbn; try lia.
  specialize (IH s). lia.
Qed.

Lemma free_of_append p (a b : string) :
  free_of p a -> free_of p b -> free_of p (a +:+ b).
Proof.
  induction a as [|c a IH]; unroll; [tauto|]. cbn. intros [Hc Ha] Hb. auto.
Qed.

Lemma free_of_strip p (s : string) : free_of p (strip p s).
Proof.
  induction s as [|c s IH]; cbn; [exact I|].
  destruct (p c) eqn:E; cbn; auto.
Qed.

Lemma free_of_slice0 p (n : nat) (s : string) :
  free_of p s -> free_of p (slice0 n s).
Proof.
  revert s. induction n as [|n IH]; intros [|c s]; cbn; try tauto.
  intros [Hc Hs]. auto.
Qed.

Lemma or_else_truthy (o : option string) (d : string) :
  truthy d = true -> truthy (or_else o d) = true.
Proof.
  intros Hd. unfold or_else. destruct o as [t|]; [|exact Hd].
  now destruct (truthy t) eqn:E.
Qed.

(** X11. The card of any note carries the note's id, a non-empty title
    ("Untitled Note" when the note has none), the formatted timestamp
    ("Just now" when there is none), and a preview of at most 123
    characters in which none of the characters # * _ ` [ ] occurs; the
    preview of a note without content is "No content". *)
Theorem card_of_note (note : Note) :
  exists t p d,
    app.card note = NoteCard (id note) t p d
    /\ truthy t = true
    /\ (truthy (default "" (title note)) = false -> t = "Untitled Note")
    /\ String.length p <= 123
    /\ free_of app.is_markup p
    /\ (truthy (default "" (content note)) = false -> p = "No content")
    /\ d = UI.formatDate (updatedAt note)
    /\ (updatedAt note = None -> d = "Just now").
Proof.
  unfold app.card. eexists _, _, _. split; [reflexivity|].
  split; [now apply or_else_truthy|].
  split; [destruct (title note) as [[|c t]|]; cbn; solve [reflexivity | discriminate]|].
  split; [|split; [|split; [|split]]].
  - destruct (content note) as [c|]; [|cbn; lia].
    destruct (truthy c); [|cbn; lia].
    rewrite length_append. pose proof (length_slice0 120 (strip app.is_markup c)).
    destruct (120 <? String.length c)%nat;
      [change (String.length "...") with 3 | change (String.length "") with 0];
      lia.
  - destruct (content note) as [c|]; [|now vm_compute].
    destruct (truthy c); [|now vm_compute].
    apply free_of_append.
    + apply free_of_slice0, free_of_strip.
    + destruct (120 <? String.length c)%nat; now vm_compute.
  - destruct (content note) as [[|c0 c]|]; cbn; solve [reflexivity | discriminate].
  - reflexivity.
  - now intros ->.
Qed.

(** ** The empty-state box *)

Lemma renderDashboard_empty {js : Engine} (s : State) (grid box : Element) :
  document s !! "notes-grid" = Some grid ->
  document s !! "empty-state" = Some box ->
  app.filteredNotes (notesData s) (searchTerm s) = [] ->
  app.renderDashboard s
  = on_element "empty-state p"
      (set_innerText (if truthy (searchTerm s)
                      then "No matching notes found."
                      else "No notes yet."))
      (on_element "empty-state" (remove_class "hidden")
         (on_element "notes-grid" (set_children []) s)).
Proof.
  intros Hgrid Hbox Hnone. unfold app.renderDashboard. rewrite Hgrid.
  change (notesData (on_element "notes-grid" (set_children []) s))
    with (notesData s).
  change (searchTerm (on_element "notes-grid" (set_children []) s))
    with (searchTerm s).
  rewrite Hnone. cbn [length Nat.eqb].
  rewrite lookup_on_element_ne by discriminate. now rewrite Hbox.
Qed.

Lemma renderDashboard_some {js : Engine} (s : State) (grid : Element) :
  document s !! "notes-grid" = Some grid ->
  app.filteredNotes (notesData s) (searchTerm s) <> [] ->
  app.renderDashboard s
  = on_element "notes-grid"
      (set_children
         (map app.card (app.filteredNotes (notesData s) (searchTerm s))))
      (on_element "empty-state" (add_class "hidden")
         (on_element "notes-grid" (set_children []) s)).
Proof.
  intros Hgrid Hsome. unfold app.renderDashboard. rewrite Hgrid.
  change (notesData (on_element "notes-grid" (set_children []) s))
    with (notesData s).
  change (searchTerm (on_element "notes-grid" (set_children []) s))
    with (searchTerm s).
  destruct (app.filteredNotes (notesData s) (searchTerm s)); [contradiction|].
  reflexivity.
Qed.

(** X12. Rendering the dashboard on a page without the grid does
    nothing.  On a page with the grid, the empty-state box and its
    message line, the box is visible exactly when no cached note matches
    the search term; then the message is "No matching notes found." under
    a non-empty search term and "No notes yet." under the empty one, and
    the grid is empty; otherwise the grid holds one card per matching
    note, in order. *)
Theorem dashboard_empty_state {js : Engine} (s : State) :
  (document s !! "notes-grid" = None -> app.renderDashboard s = s)
  /\ (forall grid box line,
        document s !! "notes-grid" = Some grid ->
        document s !! "empty-state" = Some box ->
        document s !! "empty-state p" = Some line ->
        (app.filteredNotes (notesData s) (searchTerm s) = [] ->
           is_hidden "empty-state" (document (app.renderDashboard s)) = false
           /\ innerText <$> document (app.renderDashboard s) !! "empty-state p"
              = Some (if truthy (searchTerm s)
                      then "No matching notes found."
                      else "No notes yet.")
           /\ children <$> document (app.renderDashboard s) !! "notes-grid"
              = Some [])
        /\ (app.filteredNotes (notesData s) (searchTerm s) <> [] ->
           is_hidden "empty-state" (document (app.renderDashboard s)) = true
           /\ children <$> document (app.renderDashboard s) !! "notes-grid"
              = Some (map app.card
                        (app.filteredNotes (notesData s) (searchTerm s))))).
Proof.
  split.
  { intros Hmiss. unfold app.renderDashboard. now rewrite Hmiss. }
  intros grid box line Hgrid Hbox Hline. split.
  - intros Hnone. rewrite (renderDashboard_empty s grid box Hgrid Hbox Hnone).
    split; [|split].
    + rewrite is_hidden_on_element_ne by discriminate.
      unfold is_hidden. rewrite lookup_on_element_eq.
      rewrite lookup_on_element_ne by discriminate. rewrite Hbox.
      cbn [fmap option_fmap option_map]. apply hidden_after_remove.
    + rewrite lookup_on_element_eq. rewrite !lookup_on_element_ne by discriminate.
      now rewrite Hline.
    + rewrite !lookup_on_element_ne by discriminate.
      rewrite lookup_on_element_eq. now rewrite Hgrid.
  - intros Hsome. rewrite (renderDashboard_some s grid Hgrid Hsome). split.
    + rewrite is_hidden_on_element_ne by discriminate.
      unfold is_hidden. rewrite lookup_on_element_eq.
      rewrite lookup_on_element_ne by discriminate. rewrite Hbox.
      cbn [fmap option_fmap option_map]. apply hidden_after_add.
    + rewrite lookup_on_element_eq, lookup_on_element_ne by discriminate.
      rewrite lookup_on_element_eq. now rewrite Hgrid.
Qed.

Lemma dashboard_empty_state_witness :
  innerText <$> document (onSearchInput "zebra" Sample.on_dashboard)
                  !! "empty-state p"
  = Some "No matching notes found.".
Proof.
  unfold onSearchInput.
  set (s := set_searchTerm "zebra" Sample.on_dashboard).
  assert (Hg : is_Some (document s !! "notes-grid")) by (vm_compute; eauto).
  assert (Hb : is_Some (document s !! "empty-state")) by (vm_compute; eauto).
  assert (Hl : is_Some (document s !! "empty-state p")) by (vm_compute; eauto).
  destruct Hg as [grid Hgrid], Hb as [box Hbox], Hl as [line Hline].
  destruct (proj2 (dashboard_empty_state s) grid box line Hgrid Hbox Hline)
    as [Hempty _].
  assert (Hnone : app.filteredNotes (notesData s) (searchTerm s) = [])
    by (vm_compute; reflexivity).
  destruct (Hempty Hnone) as (_ & Hmsg & _). exact Hmsg.
Defined.

(** ** The API key *)

Module KeyFacts.
Import GeminiService.

Lemma trimEnd_cons (c : ascii) (s : string) :
  trimEnd (String c s)
  = match trimEnd s with
    | EmptyString => if is_space c then EmptyString else String c EmptyString
    | rest => String c rest
    end.
Proof. reflexivity. Qed.

Lemma trimEnd_idempotent (s : string) : trimEnd (trimEnd s) = trimEnd s.
Proof.
  induction s as [|c s IH]; [reflexivity|].
  rewrite trimEnd_cons. destruct (trimEnd s) as [|d rest] eqn:E.
  - destruct (is_space c) eqn:Ec; [reflexivity|].
    rewrite trimEnd_cons. cbn. now rewrite Ec.
  - rewrite trimEnd_cons, IH. reflexivity.
Qed.

Lemma trimStart_head (s : string) :
  match trimStart s with
  | EmptyString => True
  | String c _ => is_space c = false
  end.
Proof.
  induction s as [|c s IH]; cbn; [exact I|].
  destruct (is_space c) eqn:E; [exact IH | exact E].
Qed.

Lemma trimStart_fixed (s : string) :
  match s with
  | EmptyString => True
  | String c _ => is_space c = false
  end -> trimStart s = s.
Proof. destruct s as [|c s]; [reflexivity|]. cbn. now intros ->. Qed.

Lemma trimEnd_head (c : ascii) (s : string) :
  is_space c = false -> exists rest, trimEnd (String c s) = String c rest.
Proof.
  intros Hc. rewrite trimEnd_cons. destruct (trimEnd s) as [|d rest].
  - rewrite Hc. eauto.
  - eauto.
Qed.

Lemma trim_trimmed (s : string) : trimmed (trim s).
Proof.
  unfold trim. pose proof (trimStart_head s) as Hhead.
  destruct (trimStart s) as [|c t]; [exact I|].
  destruct (trimEnd_head c t Hhead) as [rest Hrest].
  unfold trimmed. rewrite Hrest. split; [exact Hhead|].
  rewrite <- Hrest. apply trimEnd_idempotent.
Qed.

Lemma trim_idempotent (s : string) : trim (trim s) = trim s.
Proof.
  pose proof (trim_trimmed s) as H. unfold trimmed in H. unfold trim at 1.
  destruct (trim s) as [|c t] eqn:E; [reflexivity|].
  destruct H as [Hc Hend]. rewrite trimStart_fixed by exact Hc. exact Hend.
Qed.

Lemma initialize_with (sdk : Sdk) (key : option string) (k : string) (g : Service) :
  first_truthy [key; apiKey g; gemini_api_key g] = Some k ->
  initialize sdk key g
  = {| apiKey := Some (trim k);
       genAI := if construct sdk (trim k) then Some (trim k) else None;
       gemini_api_key := Some (trim k);
       asked := asked g;
       logged := if construct sdk (trim k) then logged g
                 else logged g ++ ["Failed to initialize Gemini Client:"] |}.
Proof. intros H. unfold initialize. now rewrite H. Qed.

Lemma first_truthy_head (k : string) (rest : list (option string)) :
  truthy k = true -> first_truthy (Some k :: rest) = Some k.
Proof. intros H. unfold first_truthy. cbn. now rewrite H. Qed.

End KeyFacts.

(** X13. Setting a non-empty API key stores the key with the white
    space around it removed, in the service and in the browser storage
    alike, and the stored key has no white space at either end; the client
    exists exactly when the SDK constructor accepted that key; reading the
    key back gives the stored one; no model is asked.  If the constructor
    accepted a key that is not all white space, setting the same key again
    or initialising without a key changes nothing. *)
Theorem api_key_round_trip (sdk : GeminiService.Sdk) (key : string)
    (g : GeminiService.Service) :
  truthy key = true ->
  GeminiService.apiKey (GeminiService.setApiKey sdk key g)
  = Some (GeminiService.trim key)
  /\ GeminiService.gemini_api_key (GeminiService.setApiKey sdk key g)
     = Some (GeminiService.trim key)
  /\ trimmed (GeminiService.trim key)
  /\ GeminiService.genAI (GeminiService.setApiKey sdk key g)
     = (if GeminiService.construct sdk (GeminiService.trim key)
        then Some (GeminiService.trim key) else None)
  /\ fst (More.getApiKey (GeminiService.setApiKey sdk key g))
     = Some (GeminiService.trim key)
  /\ GeminiService.asked (GeminiService.setApiKey sdk key g)
     = GeminiService.asked g
  /\ (GeminiService.construct sdk (GeminiService.trim key) = true ->
      truthy (GeminiService.trim key) = true ->
      GeminiService.setApiKey sdk key (GeminiService.setApiKey sdk key g)
      = GeminiService.setApiKey sdk key g
      /\ GeminiService.initialize sdk None (GeminiService.setApiKey sdk key g)
         = GeminiService.setApiKey sdk key g).
Proof.
  intros Hkey. unfold GeminiService.setApiKey.
  rewrite (KeyFacts.initialize_with sdk (Some key) key g)
    by (now apply KeyFacts.first_truthy_head).
  split; [reflexivity|]. split; [reflexivity|].
  split; [apply KeyFacts.trim_trimmed|]. split; [reflexivity|].
  split.
  { unfold More.getApiKey. cbn [GeminiService.apiKey GeminiService.gemini_api_key].
    now destruct (truthy_opt _). }
  split; [reflexivity|].
  intros Hok Htrim. split.
  - rewrite (KeyFacts.initialize_with sdk (Some key) key)
      by (now apply KeyFacts.first_truthy_head).
    cbn [GeminiService.asked GeminiService.logged].
    now rewrite Hok.
  - rewrite (KeyFacts.initialize_with sdk None (GeminiService.trim key)).
    + rewrite KeyFacts.trim_idempotent.
      cbn [GeminiService.asked GeminiService.logged]. now rewrite Hok.
    + unfold GeminiService.first_truthy.
      cbn [List.find truthy_opt GeminiService.apiKey]. now rewrite Htrim.
Qed.

Lemma api_key_round_trip_witness :
  fst (More.getApiKey
         (GeminiService.setApiKey Sample.flaky_sdk "  AIza-key  "
            (GeminiService.fresh None)))
  = Some (GeminiService.trim "  AIza-key  ").
Proof.
  apply (api_key_round_trip Sample.flaky_sdk "  AIza-key  "
           (GeminiService.fresh None)).
  reflexivity.
Defined.

(** ** The models asked *)

Module AskFacts.
Import GeminiService.

Lemma try_models_asked sdk client prompt models last g :
  exists l,
    asked (snd (try_models sdk client prompt models last g)) = asked g ++ l
    /\ initial_segment l models.
Proof.
  revert last g. induction models as [|m models IH]; intros last g; cbn.
  - exists []. split; [now rewrite app_nil_r | now exists []].
  - destruct (ask sdk client m prompt) as [t|e].
    + exists [m]. split; [reflexivity | now exists models].
    + destruct (IH (Some e) (note_asked m g)) as (l & Hl & rest & Hrest).
      exists (m :: l). split.
      * rewrite Hl. cbn. now rewrite <- app_assoc.
      * exists rest. cbn. now rewrite Hrest.
Qed.

Lemma try_models_returned sdk client prompt models last g t :
  fst (try_models sdk client prompt models last g) = Returned t ->
  exists m, m ∈ models /\ ask sdk client m prompt = Text t.
Proof.
  revert last g. induction models as [|m models IH]; intros last g H;
    [discriminate|].
  cbn in H. destruct (ask sdk client m prompt) as [t'|e] eqn:Hm.
  - injection H as ->. exists m. split; [left | exact Hm].
  - destruct (IH _ _ H) as (m' & Hin & Hm'). exists m'. split; [now right | exact Hm'].
Qed.

End AskFacts.

(** X14. Whatever the SDK does, one generation call asks an initial
    segment of the configured models, in their order, and no other model;
    a text it returns is the answer of one of the configured models to the
    prompt it was given.  A summary is such a call on the note text
    preceded by the fixed instruction and a blank line. *)
Theorem generation_asks_in_order (sdk : GeminiService.Sdk) (prompt : string)
    (g : GeminiService.Service) :
  (exists l,
     GeminiService.asked (snd (GeminiService.generateContent sdk prompt g))
     = GeminiService.asked g ++ l
     /\ initial_segment l GeminiService.modelsToTry)
  /\ (forall t,
        fst (GeminiService.generateContent sdk prompt g) = GeminiService.Returned t ->
        exists client m,
          GeminiService.genAI (GeminiService.initialize sdk None g) = Some client
          /\ m ∈ GeminiService.modelsToTry
          /\ GeminiService.ask sdk client m prompt = GeminiService.Text t)
  /\ (forall t,
        fst (More.summarize sdk prompt g) = GeminiService.Returned t ->
        exists client m,
          GeminiService.genAI (GeminiService.initialize sdk None g) = Some client
          /\ m ∈ GeminiService.modelsToTry
          /\ GeminiService.ask sdk client m
               ("Please summarize the following note concisely in Markdown format:"
                +:+ More.blank_line +:+ prompt)
             = GeminiService.Text t).
Proof.
  assert (Hret : forall p t,
    fst (GeminiService.generateContent sdk p g) = GeminiService.Returned t ->
    exists client m,
      GeminiService.genAI (GeminiService.initialize sdk None g) = Some client
      /\ m ∈ GeminiService.modelsToTry
      /\ GeminiService.ask sdk client m p = GeminiService.Text t).
  { intros p t. unfold GeminiService.generateContent.
    destruct (GeminiService.genAI _) as [client|]; [|discriminate].
    intros H. apply AskFacts.try_models_returned in H as (m & Hin & Hm).
    now exists client, m. }
  split; [|split].
  - unfold GeminiService.generateContent.
    destruct (GeminiService.genAI _) as [client|].
    + rewrite <- (GeminiFacts.asked_initialize sdk None g).
      apply AskFacts.try_models_asked.
    + exists []. cbn [snd]. rewrite GeminiFacts.asked_initialize, app_nil_r.
      split; [reflexivity | now exists GeminiService.modelsToTry].
  - apply Hret.
  - intros t. unfold More.summarize. apply Hret.
Qed.

(** ** Edit and preview *)

Lemma toggle_to_preview (s : State) (textarea preview indicator : Element) :
  isEditMode s = true ->
  document s !! "note-content" = Some textarea ->
  document s !! "note-preview" = Some preview ->
  document s !! "mode-indicator" = Some indicator ->
  More.toggleEditorMode s
  = {| ending := Completed;
       final := on_element "mode-indicator" (set_innerText "READ MODE | Ctrl+E")
                  (on_element "note-preview" (remove_class "hidden")
                     (on_element "note-content" (add_class "hidden")
                        (set_isEditMode false s)));
       rendered := [(value textarea, "note-preview")] |}.
Proof.
  intros Hmode Hc Hp Hi. unfold More.toggleEditorMode. cbv zeta.
  change (isEditMode (set_isEditMode (negb (isEditMode s)) s))
    with (negb (isEditMode s)).
  rewrite Hmode. cbn [negb].
  rewrite lookup_set_isEditMode, Hc.
  rewrite lookup_on_element_ne by discriminate.
  rewrite lookup_set_isEditMode, Hp.
  rewrite !lookup_on_element_ne by discriminate.
  rewrite lookup_set_isEditMode, Hi. reflexivity.
Qed.

Lemma toggle_to_edit (s : State) (textarea preview indicator : Element) :
  isEditMode s = false ->
  document s !! "note-content" = Some textarea ->
  document s !! "note-preview" = Some preview ->
  document s !! "mode-indicator" = Some indicator ->
  More.toggleEditorMode s
  = {| ending := Completed;
       final := on_element "mode-indicator" (set_innerText "EDIT MODE | Ctrl+E")
                  (on_element "note-preview" (add_class "hidden")
                     (on_element "note-content" (remove_class "hidden")
                        (set_isEditMode true s)));
       rendered := [] |}.
Proof.
  intros Hmode Hc Hp Hi. unfold More.toggleEditorMode. cbv zeta.
  change (isEditMode (set_isEditMode (negb (isEditMode s)) s))
    with (negb (isEditMode s)).
  rewrite Hmode. cbn [negb].
  rewrite lookup_set_isEditMode, Hc.
  rewrite lookup_on_element_ne by discriminate.
  rewrite lookup_set_isEditMode, Hp.
  rewrite !lookup_on_element_ne by discriminate.
  rewrite lookup_set_isEditMode, Hi. reflexivity.
Qed.

Lemma layout_after_toggle (b : bool) (t : string) (f g : Element -> Element)
    (s : State) (k : string) :
  document
    (on_element "mode-indicator" (set_innerText t)
       (on_element "note-preview" f
          (on_element "note-content" g (set_isEditMode b s)))) !! k
  = (if decide (k = "mode-indicator") then fmap (set_innerText t)
     else if decide (k = "note-preview") then fmap f
     else if decide (k = "note-content") then fmap g
     else fun o => o) (document s !! k).
Proof.
  destruct (decide (k = "mode-indicator")) as [->|H1].
  { rewrite lookup_on_element_eq, !lookup_on_element_ne by discriminate.
    reflexivity. }
  rewrite lookup_on_element_ne by congruence.
  destruct (decide (k = "note-preview")) as [->|H2].
  { rewrite lookup_on_element_eq, !lookup_on_element_ne by discriminate.
    reflexivity. }
  rewrite lookup_on_element_ne by congruence.
  destruct (decide (k = "note-content")) as [->|H3].
  { now rewrite lookup_on_element_eq. }
  now rewrite lookup_on_element_ne by congruence.
Qed.

(** X15. On a page with the text area, the preview and the mode
    indicator, toggling out of edit mode completes, hands the current
    content of the text area to the markdown renderer for the preview
    element, hides the text area and shows the preview; toggling again
    completes without rendering anything and restores edit mode with the
    text area visible and the preview hidden.  Neither toggle changes a
    field value, a module variable or the calls issued.  On a page
    without the text area the toggle stops on a TypeError after it has
    already flipped the mode. *)
Theorem toggle_editor_mode (s : State) :
  (is_Some (document s !! "note-content") ->
   is_Some (document s !! "note-preview") ->
   is_Some (document s !! "mode-indicator") ->
   isEditMode s = true ->
   ending (More.toggleEditorMode s) = Completed
   /\ isEditMode (final (More.toggleEditorMode s)) = false
   /\ rendered (More.toggleEditorMode s)
      = [(value_of "note-content" (document s), "note-preview")]
   /\ is_hidden "note-content" (document (final (More.toggleEditorMode s))) = true
   /\ is_hidden "note-preview" (document (final (More.toggleEditorMode s))) = false
   /\ ending (More.toggleEditorMode (final (More.toggleEditorMode s))) = Completed
   /\ isEditMode (final (More.toggleEditorMode (final (More.toggleEditorMode s))))
      = true
   /\ rendered (More.toggleEditorMode (final (More.toggleEditorMode s))) = []
   /\ is_hidden "note-content"
        (document (final (More.toggleEditorMode (final (More.toggleEditorMode s)))))
      = false
   /\ is_hidden "note-preview"
        (document (final (More.toggleEditorMode (final (More.toggleEditorMode s)))))
      = true
   /\ (forall k,
         value_of k
           (document (final (More.toggleEditorMode (final (More.toggleEditorMode s)))))
         = value_of k (document s))
   /\ same_variables s
        (final (More.toggleEditorMode (final (More.toggleEditorMode s))))
   /\ remote (final (More.toggleEditorMode (final (More.toggleEditorMode s))))
      = remote s)
  /\ (document s !! "note-content" = None ->
      ending (More.toggleEditorMode s) = TypeError
      /\ isEditMode (final (More.toggleEditorMode s)) = negb (isEditMode s)
      /\ document (final (More.toggleEditorMode s)) = document s).
Proof.
  split.
  - intros [textarea Hc] [preview Hp] [indicator Hi] Hmode.
    rewrite (toggle_to_preview s textarea preview indicator Hmode Hc Hp Hi).
    cbn [ending final rendered].
    set (s1 := on_element "mode-indicator" (set_innerText "READ MODE | Ctrl+E")
                 (on_element "note-preview" (remove_class "hidden")
                    (on_element "note-content" (add_class "hidden")
                       (set_isEditMode false s)))).
    assert (Hc1 : document s1 !! "note-content" = Some (add_class "hidden" textarea)).
    { unfold s1. rewrite layout_after_toggle. cbn. now rewrite Hc. }
    assert (Hp1 : document s1 !! "note-preview" = Some (remove_class "hidden" preview)).
    { unfold s1. rewrite layout_after_toggle. cbn. now rewrite Hp. }
    assert (Hi1 : document s1 !! "mode-indicator"
                  = Some (set_innerText "READ MODE | Ctrl+E" indicator)).
    { unfold s1. rewrite layout_after_toggle. cbn. now rewrite Hi. }
    rewrite (toggle_to_edit s1 _ _ _ eq_refl Hc1 Hp1 Hi1).
    cbn [ending final rendered].
    split; [reflexivity|]. split; [reflexivity|].
    split; [unfold value_of; now rewrite Hc|].
    split; [unfold is_hidden; rewrite Hc1; apply hidden_after_add|].
    split; [unfold is_hidden; rewrite Hp1; apply hidden_after_remove|].
    split; [reflexivity|]. split; [reflexivity|]. split; [reflexivity|].
    split.
    { rewrite !is_hidden_on_element_ne by discriminate.
      unfold is_hidden. rewrite lookup_on_element_eq, lookup_set_isEditMode, Hc1.
      cbn [fmap option_fmap option_map]. apply hidden_after_remove. }
    split.
    { rewrite is_hidden_on_element_ne by discriminate.
      unfold is_hidden. rewrite lookup_on_element_eq.
      rewrite lookup_on_element_ne by discriminate.
      rewrite lookup_set_isEditMode, Hp1.
      cbn [fmap option_fmap option_map]. apply hidden_after_add. }
    split; [|split; [now repeat split | reflexivity]].
    intros k. rewrite !document_on_element, !value_of_alter_keep by reflexivity.
    rewrite document_set_isEditMode. unfold s1.
    rewrite !document_on_element, !value_of_alter_keep by reflexivity.
    now rewrite document_set_isEditMode.
  - intros Hmiss. unfold More.toggleEditorMode. cbv zeta.
    rewrite lookup_set_isEditMode, Hmiss.
    destruct (isEditMode (set_isEditMode (negb (isEditMode s)) s));
      repeat split.
Qed.

Lemma toggle_editor_mode_witness :
  rendered (More.toggleEditorMode Sample.editing_a)
  = [(value_of "note-content" (document Sample.editing_a), "note-preview")].
Proof.
  apply (proj1 (toggle_editor_mode Sample.editing_a));
    solve [vm_compute; eauto | reflexivity].
Defined.

(** ** Applying a generated text *)

Lemma currentUser_on_element k f s :
  currentUser (on_element k f s) = currentUser s.
Proof. reflexivity. Qed.

Lemma remote_on_element k f s : remote (on_element k f s) = remote s.
Proof. reflexivity. Qed.

Lemma applyAIResult_eq (mode : string) (s : State) (result contentEl : Element) :
  document s !! "ai-result" = Some result ->
  document s !! "note-content" = Some contentEl ->
  More.applyAIResult mode s
  = (Completed,
     More.closeAIModal
       (app.handleInput
          (on_element "note-content"
             (set_value (if String.eqb mode "replace"
                         then innerText result
                         else value contentEl +:+ More.blank_line
                              +:+ innerText result)) s))).
Proof.
  intros Hr Hc. unfold More.applyAIResult. now rewrite Hr, Hc.
Qed.

(** X16. Applying a generated text on a page without the result element
    stops on a TypeError with the state untouched; without the content
    field it returns at once.  Otherwise the content field receives the
    result, in place of its text under the mode "replace" and after its
    text and a blank line under any other mode; the title field is
    untouched, the AI modal is hidden, and an autosave is scheduled: with
    an identity signed in and a note open, whatever timers expire
    afterwards, exactly one update call carrying the new content is issued
    if the timer of this edit is among them, and none otherwise. *)
Theorem apply_ai_result {js : Engine} (s : State) (mode : string) :
  (document s !! "ai-result" = None ->
     More.applyAIResult mode s = (TypeError, s))
  /\ (is_Some (document s !! "ai-result") ->
      document s !! "note-content" = None ->
      More.applyAIResult mode s = (Completed, s))
  /\ (forall (result contentEl : Element) (user : User) (noteId : string)
             (ts : list positive),
        document s !! "ai-result" = Some result ->
        document s !! "note-content" = Some contentEl ->
        timers_wf s ->
        currentUser s = Some user ->
        currentNoteId s = Some noteId ->
        truthy noteId = true ->
        fst (More.applyAIResult mode s) = Completed
        /\ value_of "note-content" (document (snd (More.applyAIResult mode s)))
           = (if String.eqb mode "replace"
              then innerText result
              else value contentEl +:+ More.blank_line +:+ innerText result)
        /\ value_of "note-title" (document (snd (More.applyAIResult mode s)))
           = value_of "note-title" (document s)
        /\ is_hidden "modal-ai" (document (snd (More.applyAIResult mode s))) = true
        /\ remote (run (map ETimer ts) (snd (More.applyAIResult mode s)))
           = remote s
             ++ (if bool_decide (nextTimer s ∈ ts)
                 then [UpdateDoc (uid user) noteId
                         (value_of "note-title" (document s))
                         (if String.eqb mode "replace"
                          then innerText result
                          else value contentEl +:+ More.blank_line
                               +:+ innerText result)]
                 else [])).
Proof.
  split; [|split].
  - intros Hmiss. unfold More.applyAIResult. now rewrite Hmiss.
  - intros [result Hr] Hmiss. unfold More.applyAIResult. now rewrite Hr, Hmiss.
  - intros result contentEl user noteId ts Hr Hc Hwf Hu Hn Htruthy.
    rewrite (applyAIResult_eq mode s result contentEl Hr Hc). cbn [fst snd].
    set (text := if String.eqb mode "replace" then innerText result
                 else value contentEl +:+ More.blank_line +:+ innerText result).
    set (s1 := on_element "note-content" (set_value text) s).
    assert (Hcontent : value_of "note-content"
                         (document (More.closeAIModal (app.handleInput s1))) = text).
    { unfold More.closeAIModal.
      rewrite document_on_element, value_of_alter_keep by reflexivity.
      rewrite document_handleInput, value_of_updateSaveStatus.
      unfold s1. rewrite document_on_element.
      apply value_of_alter_set. now rewrite Hc. }
    assert (Htitle : value_of "note-title"
                       (document (More.closeAIModal (app.handleInput s1)))
                     = value_of "note-title" (document s)).
    { unfold More.closeAIModal.
      rewrite document_on_element, value_of_alter_keep by reflexivity.
      rewrite document_handleInput, value_of_updateSaveStatus.
      unfold s1. rewrite document_on_element.
      now rewrite value_of_alter_ne by discriminate. }
    split; [reflexivity|]. split; [exact Hcontent|]. split; [exact Htitle|].
    split.
    { unfold More.closeAIModal, is_hidden. rewrite lookup_on_element_eq.
      destruct (_ !! "modal-ai"); cbn [fmap option_fmap option_map];
        [apply hidden_after_add | reflexivity]. }
    destruct (handleInput_frame s1) as (Hu1 & Hn1 & _ & Hr1).
    assert (Harmed : armed (nextTimer s) (More.closeAIModal (app.handleInput s1))).
    { apply (armed_same_timers _ (app.handleInput s1)); [repeat split|].
      apply (armed_after_handleInput s1). exact Hwf. }
    rewrite (run_timers_armed ts (nextTimer s) user noteId _ Harmed).
    + unfold More.closeAIModal at 1. rewrite remote_on_element, Hr1.
      unfold save_call. now rewrite Hcontent, Htitle.
    + unfold More.closeAIModal. now rewrite currentUser_on_element, Hu1.
    + unfold More.closeAIModal. now rewrite currentNoteId_on_element, Hn1.
    + exact Htruthy.
Qed.

Lemma timers_wf_set_document (d : DOM) (s : State) :
  timers_wf s -> timers_wf (set_document d s).
Proof. intros H. exact H. Qed.

Lemma with_ai_result_timers_wf (t : string) : timers_wf (with_ai_result t).
Proof.
  unfold with_ai_result. apply timers_wf_set_document, editing_a_timers_wf.
Qed.

Lemma apply_ai_result_witness :
  value_of "note-content"
    (document (snd (More.applyAIResult "append" (with_ai_result "Summary."))))
  = "milk, eggs" +:+ More.blank_line +:+ "Summary.".
Proof.
  destruct (proj2 (proj2 (apply_ai_result (with_ai_result "Summary.") "append"))
              (set_innerText "Summary." Sample.blank)
              (set_value "milk, eggs" Sample.blank) Sample.alice "a" []
              eq_refl eq_refl (with_ai_result_timers_wf "Summary.")
              eq_refl eq_refl eq_refl) as (_ & Hcontent & _).
  exact Hcontent.
Defined.

(** ** Signing in *)

(** X17. On a sign-in event the identity becomes the signed-in one, a
    listener for it is added, the dashboard shows (on a page with the four
    views) and the e-mail line shows the identity's e-mail, or "User" when
    it has none; the cache, the open note id and the calls issued are left
    as they were. *)
Theorem sign_in_event (s : State) (u : User) :
  currentUser (onAuthStateChanged (Some u) s) = Some u
  /\ subscriptions (onAuthStateChanged (Some u) s) = subscriptions s ++ [uid u]
  /\ notesData (onAuthStateChanged (Some u) s) = notesData s
  /\ currentNoteId (onAuthStateChanged (Some u) s) = currentNoteId s
  /\ remote (onAuthStateChanged (Some u) s) = remote s
  /\ (has_views (document s) ->
        shows dashboard (document (onAuthStateChanged (Some u) s)))
  /\ (forall el, document s !! "user-email-display" = Some el ->
        innerText <$> document (onAuthStateChanged (Some u) s)
                        !! "user-email-display"
        = Some (if truthy (default "" (email u)) then default "" (email u)
                else "User")).
Proof.
  split.
  { rewrite signed_in_eq.
    transitivity (currentUser (UI.showView dashboard (set_currentUser (Some u) s)));
      [reflexivity|]. now rewrite currentUser_showView. }
  split; [apply (subscriptions_step (EAuthStateChanged (Some u)) s)|].
  split.
  { rewrite signed_in_eq.
    transitivity (notesData (UI.showView dashboard (set_currentUser (Some u) s)));
      [reflexivity|]. now rewrite notesData_showView. }
  split.
  { rewrite signed_in_eq.
    transitivity (currentNoteId (UI.showView dashboard (set_currentUser (Some u) s)));
      [reflexivity|]. now rewrite currentNoteId_showView. }
  split; [apply remote_onAuthStateChanged|].
  split.
  - intros Hviews. rewrite signed_in_eq.
    change (shows dashboard
              (document (on_element "user-email-display"
                           (set_innerText (or_else (email u) "User"))
                           (UI.showView dashboard (set_currentUser (Some u) s))))).
    apply shows_on_element; [intros []; discriminate|].
    now apply showView_shows.
  - intros el Hel. rewrite signed_in_eq.
    transitivity (innerText <$>
      document (on_element "user-email-display"
                  (set_innerText (or_else (email u) "User"))
                  (UI.showView dashboard (set_currentUser (Some u) s)))
        !! "user-email-display"); [reflexivity|].
    rewrite lookup_on_element_eq.
    rewrite lookup_showView_other by (intros []; discriminate).
    change (document (set_currentUser (Some u) s)) with (document s).
    rewrite Hel. cbn [fmap option_fmap option_map innerText set_innerText].
    f_equal. now destruct (email u) as [[|c m]|].
Qed.

Lemma sign_in_event_witness :
  shows dashboard (document (onAuthStateChanged (Some Sample.alice) (init Sample.page))).
Proof.
  apply (sign_in_event (init Sample.page) Sample.alice).
  intros []; vm_compute; eauto.
Defined.
(** ** A pending edit that outlives the session it was made in *)

Lemma onInput_session (f : Field) (v : string) (s : State) :
  timers_wf s -> is_Some (document s !! field_id f) ->
  currentUser (onInput f v s) = currentUser s
  /\ currentNoteId (onInput f v s) = currentNoteId s
  /\ notesData (onInput f v s) = notesData s
  /\ remote (onInput f v s) = remote s
  /\ armed (nextTimer s) (onInput f v s).
Proof.
  intros Hwf Hf. rewrite onInput_present by exact Hf.
  destruct (handleInput_frame (on_element (field_id f) (set_value v) s))
    as (-> & -> & -> & ->).
  repeat split.
  - destruct (timers_wf_handleInput
                (on_element (field_id f) (set_value v) s) Hwf) as (Hnd & _).
    exact Hnd.
  - destruct (armed_after_handleInput
                (on_element (field_id f) (set_value v) s) Hwf) as (_ & Ha).
    exact Ha.
Qed.

Lemma same_timers_onAuthStateChanged (user : option User) (s : State) :
  same_timers s (onAuthStateChanged user s).
Proof.
  destruct user as [u|]; [rewrite signed_in_eq | rewrite signed_out_eq].
  - destruct (same_timers_showView dashboard (set_currentUser (Some u) s))
      as (H1 & H2 & H3).
    repeat split; assumption.
  - destruct (same_timers_showView login (set_currentUser None s))
      as (H1 & H2 & H3).
    repeat split; assumption.
Qed.

Lemma currentNoteId_onAuthStateChanged (user : option User) (s : State) :
  currentNoteId (onAuthStateChanged user s) = currentNoteId s.
Proof.
  destruct user as [u|]; [rewrite signed_in_eq | rewrite signed_out_eq].
  - change (currentNoteId (UI.showView dashboard (set_currentUser (Some u) s))
            = currentNoteId s).
    now rewrite currentNoteId_showView.
  - change (currentNoteId (UI.showView login (set_currentUser None s))
            = currentNoteId s).
    now rewrite currentNoteId_showView.
Qed.

Lemma currentUser_signed_in (u : User) (s : State) :
  currentUser (onAuthStateChanged (Some u) s) = Some u.
Proof.
  rewrite signed_in_eq.
  change (currentUser (UI.showView dashboard (set_currentUser (Some u) s))
          = Some u).
  now rewrite currentUser_showView.
Qed.

Lemma value_of_onAuthStateChanged (k : string) (user : option User) (s : State) :
  value_of k (document (onAuthStateChanged user s)) = value_of k (document s).
Proof.
  destruct user as [u|]; [rewrite signed_in_eq | rewrite signed_out_eq].
  - change (value_of k
              (alter (set_innerText (or_else (email u) "User"))
                 "user-email-display"
                 (document (UI.showView dashboard (set_currentUser (Some u) s))))
            = value_of k (document s)).
    rewrite value_of_alter_keep by reflexivity.
    now rewrite value_of_showView.
  - change (value_of k (document (UI.showView login (set_currentUser None s)))
            = value_of k (document s)).
    now rewrite value_of_showView.
Qed.

(** The call the timer of an edit issues once another identity has signed
    in inside the debounce window. *)
Lemma edit_relogin_calls {js : Engine} (s : State) (next : User)
    (noteId : string) (f : Field) (v : string) (ts : list positive) :
  timers_wf s -> is_Some (document s !! field_id f) ->
  currentNoteId s = Some noteId -> truthy noteId = true ->
  remote (run (EInput f v :: EAuthStateChanged None
               :: EAuthStateChanged (Some next) :: map ETimer ts) s)
  = remote s
    ++ (if bool_decide (nextTimer s ∈ ts)
        then [save_call next noteId (onInput f v s)] else []).
Proof.
  intros Hwf Hf Hopen Ht.
  change (run (EInput f v :: EAuthStateChanged None
               :: EAuthStateChanged (Some next) :: map ETimer ts) s)
    with (run (map ETimer ts)
            (onAuthStateChanged (Some next)
               (onAuthStateChanged None (onInput f v s)))).
  destruct (onInput_session f v s Hwf Hf) as (_ & Hc & _ & Hr & Ha).
  set (s1 := onInput f v s) in *.
  rewrite (run_timers_armed ts (nextTimer s) next noteId).
  - rewrite !remote_onAuthStateChanged, Hr. f_equal.
    unfold save_call. now rewrite !value_of_onAuthStateChanged.
  - apply (armed_same_timers _ (onAuthStateChanged None s1)),
      (armed_same_timers _ s1), Ha; apply same_timers_onAuthStateChanged.
  - apply currentUser_signed_in.
  - now rewrite !currentNoteId_onAuthStateChanged, Hc.
  - exact Ht.
Qed.

Lemma present_iff_showView (v : View) (k : string) (s : State) :
  is_Some (document (UI.showView v s) !! k) <-> is_Some (document s !! k).
Proof.
  assert (Hhide : is_Some (UI.hide_all_views (document s) !! k)
                  <-> is_Some (document s !! k)).
  { unfold UI.hide_all_views. cbn [foldl all_views].
    now rewrite !lookup_alter_is_Some. }
  unfold UI.showView. destruct (_ !! view_id v);
    cbn [document set_document console_error set_console].
  - now rewrite lookup_alter_is_Some.
  - exact Hhide.
Qed.

(** The call the timer of an edit issues once a note has been opened
    from the dashboard inside the debounce window. *)
Lemma edit_reopen_calls {js : Engine} (s : State) (user : User) (b : string)
    (f : Field) (v : string) (ts : list positive) :
  timers_wf s -> currentUser s = Some user ->
  is_Some (document s !! field_id f) ->
  remote (run (EInput f v :: EShowDashboard :: EOpenNote b :: map ETimer ts) s)
  = remote s
    ++ match List.find (fun n => String.eqb (id n) b) (notesData s) with
       | Some cached =>
           if truthy b && bool_decide (nextTimer s ∈ ts)
           then [UpdateDoc (uid user) b
                   (shown_in "note-title" (document s)
                      (or_else (title cached) ""))
                   (shown_in "note-content" (document s)
                      (or_else (content cached) ""))]
           else []
       | None => []
       end.
Proof.
  intros Hwf Hu Hf.
  change (run (EInput f v :: EShowDashboard :: EOpenNote b :: map ETimer ts) s)
    with (run (map ETimer ts)
            (app.openNote b (app.showDashboard (onInput f v s)))).
  destruct (onInput_session f v s Hwf Hf) as (Hu0 & _ & Hd0 & Hr0 & Ha0).
  set (s1 := app.showDashboard (onInput f v s)).
  assert (Hu1 : currentUser s1 = Some user).
  { unfold s1, app.showDashboard. rewrite currentUser_showView.
    change (currentUser (onInput f v s) = Some user). congruence. }
  assert (Hr1 : remote s1 = remote s)
    by (unfold s1; now rewrite remote_showDashboard).
  assert (Hd1 : notesData s1 = notesData s).
  { unfold s1, app.showDashboard. rewrite notesData_showView. exact Hd0. }
  assert (Ha1 : armed (nextTimer s) s1)
    by (apply (armed_same_timers _ (onInput f v s)), Ha0;
        apply same_timers_showDashboard).
  assert (Hp1 : forall k, is_Some (document s1 !! k) <-> is_Some (document s !! k)).
  { intros k. unfold s1, app.showDashboard. rewrite present_iff_showView.
    apply present_iff_onInput. }
  destruct (openNote_frame b s1) as [Hu2 Hr2].
  rewrite <- Hd1.
  destruct (List.find _ (notesData s1)) as [cached|] eqn:Hfind.
  - destruct (openNote_found b cached s1 Hfind) as (Hc2 & Ht2 & Hb2).
    destruct (truthy b) eqn:Htruthy; cbn [andb].
    + rewrite (run_timers_armed ts (nextTimer s) user b);
        [ | apply (armed_same_timers _ s1), Ha1; apply same_timers_openNote
          | congruence | exact Hc2 | exact Htruthy ].
      rewrite Hr2, Hr1. f_equal. unfold save_call. rewrite Ht2, Hb2.
      now rewrite !(shown_in_iff _ (document s) (document s1)) by apply Hp1.
    + rewrite app_nil_r, run_timers_without_session; [congruence|].
      right. rewrite Hc2. exact Htruthy.
  - rewrite app_nil_r, run_timers_without_session; [congruence|].
    right. now rewrite openNote_missing.
Qed.

(** X2. An edit that is followed, before its debounce timer expires, by a
    return to the dashboard or by a sign-out is disarmed, not cancelled.
    As long as nothing but timers expires afterwards, no call is issued.
    The timer stays pending, though, and its closure runs against the
    session it finds.  When another identity signs in before the timer
    expires, the expiry issues one update call under the new identity,
    directed at the note id that was left open and carrying the text that
    was left in the editor fields, the edited one included.  When a note
    is opened from the dashboard before the timer expires, the expiry
    issues one update call for that note if it is cached, carrying its
    cached title and content as [openNote] wrote them into the fields. *)
Theorem leaving_disarms_pending_edit {js : Engine} (s : State) (f : Field)
    (v : string) (ts : list positive) :
  remote (run (EInput f v :: EShowDashboard :: map ETimer ts) s) = remote s
  /\ remote (run (EInput f v :: EAuthStateChanged None :: map ETimer ts) s)
     = remote s
  /\ (forall (next : User) (noteId : string),
        timers_wf s -> is_Some (document s !! field_id f) ->
        currentNoteId s = Some noteId -> truthy noteId = true ->
        remote (run (EInput f v :: EAuthStateChanged None
                     :: EAuthStateChanged (Some next) :: map ETimer ts) s)
        = remote s
          ++ (if bool_decide (nextTimer s ∈ ts)
              then [UpdateDoc (uid next) noteId
                      (value_of "note-title" (document (onInput f v s)))
                      (value_of "note-content" (document (onInput f v s)))]
              else [])
        /\ value_of (field_id f) (document (onInput f v s)) = v
        /\ (forall k, k <> field_id f ->
              value_of k (document (onInput f v s))
              = value_of k (document s)))
  /\ (forall (user : User) (b : string),
        timers_wf s -> is_Some (document s !! field_id f) ->
        currentUser s = Some user ->
        remote (run (EInput f v :: EShowDashboard :: EOpenNote b
                     :: map ETimer ts) s)
        = remote s
          ++ match List.find (fun n => String.eqb (id n) b) (notesData s) with
             | Some cached =>
                 if truthy b && bool_decide (nextTimer s ∈ ts)
                 then [UpdateDoc (uid user) b
                         (shown_in "note-title" (document s)
                            (or_else (title cached) ""))
                         (shown_in "note-content" (document s)
                            (or_else (content cached) ""))]
                 else []
             | None => []
             end).
Proof.
  split; [|split; [|split]].
  - change (run (EInput f v :: EShowDashboard :: map ETimer ts) s)
      with (run (map ETimer ts) (app.showDashboard (onInput f v s))).
    rewrite run_timers_without_session.
    + now rewrite remote_showDashboard, remote_onInput.
    + right. now rewrite currentNoteId_showDashboard.
  - change (run (EInput f v :: EAuthStateChanged None :: map ETimer ts) s)
      with (run (map ETimer ts) (onAuthStateChanged None (onInput f v s))).
    rewrite run_timers_without_session.
    + now rewrite remote_onAuthStateChanged, remote_onInput.
    + left. apply currentUser_signed_out.
  - intros next noteId Hwf Hf Hopen Ht. split; [|split].
    + apply (edit_relogin_calls s next noteId f v ts Hwf Hf Hopen Ht).
    + now apply value_of_onInput_same.
    + intros k Hk. now apply value_of_onInput_other.
  - intros user b Hwf Hf Hu. now apply edit_reopen_calls.
Qed.

Lemma leaving_disarms_pending_edit_witness :
  remote (run (EInput note_content "private text" :: EAuthStateChanged None
               :: EAuthStateChanged
                    (Some {| uid := "u2"; email := Some "bob@example.org" |})
               :: map ETimer [1%positive]) Sample.editing_a)
  = remote Sample.editing_a
    ++ [UpdateDoc "u2" "a" "Groceries" "private text"].
Proof.
  destruct (leaving_disarms_pending_edit Sample.editing_a note_content
              "private text" [1%positive]) as (_ & _ & Hnext & _).
  assert (Hf : is_Some (document Sample.editing_a !! field_id note_content))
    by (vm_compute; eauto).
  destruct (Hnext {| uid := "u2"; email := Some "bob@example.org" |} "a"
              editing_a_timers_wf Hf eq_refl eq_refl) as (Hcall & _).
  rewrite Hcall. reflexivity.
Defined.
